(** * PathoTracer: the rule-based pathogen predictor

    A shallow embedding of [models/pathogen_predictor.py]
    ([PathogenPredictor]) and the properties of its prediction, risk,
    recommendation, action and breeding-priority logic.

    Python values are dynamically typed: a diagnosis is a [dict] whose
    entries may hold anything, and an operation on a value of the wrong type
    raises.  Every function that can raise returns an [option], [None]
    standing for "an exception was raised"; [predict] catches it, as the
    [try]/[except Exception] of the source does.  Python [float]s are IEEE
    binary64 numbers and are modelled by Rocq's primitive floats, so that the
    sums [0.4 + 0.2] and [0.6 + 0.1 + 0.1] round as they do in the program. *)

From Stdlib Require Import ZArith Floats Lia List String Sorted.
From Stdlib Require Import Ascii.
From stdpp Require Import base option list strings gmap.

Set Warnings "-inexact-float,-register-all".
Set Default Proof Using "Type".

Local Open Scope string_scope.
Local Open Scope Z_scope.
Local Open Scope list_scope.

(** ** Python values *)

Inductive value : Type :=
| VNone
| VBool (b : bool)
| VInt (n : Z)
| VFloat (f : float)
| VStr (s : string)
| VList (l : list value).

(** A diagnosis is a [Dict] with string keys. *)
Abbreviation dict := (gmap string value).

(** [d.get(k, dflt)] *)
Definition dict_get (d : dict) (k : string) (dflt : value) : value :=
  default dflt (d !! k).

(** [d.get(k)], [None] when the key is absent. *)
Definition dict_get_none (d : dict) (k : string) : value :=
  dict_get d k VNone.

(** Truth value of an object ([if symptoms:]). *)
Definition truthy (v : value) : bool :=
  match v with
  | VNone => false
  | VBool b => b
  | VInt n => negb (Z.eqb n 0)
  | VFloat f => negb (PrimFloat.eqb f 0%float)
  | VStr s => negb (String.eqb s "")
  | VList l => match l with [] => false | _ => true end
  end.

(** [lit == v] for a string literal [lit]. *)
Definition str_eq_value (lit : string) (v : value) : bool :=
  match v with
  | VStr s => String.eqb lit s
  | _ => false
  end.

(** [sub in s] on strings: substring test. *)
Definition is_substring (sub s : string) : bool :=
  match String.index 0 sub s with
  | Some _ => true
  | None => false
  end.

(** [lit in container] for a string literal: membership in a list, substring
    of a string, [TypeError] on [None] and on numbers. *)
Definition str_in (lit : string) (container : value) : option bool :=
  match container with
  | VList l => Some (existsb (str_eq_value lit) l)
  | VStr s => Some (is_substring lit s)
  | _ => None
  end.

(** [any(lit in container for lit in lits)]: the generator stops at the first
    hit and raises as soon as one membership test raises. *)
Fixpoint any_in (lits : list string) (container : value) : option bool :=
  match lits with
  | [] => Some false
  | lit :: rest =>
      b ← str_in lit container;
      if b : bool then Some true else any_in rest container
  end.

(** [v in [lit1, lit2, ...]] for a list of string literals: never raises. *)
Definition in_strs (v : value) (lits : list string) : bool :=
  existsb (fun lit => str_eq_value lit v) lits.

(** *** Numeric comparison against an integer

    Every ordering test of the source has an [int] on one side (a literal or
    an entry of the knowledge base).  Python compares an [int] with an [int]
    or a [bool] as integers, with a [float] exactly (no rounding of the
    integer), and raises [TypeError] for [None], [str] and [list]. *)

(** Exact comparison of a binary64 number with an integer; [None] when the
    number is a NaN (every ordering test is then false). *)
Definition float_compare_Z (f : float) (k : Z) : option comparison :=
  match Prim2SF f with
  | S754_nan => None
  | S754_infinity true => Some Lt
  | S754_infinity false => Some Gt
  | S754_zero _ => Some (0 ?= k)
  | S754_finite s m e =>
      let v := if s then Z.neg m else Z.pos m in
      Some (if 0 <=? e then (v * 2 ^ e ?= k) else (v ?= k * 2 ^ (- e)))
  end.

(** Outer [None]: [TypeError]; inner [None]: unordered. *)
Definition compare_int (v : value) (k : Z) : option (option comparison) :=
  match v with
  | VInt n => Some (Some (n ?= k))
  | VBool b => Some (Some ((if b then 1 else 0) ?= k))
  | VFloat f => Some (float_compare_Z f k)
  | VNone | VStr _ | VList _ => None
  end.

Definition is_le (c : option comparison) : bool :=
  match c with Some Lt | Some Eq => true | _ => false end.
Definition is_ge (c : option comparison) : bool :=
  match c with Some Gt | Some Eq => true | _ => false end.
Definition is_gt (c : option comparison) : bool :=
  match c with Some Gt => true | _ => false end.

(** [v <= k], [v >= k] (also written [k <= v]) and [v > k]. *)
Definition le_int (v : value) (k : Z) : option bool := is_le <$> compare_int v k.
Definition ge_int (v : value) (k : Z) : option bool := is_ge <$> compare_int v k.
Definition gt_int (v : value) (k : Z) : option bool := is_gt <$> compare_int v k.

(** The chained comparison [lo <= v <= hi]: the second test is evaluated only
    when the first one holds. *)
Definition between (lo : Z) (v : value) (hi : Z) : option bool :=
  b ← ge_int v lo;
  if b : bool then le_int v hi else Some false.

(** [min(a, b)] on floats: the first argument unless the second is smaller. *)
Definition py_min (a b : float) : float :=
  if (b <? a)%float then b else a.

(** [score += w] under [if cond:]. *)
Definition add_if (cond : bool) (score w : float) : float :=
  if cond then (score + w)%float else score.

(** ** The knowledge base ([_initialize_pathogen_knowledge])

    A profile is a [dict]; a field is [None] when the key is absent, and the
    empty dict [{}] has no key at all.  Ranges are pairs of [int]s. *)

Record FavorableConditions : Type := {
  fc_temperature : option (Z * Z);
  fc_humidity : option (Z * Z);
  fc_rainfall : option string
}.

Record Profile : Type := {
  info_common_name : option string;
  info_type : option string;
  info_symptoms : option (list string);
  info_favorable_conditions : option FavorableConditions;
  info_severity_factors : option (list string);
  info_management : option (list string)
}.

(** The dict [{}]. *)
Definition empty_conditions : FavorableConditions :=
  {| fc_temperature := None; fc_humidity := None; fc_rainfall := None |}.

Definition empty_profile : Profile :=
  {| info_common_name := None; info_type := None; info_symptoms := None;
     info_favorable_conditions := None; info_severity_factors := None;
     info_management := None |}.

(** Truth value of a profile dict: false exactly for [{}]. *)
Definition profile_truthy (info : Profile) : bool :=
  match info with
  | {| info_common_name := None; info_type := None; info_symptoms := None;
       info_favorable_conditions := None; info_severity_factors := None;
       info_management := None |} => false
  | _ => true
  end.

Definition magnaporthe_profile : Profile :=
  {| info_common_name := Some "Rice Blast";
     info_type := Some "Fungal";
     info_symptoms := Some ["leaf spots"; "neck rot"; "panicle blast"];
     info_favorable_conditions :=
       Some {| fc_temperature := Some (20, 30);
               fc_humidity := Some (85, 100);
               fc_rainfall := Some "high" |};
     info_severity_factors := Some ["growth_stage"; "variety_susceptibility"];
     info_management :=
       Some ["Use resistant varieties";
             "Apply fungicides at early growth stages";
             "Improve field drainage";
             "Balanced fertilization"] |}.

Definition rhizoctonia_profile : Profile :=
  {| info_common_name := Some "Sheath Blight";
     info_type := Some "Fungal";
     info_symptoms := Some ["sheath blight"; "lesions"; "yellowing"];
     info_favorable_conditions :=
       Some {| fc_temperature := Some (25, 32);
               fc_humidity := Some (80, 100);
               fc_rainfall := Some "moderate to high" |};
     info_severity_factors := Some ["plant_density"; "nitrogen_level"];
     info_management :=
       Some ["Reduce plant density";
             "Balanced nitrogen application";
             "Apply fungicides at tillering stage";
             "Improve air circulation"] |}.

Definition xanthomonas_profile : Profile :=
  {| info_common_name := Some "Bacterial Leaf Blight";
     info_type := Some "Bacterial";
     info_symptoms := Some ["leaf blight"; "yellowing"; "wilting"];
     info_favorable_conditions :=
       Some {| fc_temperature := Some (25, 34);
               fc_humidity := Some (70, 100);
               fc_rainfall := Some "high with flooding" |};
     info_severity_factors := Some ["wound_entry"; "variety_susceptibility"];
     info_management :=
       Some ["Use certified seeds";
             "Apply copper-based bactericides";
             "Avoid excessive nitrogen";
             "Manage water levels"] |}.

Definition pathogen_knowledge : gmap string Profile :=
  <["Magnaporthe oryzae" := magnaporthe_profile]>
  (<["Rhizoctonia solani" := rhizoctonia_profile]>
  (<["Xanthomonas oryzae" := xanthomonas_profile]> ∅)).

(** ** Rule-based prediction *)

(** An entry of [predictions]: [{'pathogen': ..., 'confidence': ...}]. *)
Record Candidate : Type := {
  cand_pathogen : string;
  cand_confidence : float
}.

(** The three raw scores, each accumulated from [0] by its four [if]s, in
    the order of the source. *)
Definition blast_score (d : dict) : option float :=
  let symptoms := dict_get d "symptoms" (VList []) in
  let temperature := dict_get d "temperature" (VInt 25) in
  let humidity := dict_get d "humidity" (VInt 80) in
  let score := 0%float in
  c ← any_in ["leaf spots"; "neck rot"; "panicle blast"] symptoms;
  let score := add_if c score 0.4 in
  c ← between 20 temperature 30;
  let score := add_if c score 0.2 in
  c ← ge_int humidity 85;
  let score := add_if c score 0.2 in
  let c := in_strs (dict_get_none d "growth_stage") ["Heading"; "Flowering"] in
  let score := add_if c score 0.2 in
  Some score.

Definition blight_score (d : dict) : option float :=
  let symptoms := dict_get d "symptoms" (VList []) in
  let temperature := dict_get d "temperature" (VInt 25) in
  let humidity := dict_get d "humidity" (VInt 80) in
  let score := 0%float in
  c ← any_in ["sheath blight"; "lesions"; "yellowing"] symptoms;
  let score := add_if c score 0.4 in
  c ← between 25 temperature 32;
  let score := add_if c score 0.2 in
  c ← ge_int humidity 80;
  let score := add_if c score 0.2 in
  let c := in_strs (dict_get_none d "growth_stage") ["Tillering"; "Stem elongation"] in
  let score := add_if c score 0.2 in
  Some score.

Definition bacterial_score (d : dict) : option float :=
  let symptoms := dict_get d "symptoms" (VList []) in
  let temperature := dict_get d "temperature" (VInt 25) in
  let humidity := dict_get d "humidity" (VInt 80) in
  let score := 0%float in
  c ← any_in ["leaf blight"; "yellowing"; "wilting"] symptoms;
  let score := add_if c score 0.4 in
  c ← between 25 temperature 34;
  let score := add_if c score 0.2 in
  c ← ge_int humidity 70;
  let score := add_if c score 0.2 in
  c ← gt_int (dict_get d "rainfall" (VInt 0)) 10;
  let score := add_if c score 0.2 in
  Some score.

(** [if score > 0.5: predictions.append({... min(score, 0.95)})] *)
Definition append_if_strong (predictions : list Candidate) (pathogen : string)
    (score : float) : list Candidate :=
  if (0.5 <? score)%float
  then predictions ++ [{| cand_pathogen := pathogen;
                          cand_confidence := py_min score 0.95 |}]
  else predictions.

(** The body of [_rule_based_prediction] up to the last rule: the state of
    [predictions] when the "no strong predictions" test is reached. *)
Definition rule_candidates (d : dict) : option (list Candidate) :=
  let predictions := [] in
  score ← blast_score d;
  let predictions := append_if_strong predictions "Magnaporthe oryzae" score in
  score ← blight_score d;
  let predictions := append_if_strong predictions "Rhizoctonia solani" score in
  score ← bacterial_score d;
  let predictions := append_if_strong predictions "Xanthomonas oryzae" score in
  Some predictions.

(** [if not predictions: ...], the default when no rule was strong. *)
Definition default_candidates (d : dict) : list Candidate :=
  let symptoms := dict_get d "symptoms" (VList []) in
  if truthy symptoms
  then [{| cand_pathogen := "Magnaporthe oryzae"; cand_confidence := 0.6 |}]
  else [{| cand_pathogen := "Unknown"; cand_confidence := 0.3 |}].

Definition _rule_based_prediction (d : dict) : option (list Candidate) :=
  predictions ← rule_candidates d;
  Some (match predictions with
        | [] => default_candidates d
        | _ => predictions
        end).

(** ** Risk level, recommendations and action *)

(** The bonus for one favourable range: [if 'temperature' in
    favorable_conditions: ... if r[0] <= temp <= r[1]: base_risk += 0.1]. *)
Definition range_bonus (range : option (Z * Z)) (reading : value)
    (base_risk : float) : option float :=
  match range with
  | Some (lo, hi) =>
      c ← between lo reading hi;
      Some (add_if c base_risk 0.1)
  | None => Some base_risk
  end.

(** The final [if]/[elif]/[else] of [_calculate_risk_level]. *)
Definition classify_risk (base_risk : float) : string :=
  if (0.8 <=? base_risk)%float then "High"
  else if (0.6 <=? base_risk)%float then "Medium"
  else "Low".

Definition _calculate_risk_level (confidence : float) (d : dict)
    (pathogen_info : Profile) : option string :=
  let base_risk := confidence in
  base_risk ←
    match (if profile_truthy pathogen_info
           then info_favorable_conditions pathogen_info else None) with
    | Some favorable_conditions =>
        let temp := dict_get d "temperature" (VInt 25) in
        let humidity := dict_get d "humidity" (VInt 80) in
        base_risk ← range_bonus (fc_temperature favorable_conditions) temp base_risk;
        range_bonus (fc_humidity favorable_conditions) humidity base_risk
    | None => Some base_risk
    end;
  let severity := dict_get d "severity" (VInt 5) in
  let affected_area := dict_get d "affected_area" (VInt 25) in
  c ← ge_int severity 7;
  let base_risk := add_if c base_risk 0.1 in
  c ← ge_int affected_area 50;
  let base_risk := add_if c base_risk 0.1 in
  Some (classify_risk base_risk).

Definition _get_management_recommendations (pathogen : string) (d : dict)
    (pathogen_info : Profile) : option (list string) :=
  let recommendations : list string := [] in
  let recommendations :=
    match (if profile_truthy pathogen_info
           then info_management pathogen_info else None) with
    | Some management => (recommendations ++ management)%list
    | None => recommendations
    end in
  let growth_stage := dict_get d "growth_stage" (VStr "Tillering") in
  let severity := dict_get d "severity" (VInt 5) in
  c ← ge_int severity 7;
  let recommendations :=
    if c : bool
    then "Immediate intervention required due to high severity" :: recommendations
    else recommendations in
  let recommendations :=
    if in_strs growth_stage ["Flowering"; "Grain filling"]
    then (recommendations ++ ["Apply protective measures to prevent grain infection"])%list
    else recommendations in
  let humidity := dict_get d "humidity" (VInt 80) in
  c ← ge_int humidity 85;
  let recommendations :=
    if c : bool
    then (recommendations ++ ["Improve field ventilation to reduce humidity"])%list
    else recommendations in
  Some (firstn 5 recommendations).

Definition _determine_action (risk_level : string) (confidence : float) : string :=
  if String.eqb risk_level "High" && (0.8 <=? confidence)%float
  then "Immediate Treatment"
  else if String.eqb risk_level "High" && (0.6 <=? confidence)%float
  then "Urgent Monitoring"
  else if String.eqb risk_level "Medium"
  then "Preventive Action"
  else "Monitor & Observe".

(** ** Enhanced predictions *)

Record EnhancedPrediction : Type := {
  pathogen : string;
  common_name : string;
  pathogen_type : string;
  confidence : float;
  risk_level : string;
  action : string;
  recommendations : list string;
  favorable_conditions : FavorableConditions;
  typical_symptoms : list string
}.

(** [self.pathogen_knowledge.get(pathogen, {})] *)
Definition lookup_profile (pathogen : string) : Profile :=
  default empty_profile (pathogen_knowledge !! pathogen).

Definition _enhance_prediction (result : Candidate) (d : dict)
    : option EnhancedPrediction :=
  let pathogen := cand_pathogen result in
  let confidence := cand_confidence result in
  let pathogen_info := lookup_profile pathogen in
  risk_level ← _calculate_risk_level confidence d pathogen_info;
  recommendations ← _get_management_recommendations pathogen d pathogen_info;
  let action := _determine_action risk_level confidence in
  Some {| pathogen := pathogen;
          common_name := default pathogen (info_common_name pathogen_info);
          pathogen_type := default "Unknown" (info_type pathogen_info);
          confidence := confidence;
          risk_level := risk_level;
          action := action;
          recommendations := recommendations;
          favorable_conditions :=
            default empty_conditions (info_favorable_conditions pathogen_info);
          typical_symptoms := default [] (info_symptoms pathogen_info) |}.

Definition _fallback_prediction (d : dict) : list EnhancedPrediction :=
  [{| pathogen := "Unknown Pathogen";
      common_name := "Unknown Disease";
      pathogen_type := "Unknown";
      confidence := 0.3;
      risk_level := "Medium";
      action := "Laboratory Analysis Needed";
      recommendations :=
        ["Submit sample for laboratory analysis";
         "Monitor field conditions closely";
         "Apply general fungicide as precaution";
         "Consult agricultural extension officer"];
      favorable_conditions := empty_conditions;
      typical_symptoms := [] |}].

(** The body of the [try] block of [predict]; [None] when it raised. *)
Definition predict_try (d : dict) : option (list EnhancedPrediction) :=
  predictions ← _rule_based_prediction d;
  mapM (fun result => _enhance_prediction result d) predictions.

(** [predict]: the [except Exception] branch returns the fallback. *)
Definition predict (d : dict) : list EnhancedPrediction :=
  match predict_try d with
  | Some enhanced_results => enhanced_results
  | None => _fallback_prediction d
  end.

(** ** Well-typed observations

    The Observation of the data model: [symptoms] is a list, the readings
    are numbers; a missing key is allowed (the defaults apply). *)

Definition is_number (v : value) : bool :=
  match v with
  | VInt _ | VFloat _ | VBool _ => true
  | _ => false
  end.

Definition is_list (v : value) : bool :=
  match v with
  | VList _ => true
  | _ => false
  end.

Definition well_typed (d : dict) : bool :=
  is_list (dict_get d "symptoms" (VList []))
  && is_number (dict_get d "temperature" (VInt 25))
  && is_number (dict_get d "humidity" (VInt 80))
  && is_number (dict_get d "rainfall" (VInt 0))
  && is_number (dict_get d "severity" (VInt 5))
  && is_number (dict_get d "affected_area" (VInt 25)).

(** Sample observations. *)
Definition obs (l : list (string * value)) : dict := list_to_map l.

Definition scenario_obs : dict :=
  obs [("symptoms", VList [VStr "leaf blight"; VStr "wilting"]);
       ("temperature", VInt 30); ("humidity", VInt 75); ("rainfall", VInt 15);
       ("growth_stage", VStr "Tillering"); ("severity", VInt 8);
       ("affected_area", VInt 60)].

(** Two rules are strong, the weaker one first. *)
Definition mixed_obs : dict :=
  obs [("symptoms", VList [VStr "wilting"]); ("temperature", VInt 28);
       ("humidity", VInt 90); ("rainfall", VInt 20);
       ("growth_stage", VStr "Heading")].

(** A severe case at flowering, in humid air. *)
Definition flowering_obs : dict :=
  obs [("symptoms", VList [VStr "leaf spots"]); ("temperature", VInt 25);
       ("humidity", VInt 90); ("growth_stage", VStr "Flowering");
       ("severity", VInt 9); ("affected_area", VInt 10)].

(** A severity that is not a number. *)
Definition ill_typed_obs : dict :=
  obs [("symptoms", VList [VStr "leaf spots"]); ("severity", VStr "high")].

(** Symptoms outside every symptom set, favourable weather. *)
Definition weak_obs : dict :=
  obs [("symptoms", VList [VStr "brown edges"]); ("temperature", VFloat 26.5);
       ("humidity", VInt 90)].

(** ** Breeding recommendations

    [get_breeding_recommendations] receives a pandas [DataFrame] and lets
    pandas aggregate it ([groupby('pathogen')['resistance_score'].agg(['mean',
    'std', 'count'])]).  pandas and the builtin [round] are outside the
    repository: the frame type, its [empty] test, the aggregation (the rows
    of [pathogen_resistance] in the order [iterrows] yields them, or an
    exception) and [round(x, 2)] are parameters of the development. *)

(** One row of the aggregate: [stats['mean']], [stats['std']] (NaN when the
    group has fewer than two samples) and [stats['count']]. *)
Record Stats : Type := {
  stat_mean : float;
  stat_std : float;
  stat_count : float
}.

Record BreedingRecommendation : Type := {
  br_pathogen : string;
  br_priority : string;
  br_recommendation : string;
  br_current_avg_resistance : float;
  br_variability : value
}.

(** [priority_order = {'High': 1, 'Medium': 2, 'Low': 3}] *)
Definition priority_order : gmap string Z :=
  <["High" := 1]> (<["Medium" := 2]> (<["Low" := 3]> ∅)).

(** [list.sort(key=...)] is stable: among the orderings of the list by
    ascending key it yields the one that keeps equal keys in their original
    order.  Insertion from the right, before the first element whose key is
    not smaller, computes it. *)
Fixpoint insert_by_key {A : Type} (k : Z) (x : A) (l : list (Z * A)) : list (Z * A) :=
  match l with
  | [] => [(k, x)]
  | (k', y) :: rest =>
      if k <=? k' then (k, x) :: (k', y) :: rest
      else (k', y) :: insert_by_key k x rest
  end.

Definition stable_sort_keyed {A : Type} (l : list (Z * A)) : list (Z * A) :=
  foldr (fun kx acc => insert_by_key (fst kx) (snd kx) acc) [] l.

(** [l.sort(key=key)]: the keys are computed first (one of them raising
    aborts the sort), then the list is ordered by them. *)
Definition sort_by_key {A : Type} (key : A -> option Z) (l : list A) : option (list A) :=
  keys ← mapM key l;
  Some ((stable_sort_keyed (zip keys l)).*2).

Section Breeding.

Variable DataFrame : Type.
Variable df_empty : DataFrame -> bool.
Variable groupby_agg : DataFrame -> option (list (string * Stats)).
Variable round2 : float -> float.

(** The body of the loop over [pathogen_resistance.iterrows()]. *)
Definition breeding_recommendation (row : string * Stats) : BreedingRecommendation :=
  let pathogen := fst row in
  let stats := snd row in
  let avg_resistance := stat_mean stats in
  let variability := stat_std stats in
  let sample_count := stat_count stats in
  let '(priority, recommendation) :=
    if (avg_resistance <? 4)%float
    then ("High",
          "Urgent need to develop varieties with higher resistance to " +:+ pathogen)
    else if (avg_resistance <? 6)%float
    then ("Medium",
          "Improve resistance levels to " +:+ pathogen +:+ " through selective breeding")
    else ("Low", "Maintain current resistance levels to " +:+ pathogen) in
  let recommendation :=
    if (2 <? variability)%float
    then recommendation +:+ " - Focus on reducing variability between varieties"
    else recommendation in
  {| br_pathogen := pathogen;
     br_priority := priority;
     br_recommendation := recommendation;
     br_current_avg_resistance := round2 avg_resistance;
     br_variability :=
       if negb (PrimFloat.is_nan variability)
       then VFloat (round2 variability) else VInt 0 |}.

(** The body of the [try] block; [None] when it raised. *)
Definition breeding_try (resistance_data : DataFrame)
    : option (list BreedingRecommendation) :=
  let recommendations := [] in
  if df_empty resistance_data then Some recommendations
  else
    pathogen_resistance ← groupby_agg resistance_data;
    let recommendations :=
      (recommendations ++ map breeding_recommendation pathogen_resistance)%list in
    sort_by_key (fun x => priority_order !! br_priority x) recommendations.

Definition get_breeding_recommendations (resistance_data : DataFrame)
    : list BreedingRecommendation :=
  match breeding_try resistance_data with
  | Some recommendations => recommendations
  | None => []
  end.

End Breeding.

(** A frame that is already its own aggregate, for the examples. *)
Definition rows_frame : Type := list (string * Stats).
Definition rows_empty (rows : rows_frame) : bool :=
  match rows with [] => true | _ => false end.
Definition rows_agg (rows : rows_frame) : option (list (string * Stats)) := Some rows.
Definition breeding_of_rows : rows_frame -> list BreedingRecommendation :=
  get_breeding_recommendations rows_frame rows_empty rows_agg (fun x => x).

Definition stat (m s n : float) : Stats :=
  {| stat_mean := m; stat_std := s; stat_count := n |}.

(** The rows C, A, B of the ordering example. *)
Definition sample_rows : rows_frame :=
  [("C", stat 8 1 3); ("A", stat 3 1 3); ("B", stat 5 1 3)].

(** ** The rule table of the specification

    The specification describes the scorer as a table: per pathogen a symptom
    set, a temperature range, a humidity threshold and one extra condition,
    each worth a fixed weight, the raw score being the sum of the weights of
    the conditions that hold.  [spec_candidates] follows those words; the
    theorems below compare it with [rule_candidates], which follows the
    source. *)

(** A test that raised counts as not satisfied. *)
Definition holds (c : option bool) : bool := default false c.

(** The weight of a rule when its condition holds, [0] otherwise. *)
Definition contribution (c : bool) (w : float) : float :=
  if c then w else 0%float.

Record Rule : Type := {
  rule_pathogen : string;
  rule_symptoms : list string;
  rule_temperature : Z * Z;
  rule_humidity : Z;
  rule_extra : dict -> bool
}.

Definition growth_stage_in (stages : list string) (d : dict) : bool :=
  in_strs (dict_get_none d "growth_stage") stages.

Definition rainfall_above (k : Z) (d : dict) : bool :=
  holds (gt_int (dict_get d "rainfall" (VInt 0)) k).

Definition blast_rule : Rule :=
  {| rule_pathogen := "Magnaporthe oryzae";
     rule_symptoms := ["leaf spots"; "neck rot"; "panicle blast"];
     rule_temperature := (20, 30);
     rule_humidity := 85;
     rule_extra := growth_stage_in ["Heading"; "Flowering"] |}.

Definition blight_rule : Rule :=
  {| rule_pathogen := "Rhizoctonia solani";
     rule_symptoms := ["sheath blight"; "lesions"; "yellowing"];
     rule_temperature := (25, 32);
     rule_humidity := 80;
     rule_extra := growth_stage_in ["Tillering"; "Stem elongation"] |}.

Definition bacterial_rule : Rule :=
  {| rule_pathogen := "Xanthomonas oryzae";
     rule_symptoms := ["leaf blight"; "yellowing"; "wilting"];
     rule_temperature := (25, 34);
     rule_humidity := 70;
     rule_extra := rainfall_above 10 |}.

(** Evaluation order: Magnaporthe, Rhizoctonia, Xanthomonas. *)
Definition spec_rules : list Rule := [blast_rule; blight_rule; bacterial_rule].

Definition symptom_matches (r : Rule) (d : dict) : bool :=
  holds (any_in (rule_symptoms r) (dict_get d "symptoms" (VList []))).

Definition temperature_matches (r : Rule) (d : dict) : bool :=
  holds (between (fst (rule_temperature r))
                 (dict_get d "temperature" (VInt 25))
                 (snd (rule_temperature r))).

Definition humidity_matches (r : Rule) (d : dict) : bool :=
  holds (ge_int (dict_get d "humidity" (VInt 80)) (rule_humidity r)).

(** The raw score: the sum of the four independent contributions. *)
Definition spec_raw_score (r : Rule) (d : dict) : float :=
  (0 + contribution (symptom_matches r d) 0.4
     + contribution (temperature_matches r d) 0.2
     + contribution (humidity_matches r d) 0.2
     + contribution (rule_extra r d) 0.2)%float.

(** A pathogen is a candidate when its raw score strictly exceeds [0.5]; its
    confidence is [min(rawScore, 0.95)]. *)
Definition spec_candidate (r : Rule) (d : dict) : option Candidate :=
  let s := spec_raw_score r d in
  if (0.5 <? s)%float
  then Some {| cand_pathogen := rule_pathogen r; cand_confidence := py_min s 0.95 |}
  else None.

(** The candidates, in the order of the table. *)
Definition spec_candidates (d : dict) : list Candidate :=
  omap (fun r => spec_candidate r d) spec_rules.

(** The conditions of the risk bonuses and of the recommendations. *)
Definition in_range (range : option (Z * Z)) (reading : value) : bool :=
  match range with
  | Some (lo, hi) => holds (between lo reading hi)
  | None => false
  end.

Definition profile_conditions (info : Profile) : FavorableConditions :=
  default empty_conditions (info_favorable_conditions info).

Definition temperature_favorable (d : dict) (info : Profile) : bool :=
  in_range (fc_temperature (profile_conditions info))
           (dict_get d "temperature" (VInt 25)).

Definition humidity_favorable (d : dict) (info : Profile) : bool :=
  in_range (fc_humidity (profile_conditions info))
           (dict_get d "humidity" (VInt 80)).

Definition severity_high (d : dict) : bool :=
  holds (ge_int (dict_get d "severity" (VInt 5)) 7).

Definition area_large (d : dict) : bool :=
  holds (ge_int (dict_get d "affected_area" (VInt 25)) 50).

Definition humidity_high (d : dict) : bool :=
  holds (ge_int (dict_get d "humidity" (VInt 80)) 85).

Definition grain_stage (d : dict) : bool :=
  in_strs (dict_get d "growth_stage" (VStr "Tillering")) ["Flowering"; "Grain filling"].

(** [baseRisk]: the confidence plus [0.1] for each bonus that applies. *)
Definition spec_base_risk (confidence : float) (d : dict) (info : Profile) : float :=
  add_if (area_large d)
    (add_if (severity_high d)
       (add_if (humidity_favorable d info)
          (add_if (temperature_favorable d info) confidence 0.1) 0.1) 0.1) 0.1.

(** The recommendation list before truncation. *)
Definition spec_recommendations (d : dict) (info : Profile) : list string :=
  ((if severity_high d
    then ["Immediate intervention required due to high severity"] else [])
   ++ default [] (info_management info)
   ++ (if grain_stage d
       then ["Apply protective measures to prevent grain infection"] else [])
   ++ (if humidity_high d
       then ["Improve field ventilation to reduce humidity"] else []))%list.

(** ** The conditions, read on the observation itself

    The table once more, written without any function of the embedding
    above: an entry is read with the map's own lookup, a number is compared
    by its exact value, a symptom and a growth stage are matched by string
    equality, and sums and minima are spelled out.  The statements about
    the scorer, the risk level and the recommendations are written with
    these definitions. *)

(** An entry of the observation, or the default of the data model. *)
Definition reading (d : dict) (key : string) (dflt : value) : value :=
  match d !! key with
  | Some v => v
  | None => dflt
  end.

(** A number by its exact value: the fraction [num / 2 ^ shift], or an
    infinity. *)
Inductive number : Type :=
| Ratio (num shift : Z)
| Infinite (negative : bool).

(** A binary64 number [(-1)^s * m * 2^e] is [m * 2^e / 1] or [m / 2^(-e)];
    a NaN, and what is not a number, has no value. *)
Definition exact_value (v : value) : option number :=
  match v with
  | VInt n => Some (Ratio n 0)
  | VBool b => Some (Ratio (if b then 1 else 0) 0)
  | VFloat f =>
      match Prim2SF f with
      | S754_zero _ => Some (Ratio 0 0)
      | S754_finite negative m e =>
          let m := if negative then Z.neg m else Z.pos m in
          Some (Ratio (m * 2 ^ Z.max 0 e) (Z.max 0 (- e)))
      | S754_infinity negative => Some (Infinite negative)
      | S754_nan => None
      end
  | VNone | VStr _ | VList _ => None
  end.

(** [v >= k], [v <= k] and [v > k] for an integer [k]. *)
Definition at_least (v : value) (k : Z) : bool :=
  match exact_value v with
  | Some (Ratio num shift) => k * 2 ^ shift <=? num
  | Some (Infinite negative) => negb negative
  | None => false
  end.

Definition at_most (v : value) (k : Z) : bool :=
  match exact_value v with
  | Some (Ratio num shift) => num <=? k * 2 ^ shift
  | Some (Infinite negative) => negative
  | None => false
  end.

Definition above (v : value) (k : Z) : bool :=
  match exact_value v with
  | Some (Ratio num shift) => k * 2 ^ shift <? num
  | Some (Infinite negative) => negb negative
  | None => false
  end.

(** [v] lies in the range, ends included; no range, no match. *)
Definition within (range : option (Z * Z)) (v : value) : bool :=
  match range with
  | Some (lo, hi) => at_least v lo && at_most v hi
  | None => false
  end.

(** The entry [v] of a symptom list is the symptom [name]. *)
Definition names (v : value) (name : string) : bool :=
  match v with
  | VStr s => String.eqb name s
  | _ => false
  end.

(** The symptom list holds a symptom of the set. *)
Definition mentions (symptoms : value) (symptom_set : list string) : bool :=
  match symptoms with
  | VList l => existsb (fun name => existsb (fun v => names v name) l) symptom_set
  | _ => false
  end.

(** The growth stage is given and is one of [stages]. *)
Definition stage_among (d : dict) (stages : list string) : bool :=
  match d !! "growth_stage" with
  | Some (VStr s) => existsb (fun stage => String.eqb stage s) stages
  | _ => false
  end.

(** The fourth condition of a row. *)
Inductive Extra : Type :=
| StageAmong (stages : list string)
| RainfallAbove (k : Z).

Record Row : Type := {
  row_pathogen : string;
  row_symptoms : list string;
  row_temperature : Z * Z;
  row_humidity : Z;
  row_extra : Extra
}.

Definition blast_row : Row :=
  {| row_pathogen := "Magnaporthe oryzae";
     row_symptoms := ["leaf spots"; "neck rot"; "panicle blast"];
     row_temperature := (20, 30);
     row_humidity := 85;
     row_extra := StageAmong ["Heading"; "Flowering"] |}.

Definition blight_row : Row :=
  {| row_pathogen := "Rhizoctonia solani";
     row_symptoms := ["sheath blight"; "lesions"; "yellowing"];
     row_temperature := (25, 32);
     row_humidity := 80;
     row_extra := StageAmong ["Tillering"; "Stem elongation"] |}.

Definition bacterial_row : Row :=
  {| row_pathogen := "Xanthomonas oryzae";
     row_symptoms := ["leaf blight"; "yellowing"; "wilting"];
     row_temperature := (25, 34);
     row_humidity := 70;
     row_extra := RainfallAbove 10 |}.

Definition table : list Row := [blast_row; blight_row; bacterial_row].

Definition extra_holds (extra : Extra) (d : dict) : bool :=
  match extra with
  | StageAmong stages => stage_among d stages
  | RainfallAbove k => above (reading d "rainfall" (VInt 0)) k
  end.

(** The raw score of a row: [0.4] for a symptom of its set, [0.2] for each
    of its three conditions, added in this order. *)
Definition row_score (row : Row) (d : dict) : float :=
  (0
   + (if mentions (reading d "symptoms" (VList [])) (row_symptoms row)
      then 0.4 else 0)
   + (if within (Some (row_temperature row)) (reading d "temperature" (VInt 25))
      then 0.2 else 0)
   + (if at_least (reading d "humidity" (VInt 80)) (row_humidity row)
      then 0.2 else 0)
   + (if extra_holds (row_extra row) d then 0.2 else 0))%float.

(** The rule of a row. *)
Definition rule_of (row : Row) : Rule :=
  {| rule_pathogen := row_pathogen row;
     rule_symptoms := row_symptoms row;
     rule_temperature := row_temperature row;
     rule_humidity := row_humidity row;
     rule_extra :=
       match row_extra row with
       | StageAmong stages => growth_stage_in stages
       | RainfallAbove k => rainfall_above k
       end |}.

(** A severity of 8 and nothing else. *)
Definition severe_obs : dict := obs [("severity", VInt 8)].

(** ** What [predict] reads from an observation

    The source reads seven keys.  Three tests look at the growth stage: two
    rules through [get('growth_stage')] and the recommendations through
    [get('growth_stage', 'Tillering')]. *)

Definition is_str (v : value) : bool :=
  match v with
  | VStr _ => true
  | _ => false
  end.

(** The observations on which no test of the source raises: [symptoms] is a
    list or a string, the five readings are numbers. *)
Definition accepted (d : dict) : bool :=
  (is_list (dict_get d "symptoms" (VList []))
   || is_str (dict_get d "symptoms" (VList [])))
  && is_number (dict_get d "temperature" (VInt 25))
  && is_number (dict_get d "humidity" (VInt 80))
  && is_number (dict_get d "rainfall" (VInt 0))
  && is_number (dict_get d "severity" (VInt 5))
  && is_number (dict_get d "affected_area" (VInt 25)).

(** Two observations that answer every read of the source alike. *)
Definition same_fields (d d' : dict) : Prop :=
  dict_get d "symptoms" (VList []) = dict_get d' "symptoms" (VList [])
  /\ dict_get d "temperature" (VInt 25) = dict_get d' "temperature" (VInt 25)
  /\ dict_get d "humidity" (VInt 80) = dict_get d' "humidity" (VInt 80)
  /\ dict_get d "rainfall" (VInt 0) = dict_get d' "rainfall" (VInt 0)
  /\ dict_get d "severity" (VInt 5) = dict_get d' "severity" (VInt 5)
  /\ dict_get d "affected_area" (VInt 25) = dict_get d' "affected_area" (VInt 25)
  /\ growth_stage_in ["Heading"; "Flowering"] d
     = growth_stage_in ["Heading"; "Flowering"] d'
  /\ growth_stage_in ["Tillering"; "Stem elongation"] d
     = growth_stage_in ["Tillering"; "Stem elongation"] d'
  /\ grain_stage d = grain_stage d'.

(** How many of the four risk bonuses apply. *)
Definition bonus_count (d : dict) (info : Profile) : nat :=
  (Nat.b2n (temperature_favorable d info) + Nat.b2n (humidity_favorable d info)
   + Nat.b2n (severity_high d) + Nat.b2n (area_large d))%nat.

(** The default of every read that has one. *)
Definition reading_defaults : list (string * value) :=
  [("symptoms", VList []); ("temperature", VInt 25); ("humidity", VInt 80);
   ("rainfall", VInt 0); ("severity", VInt 5); ("affected_area", VInt 25)].

(** Yellowing in warm dry air. *)
Definition yellowing_obs : dict :=
  obs [("symptoms", VList [VStr "yellowing"]); ("temperature", VFloat 31.5);
       ("humidity", VInt 40)].

(** Lesions in cool dry air, no growth stage given. *)
Definition stageless_obs : dict :=
  obs [("symptoms", VList [VStr "lesions"]); ("temperature", VInt 10);
       ("humidity", VInt 50)].

(** The keys [predict] reads. *)
Definition observation_keys : list string :=
  ["symptoms"; "temperature"; "humidity"; "rainfall"; "growth_stage";
   "severity"; "affected_area"].

(** The growth stages some test of the source names. *)
Definition named_stages : list string :=
  ["Heading"; "Flowering"; "Tillering"; "Stem elongation"; "Grain filling"].

(** The names [predict] can report. *)
Definition known_pathogens : list string :=
  ["Magnaporthe oryzae"; "Rhizoctonia solani"; "Xanthomonas oryzae"].

(** When a row of the rule table is strong, in terms of its four tests. *)
Definition strong_rule (r : Rule) (d : dict) : bool :=
  (symptom_matches r d
   && (temperature_matches r d || humidity_matches r d || rule_extra r d))
  || (temperature_matches r d && humidity_matches r d && rule_extra r d).

(** The confidence of a strong row: [0.95] when all four tests hold, [0.8]
    for a symptom with two of the other three, else the binary64 sum of
    [0.4 + 0.2] (or of three times [0.2]). *)
Definition rule_confidence (r : Rule) (d : dict) : float :=
  let s := symptom_matches r d in
  let t := temperature_matches r d in
  let h := humidity_matches r d in
  let x := rule_extra r d in
  if s && t && h && x then 0.95%float
  else if s && ((t && h) || (t && x) || (h && x)) then 0.8%float
  else 0.6000000000000001%float.

(** The three notices [_get_management_recommendations] can add. *)
Definition severity_notice : string :=
  "Immediate intervention required due to high severity".
Definition grain_notice : string :=
  "Apply protective measures to prevent grain infection".
Definition ventilation_notice : string :=
  "Improve field ventilation to reduce humidity".

(** The name and the confidence of a prediction and of a candidate. *)
Definition prediction_key (e : EnhancedPrediction) : string * float :=
  (pathogen e, confidence e).
Definition candidate_key (c : Candidate) : string * float :=
  (cand_pathogen c, cand_confidence c).

(** * The configuration store ([config/settings.py], class [Config])

    [self.config] is a dict of dicts read and written through dotted keys.
    A stored value is a nested dict or a leaf; a dict keeps its entries in
    insertion order.  A method that mutates the configuration returns the
    configuration it leaves behind together with a flag telling whether it
    returned normally ([true]) or raised ([false]); the file written by
    [_save_config], whose failures the source swallows, is not modelled.
    Stored values are taken as trees here; [ConfigObjects] below models the
    dicts as objects, for what depends on one dict sitting at two places of
    the configuration. *)

Module Config.

Inductive cval : Type :=
| CLeaf (v : value)
| CDict (items : list (string * cval)).

Abbreviation cdict := (list (string * cval)).

(** [m[k]] for a key that may be missing. *)
Fixpoint dict_lookup (m : cdict) (k : string) : option cval :=
  match m with
  | [] => None
  | (k', v) :: rest => if String.eqb k k' then Some v else dict_lookup rest k
  end.

(** [m[k] = v]: replaces the entry in place, or appends a new one. *)
Fixpoint dict_assign (m : cdict) (k : string) (v : cval) : cdict :=
  match m with
  | [] => [(k, v)]
  | (k', v') :: rest =>
      if String.eqb k k' then (k', v) :: rest
      else (k', v') :: dict_assign rest k v
  end.

(** [key.split('.')]: never empty; an empty piece for each leading,
    trailing or doubled dot. *)
Fixpoint split_dot (key : string) : list string :=
  match key with
  | EmptyString => [EmptyString]
  | String c rest =>
      if Ascii.eqb c "."%char then EmptyString :: split_dot rest
      else match split_dot rest with
           | piece :: pieces => String c piece :: pieces
           | [] => [String c EmptyString]
           end
  end.

(** The loop of [get]: descend while the value is a dict holding the key. *)
Fixpoint walk (value : cval) (keys : list string) : option cval :=
  match keys with
  | [] => Some value
  | key_part :: rest =>
      match value with
      | CDict m =>
          match dict_lookup m key_part with
          | Some v => walk v rest
          | None => None
          end
      | CLeaf _ => None
      end
  end.

Definition get (config : cdict) (key : string) (dflt : cval) : cval :=
  default dflt (walk (CDict config) (split_dot key)).

(** The body of [set] on the dict [config_ref] reached so far: a missing
    intermediate key gets an empty dict before the descent; descending into
    a value that is not a dict, or assigning into it, raises. *)
Fixpoint set_keys (config_ref : cdict) (keys : list string) (value : cval)
    : cdict * bool :=
  match keys with
  | [] => (config_ref, false)
  | [last] => (dict_assign config_ref last value, true)
  | key_part :: (_ :: _) as rest =>
      let config_ref :=
        match dict_lookup config_ref key_part with
        | None => dict_assign config_ref key_part (CDict [])
        | Some _ => config_ref
        end in
      match dict_lookup config_ref key_part with
      | Some (CDict sub) =>
          let '(sub, ok) := set_keys sub rest value in
          (dict_assign config_ref key_part (CDict sub), ok)
      | _ => (config_ref, false)
      end
  end.

Definition set (config : cdict) (key : string) (value : cval) : cdict * bool :=
  set_keys config (split_dot key) value.

(** [_merge_config(base_config, new_config)], by recursion on the new
    configuration. *)
Fixpoint merge_into (new_config : cval) (base_config : cdict) : cdict :=
  match new_config with
  | CLeaf _ => base_config
  | CDict items =>
      (fix loop (items : cdict) (base_config : cdict) : cdict :=
         match items with
         | [] => base_config
         | (key, value) :: rest =>
             loop rest
               match dict_lookup base_config key, value with
               | Some (CDict sub), CDict _ =>
                   dict_assign base_config key (CDict (merge_into value sub))
               | _, _ => dict_assign base_config key value
               end
         end) items base_config
  end.

Definition _merge_config (base_config new_config : cdict) : cdict :=
  merge_into (CDict new_config) base_config.

(** [self.default_config] *)
Definition default_config : cdict :=
  [("database",
    CDict [("host", CLeaf (VStr "localhost")); ("port", CLeaf (VInt 5432));
           ("database", CLeaf (VStr "pathotracer"));
           ("user", CLeaf (VStr "postgres")); ("password", CLeaf (VStr ""))]);
   ("application",
    CDict [("app_name", CLeaf (VStr "PathoTracer v2"));
           ("version", CLeaf (VStr "2.0.0")); ("debug_mode", CLeaf (VBool false));
           ("log_level", CLeaf (VStr "INFO")); ("data_dir", CLeaf (VStr "data"));
           ("models_dir", CLeaf (VStr "models"));
           ("backup_dir", CLeaf (VStr "backups"))]);
   ("model",
    CDict [("confidence_threshold", CLeaf (VFloat 0.8));
           ("symptom_weight", CLeaf (VFloat 0.4));
           ("environmental_weight", CLeaf (VFloat 0.3));
           ("historical_weight", CLeaf (VFloat 0.2));
           ("variety_weight", CLeaf (VFloat 0.1))]);
   ("notifications",
    CDict [("email_alerts", CLeaf (VBool false));
           ("alert_threshold", CLeaf (VInt 7))])].

(** A key path is blocked when one of its proper prefixes leads to a value
    that is not a dict. *)
Fixpoint blocked (m : cdict) (keys : list string) : bool :=
  match keys with
  | [] | [_] => false
  | key_part :: (_ :: _) as rest =>
      match dict_lookup m key_part with
      | None => false
      | Some (CDict sub) => blocked sub rest
      | Some (CLeaf _) => true
      end
  end.

(** The new configuration says nothing about a path: walking it meets a
    missing key. *)
Fixpoint silent (new_config : cval) (keys : list string) : bool :=
  match keys with
  | [] => false
  | key_part :: rest =>
      match new_config with
      | CDict m =>
          match dict_lookup m key_part with
          | None => true
          | Some v => silent v rest
          end
      | CLeaf _ => false
      end
  end.

(** Two key paths that part at some key: neither is a prefix of the other. *)
Fixpoint diverge (a b : list string) : bool :=
  match a, b with
  | x :: a', y :: b' => if String.eqb x y then diverge a' b' else true
  | _, _ => false
  end.

(** A Python dict has no repeated key, at any depth. *)
Fixpoint unique_keys (c : cval) : bool :=
  match c with
  | CLeaf _ => true
  | CDict items =>
      (fix go (items : cdict) : bool :=
         match items with
         | [] => true
         | (k, v) :: rest =>
             negb (existsb (fun kv => String.eqb k (fst kv)) rest)
             && unique_keys v && go rest
         end) items
  end.

(** A configuration file that changes the port and adds a section. *)
Definition file_config : cdict :=
  [("database", CDict [("port", CLeaf (VInt 6543))]);
   ("cache", CDict [("enabled", CLeaf (VBool true))])].

(** What one entry of the new configuration does to the base. *)
Definition merge_entry (base_config : cdict) (key : string) (value : cval) : cval :=
  match dict_lookup base_config key, value with
  | Some (CDict sub), CDict _ => CDict (merge_into value sub)
  | _, _ => value
  end.


(** ** Saving a group of settings ([save_settings], [save_db_settings],
    [save_model_settings])

    The three methods run the same loop, [self.set] on each entry under a
    prefix; the first [set] that raises ends the loop, and what the earlier
    ones wrote stays. *)

Fixpoint save_under (prefix : string) (config : cdict) (settings : cdict)
    : cdict * bool :=
  match settings with
  | [] => (config, true)
  | (key, value) :: rest =>
      let '(config, ok) := set config (prefix +:+ key) value in
      if ok : bool then save_under prefix config rest else (config, false)
  end.

Definition save_settings (config settings : cdict) : cdict * bool :=
  save_under "application." config settings.

Definition save_model_settings (config model_settings : cdict) : cdict * bool :=
  save_under "model." config model_settings.

(** [key.replace('db_', '')]: every occurrence, scanning from the left. *)
Fixpoint clean_key (key : string) : string :=
  match key with
  | String "d" (String "b" (String "_" rest)) => clean_key rest
  | String c rest => String c (clean_key rest)
  | EmptyString => EmptyString
  end.

Definition save_db_settings (config db_settings : cdict) : cdict * bool :=
  save_under "database." config
    (map (fun entry => (clean_key (fst entry), snd entry)) db_settings).

(** A key without a dot. *)
Fixpoint dot_free (key : string) : bool :=
  match key with
  | EmptyString => true
  | String c rest => negb (Ascii.eqb c ".") && dot_free rest
  end.

(** Settings as the database form sends them. *)
Definition db_form : cdict :=
  [("db_host", CLeaf (VStr "db.example")); ("db_port", CLeaf (VInt 6543))].

(** ** Validation ([validate_config]) *)

(** Truth value of a stored value: a dict is false when it is empty. *)
Definition cval_truthy (c : cval) : bool :=
  match c with
  | CLeaf v => truthy v
  | CDict items => match items with [] => false | _ => true end
  end.

(** [self.config.get(name, {})] as the receiver of a [.get]: a section that
    is not a dict has no [get] ([AttributeError]). *)
Definition section_or_empty (config : cdict) (name : string) : option cdict :=
  match dict_lookup config name with
  | None => Some []
  | Some (CDict m) => Some m
  | Some (CLeaf _) => None
  end.

(** [not db_config.get(key)] *)
Definition not_given (db_config : cdict) (key : string) : bool :=
  match dict_lookup db_config key with
  | Some v => negb (cval_truthy v)
  | None => true
  end.

(** [0 < confidence_threshold <= 1]: the second test is evaluated only when
    the first holds; a value that [int] does not compare with raises. *)
Definition in_unit_interval (confidence_threshold : cval) : option bool :=
  match confidence_threshold with
  | CLeaf v =>
      b ← gt_int v 0;
      if b : bool then le_int v 1 else Some false
  | CDict _ => None
  end.

Record Issues : Type := {
  errors : list string;
  warnings : list string
}.

(** [if cond: errors.append(message)] *)
Definition append_when (cond : bool) (message : string) (errors : list string)
    : list string :=
  if cond then errors ++ [message] else errors.

Definition validate_config (config : cdict) : option Issues :=
  db_config ← section_or_empty config "database";
  let errors := [] in
  let errors :=
    append_when (not_given db_config "host") "Database host is required" errors in
  let errors :=
    append_when (not_given db_config "database") "Database name is required" errors in
  let errors :=
    append_when (not_given db_config "user") "Database user is required" errors in
  model_config ← section_or_empty config "model";
  let confidence_threshold :=
    default (CLeaf (VFloat 0.8)) (dict_lookup model_config "confidence_threshold") in
  inside ← in_unit_interval confidence_threshold;
  let errors :=
    append_when (negb inside) "Confidence threshold must be between 0 and 1" errors in
  Some {| errors := errors; warnings := [] |}.

(** The defaults with the database host and user blanked. *)
Definition blank_host_config : cdict :=
  [("database",
    CDict [("host", CLeaf (VStr "")); ("port", CLeaf (VInt 5432));
           ("database", CLeaf (VStr "pathotracer")); ("user", CLeaf VNone)]);
   ("model", CDict [("confidence_threshold", CLeaf (VBool true))])].

(** ** The dicts that [self.config] shares with [self.default_config]

    [_load_config] starts from [self.default_config.copy()].  The copy is
    shallow: its entries are the very objects of [self.default_config], and
    [_merge_config], which descends into a dict of the base and writes into
    it, writes into that object.  An entry of [self.config] is therefore
    either the dict object that [self.default_config] holds under the same
    key ([Shared]) or a value of its own ([Own]): a leaf, which is
    immutable, or a dict that came from the file. *)

Inductive slot : Type :=
| Shared
| Own (value : cval).

Record Memory : Type := {
  mem_default_config : cdict;
  mem_config : list (string * slot)
}.

Fixpoint slot_lookup (m : list (string * slot)) (k : string) : option slot :=
  match m with
  | [] => None
  | (k', v) :: rest => if String.eqb k k' then Some v else slot_lookup rest k
  end.

Fixpoint slot_assign (m : list (string * slot)) (k : string) (v : slot)
    : list (string * slot) :=
  match m with
  | [] => [(k, v)]
  | (k', v') :: rest =>
      if String.eqb k k' then (k', v) :: rest
      else (k', v') :: slot_assign rest k v
  end.

(** The dict object that the defaults hold under [key]. *)
Definition section_of (defaults : cdict) (key : string) : cdict :=
  match dict_lookup defaults key with
  | Some (CDict sub) => sub
  | _ => []
  end.

Definition read_slot (defaults : cdict) (key : string) (s : slot) : cval :=
  match s with
  | Shared => CDict (section_of defaults key)
  | Own value => value
  end.

(** What [self.config] reads as. *)
Definition read_config (mem : Memory) : cdict :=
  map (fun entry => (fst entry, read_slot (mem_default_config mem) (fst entry) (snd entry)))
    (mem_config mem).

(** [self.default_config.copy()] *)
Definition shallow_copy (defaults : cdict) : list (string * slot) :=
  map (fun entry =>
         (fst entry,
          match snd entry with
          | CDict _ => Shared
          | CLeaf _ => Own (snd entry)
          end)) defaults.

(** One round of the loop of [_merge_config(self.config, file_config)]. *)
Definition merge_step (mem : Memory) (key : string) (value : cval) : Memory :=
  match slot_lookup (mem_config mem) key, value with
  | Some Shared, CDict _ =>
      {| mem_default_config :=
           dict_assign (mem_default_config mem) key
             (CDict (merge_into value (section_of (mem_default_config mem) key)));
         mem_config := mem_config mem |}
  | Some (Own (CDict sub)), CDict _ =>
      {| mem_default_config := mem_default_config mem;
         mem_config := slot_assign (mem_config mem) key (Own (CDict (merge_into value sub))) |}
  | _, _ =>
      {| mem_default_config := mem_default_config mem;
         mem_config := slot_assign (mem_config mem) key (Own value) |}
  end.

Definition merge_shared (new_config : cdict) (mem : Memory) : Memory :=
  fold_left (fun mem entry => merge_step mem (fst entry) (snd entry)) new_config mem.

(** The first lines of [_load_config] when the file exists and holds a
    dict: copy the defaults, merge the file. *)
Definition load_file (defaults file_config : cdict) : Memory :=
  merge_shared file_config
    {| mem_default_config := defaults; mem_config := shallow_copy defaults |}.

(** ** Overrides from the environment ([_load_from_environment])

    The process environment, [int] on a string and [str.lower] are outside
    the repository and are parameters: [getenv name] is [os.getenv(name)],
    [py_int s] is [int(s)], [None] when it raises. *)

Section Environment.

Variable getenv : string -> option string.
Variable py_int : string -> option Z.
Variable lower : string -> string.

(** [if os.getenv(name):] with the value it then uses: a variable that is
    unset or empty is skipped. *)
Definition env_value (name : string) : option string :=
  match getenv name with
  | Some s => if String.eqb s "" then None else Some s
  | None => None
  end.

(** [self.config[section][key] = value]; [None] when [section] is missing
    ([KeyError]) or is not a dict ([TypeError]). *)
Definition section_assign (config : cdict) (section key : string) (value : cval)
    : option cdict :=
  match dict_lookup config section with
  | Some (CDict m) =>
      Some (dict_assign config section (CDict (dict_assign m key value)))
  | _ => None
  end.

(** One [if os.getenv(name): self.config[section][key] = convert(...)]:
    the right-hand side is evaluated first; the flag is [false] when the
    statement raised. *)
Definition env_step (name section key : string) (convert : string -> option value)
    (config : cdict) : cdict * bool :=
  match env_value name with
  | None => (config, true)
  | Some s =>
      match convert s with
      | None => (config, false)
      | Some v =>
          match section_assign config section key (CLeaf v) with
          | Some config' => (config', true)
          | None => (config, false)
          end
      end
  end.

(** Sequencing inside the [try]: a statement that raised ends the block. *)
Definition and_then (r : cdict * bool) (rest : cdict -> cdict) : cdict :=
  if snd r then rest (fst r) else fst r.

Definition as_str (s : string) : option value := Some (VStr s).
Definition as_int (s : string) : option value := VInt <$> py_int s.
Definition as_flag (s : string) : option value :=
  Some (VBool (String.eqb (lower s) "true")).

Definition _load_from_environment (config : cdict) : cdict :=
  and_then (env_step "POSTGRES_HOST" "database" "host" as_str config) (fun config =>
  and_then (env_step "POSTGRES_PORT" "database" "port" as_int config) (fun config =>
  and_then (env_step "POSTGRES_DB" "database" "database" as_str config) (fun config =>
  and_then (env_step "POSTGRES_USER" "database" "user" as_str config) (fun config =>
  and_then (env_step "POSTGRES_PASSWORD" "database" "password" as_str config)
    (fun config =>
  and_then (env_step "PATHOTRACER_DEBUG" "application" "debug_mode" as_flag config)
    (fun config =>
  and_then (env_step "PATHOTRACER_LOG_LEVEL" "application" "log_level" as_str config)
    (fun config => config))))))).

(** The port variable is unset, empty or a number. *)
Definition port_usable : bool :=
  match env_value "POSTGRES_PORT" with
  | Some s => bool_decide (is_Some (py_int s))
  | None => true
  end.

(** The database variables read after the port. *)
Definition later_database_variables : list (string * string) :=
  [("POSTGRES_DB", "database"); ("POSTGRES_USER", "user");
   ("POSTGRES_PASSWORD", "password")].

(** The entry [key] of a section after [name] was applied, when the
    variable is set and converts. *)
Definition applied (db : cdict) (key name : string) (convert : string -> option value)
    : cdict :=
  match env_value name with
  | Some s =>
      match convert s with
      | Some v => dict_assign db key (CLeaf v)
      | None => db
      end
  | None => db
  end.

End Environment.

(** An environment with a host, a password and a port that is no number. *)
Definition sample_env (name : string) : option string :=
  if String.eqb name "POSTGRES_HOST" then Some "db.example"
  else if String.eqb name "POSTGRES_PORT" then Some "54x2"
  else if String.eqb name "POSTGRES_PASSWORD" then Some "secret"
  else None.

Definition sample_loaded : cdict :=
  _load_from_environment sample_env (fun _ => None) (fun s => s) default_config.

End Config.

(** * The configuration as dict objects

    [set] stores the object it is given and writes into the dicts it walks
    through, so a dict that sits under two keys is one dict: what is written
    through one key is read through the other.  Here the dicts are the
    objects of a heap, addressed by their position; an entry of a dict is a
    leaf or the address of a dict, and [self.config] is an address.  A
    method returns the heap it leaves behind and whether it returned
    normally; the file written by [_save_config] is not modelled. *)

Module ConfigObjects.

Inductive entry : Type :=
| Leaf (v : value)
| Ref (address : nat).

Abbreviation object := (list (string * entry)).
Abbreviation heap := (list object).

Fixpoint object_lookup (o : object) (k : string) : option entry :=
  match o with
  | [] => None
  | (k', v) :: rest => if String.eqb k k' then Some v else object_lookup rest k
  end.

Fixpoint object_assign (o : object) (k : string) (v : entry) : object :=
  match o with
  | [] => [(k, v)]
  | (k', v') :: rest =>
      if String.eqb k k' then (k', v) :: rest
      else (k', v') :: object_assign rest k v
  end.

(** The entry under [k] of the dict at [address]. *)
Definition slot (h : heap) (address : nat) (k : string) : option entry :=
  match h !! address with
  | Some o => object_lookup o k
  | None => None
  end.

(** The loop of [get]. *)
Fixpoint walk (h : heap) (value : entry) (keys : list string) : option entry :=
  match keys with
  | [] => Some value
  | key_part :: rest =>
      match value with
      | Ref address =>
          match slot h address key_part with
          | Some v => walk h v rest
          | None => None
          end
      | Leaf _ => None
      end
  end.

Definition get (h : heap) (config : nat) (key : string) (dflt : entry) : entry :=
  default dflt (walk h (Ref config) (Config.split_dot key)).

(** The body of [set] on the dict [config_ref]: a missing intermediate key
    gets a new empty dict, an intermediate value that is not a dict
    raises, and the last key is assigned in the dict reached. *)
Fixpoint set_keys (h : heap) (config_ref : nat) (keys : list string)
    (value : entry) : heap * bool :=
  match keys with
  | [] => (h, false)
  | [last] =>
      match h !! config_ref with
      | Some o => (<[config_ref := object_assign o last value]> h, true)
      | None => (h, false)
      end
  | key_part :: (_ :: _) as rest =>
      match h !! config_ref with
      | None => (h, false)
      | Some o =>
          match object_lookup o key_part with
          | None =>
              let created := length h in
              set_keys
                (<[config_ref := object_assign o key_part (Ref created)]> h ++ [[]])
                created rest value
          | Some (Ref next) => set_keys h next rest value
          | Some (Leaf _) => (h, false)
          end
      end
  end.

Definition set (h : heap) (config : nat) (key : string) (value : entry)
    : heap * bool :=
  set_keys h config (Config.split_dot key) value.

(** The slots [get] looks at. *)
Fixpoint reads (h : heap) (value : entry) (keys : list string)
    : list (nat * string) :=
  match keys with
  | [] => []
  | key_part :: rest =>
      match value with
      | Ref address =>
          (address, key_part)
          :: match slot h address key_part with
             | Some v => reads h v rest
             | None => []
             end
      | Leaf _ => []
      end
  end.

(** The slots [set] assigns. *)
Fixpoint writes (h : heap) (config_ref : nat) (keys : list string)
    : list (nat * string) :=
  match keys with
  | [] => []
  | [last] =>
      match h !! config_ref with
      | Some _ => [(config_ref, last)]
      | None => []
      end
  | key_part :: (_ :: _) as rest =>
      match h !! config_ref with
      | None => []
      | Some o =>
          match object_lookup o key_part with
          | None =>
              let created := length h in
              (config_ref, key_part)
              :: writes
                   (<[config_ref := object_assign o key_part (Ref created)]> h ++ [[]])
                   created rest
          | Some (Ref next) => writes h next rest
          | Some (Leaf _) => []
          end
      end
  end.

(** One dict under the keys [a] and [b], another one under [c]. *)
Definition shared_heap : heap :=
  [ [("a", Ref 1); ("b", Ref 1); ("c", Ref 2)];
    [("level", Leaf (VInt 1))];
    [("level", Leaf (VInt 1))] ].

End ConfigObjects.

(** ** Order on binary64 numbers *)

Ltac cmp_cases :=
  repeat match goal with
  | |- context [(?a ?= ?b)%Z] => destruct (Z.compare_spec a b)
  | H : context [(?a ?= ?b)%Z] |- _ => destruct (Z.compare_spec a b)
  | |- context [Pos.compare_cont Eq ?a ?b] =>
      change (Pos.compare_cont Eq a b) with (Pos.compare a b);
      destruct (Pos.compare_spec a b)
  | H : context [Pos.compare_cont Eq ?a ?b] |- _ =>
      change (Pos.compare_cont Eq a b) with (Pos.compare a b) in H;
      destruct (Pos.compare_spec a b)
  end.

Lemma SFcompare_antisym x y :
  SFcompare y x = option_map CompOpp (SFcompare x y).
Proof.
  destruct x as [[]|[]| |[] m1 e1], y as [[]|[]| |[] m2 e2]; simpl; try reflexivity;
    cmp_cases; simpl; try reflexivity; try lia; subst; try lia.
Qed.

Lemma SFcompare_trans x y z c1 c2 :
  SFcompare x y = Some c1 -> SFcompare y z = Some c2 ->
  c1 <> Gt -> c2 <> Gt ->
  SFcompare x z = Some (match c1 with Eq => c2 | _ => Lt end).
Proof.
  destruct x as [[]|[]| |[] m1 e1], y as [[]|[]| |[] m2 e2], z as [[]|[]| |[] m3 e3];
    simpl; intros H1 H2 N1 N2; try discriminate;
    injection H1 as <-; injection H2 as <-; try reflexivity; try congruence;
    revert N1 N2; cmp_cases; simpl; intros; subst; try reflexivity; try congruence; try lia.
Qed.

Lemma ltb_leb_false x y : (x <? y)%float = true -> (y <=? x)%float = false.
Proof.
  rewrite ltb_spec, leb_spec. unfold SFltb, SFleb.
  rewrite (SFcompare_antisym (Prim2SF x) (Prim2SF y)).
  destruct (SFcompare (Prim2SF x) (Prim2SF y)) as [[]|]; simpl; congruence.
Qed.

Lemma leb_ltb_false x y : (x <=? y)%float = true -> (y <? x)%float = false.
Proof.
  rewrite ltb_spec, leb_spec. unfold SFltb, SFleb.
  rewrite (SFcompare_antisym (Prim2SF x) (Prim2SF y)).
  destruct (SFcompare (Prim2SF x) (Prim2SF y)) as [[]|]; simpl; congruence.
Qed.

Lemma ltb_leb_trans x y z :
  (x <? y)%float = true -> (y <=? z)%float = true -> (x <? z)%float = true.
Proof.
  rewrite !ltb_spec, leb_spec. unfold SFltb, SFleb.
  destruct (SFcompare (Prim2SF x) (Prim2SF y)) as [[]|] eqn:E1; try discriminate.
  destruct (SFcompare (Prim2SF y) (Prim2SF z)) as [[]|] eqn:E2; try discriminate;
    intros _ _; rewrite (SFcompare_trans _ _ _ _ _ E1 E2); congruence.
Qed.

Lemma leb_trans x y z :
  (x <=? y)%float = true -> (y <=? z)%float = true -> (x <=? z)%float = true.
Proof.
  rewrite !leb_spec. unfold SFleb.
  destruct (SFcompare (Prim2SF x) (Prim2SF y)) as [[]|] eqn:E1; try discriminate;
  destruct (SFcompare (Prim2SF y) (Prim2SF z)) as [[]|] eqn:E2; try discriminate;
    intros _ _; rewrite (SFcompare_trans _ _ _ _ _ E1 E2); congruence.
Qed.

(** A NaN is below nothing and above nothing. *)
Lemma nan_ltb_r x y : PrimFloat.is_nan y = true -> (x <? y)%float = false.
Proof.
  unfold PrimFloat.is_nan. rewrite FloatAxioms.eqb_spec, ltb_spec. unfold SFeqb, SFltb.
  destruct (Prim2SF y) as [[]|[]| |[] m e]; simpl;
    rewrite ?Z.compare_refl, ?Pos.compare_cont_refl; simpl; try discriminate;
    intros _; destruct (Prim2SF x) as [[]|[]| |[] ? ?]; reflexivity.
Qed.

(** ** Tests that cannot raise *)

Lemma holds_Some (c : option bool) (b : bool) : c = Some b -> holds c = b.
Proof. intros ->. reflexivity. Qed.

Lemma compare_int_number v k :
  is_number v = true -> exists c, compare_int v k = Some c.
Proof. destruct v; simpl; try discriminate; eauto. Qed.

Lemma ge_int_number v k : is_number v = true -> ge_int v k = Some (holds (ge_int v k)).
Proof.
  intros H. unfold ge_int. destruct (compare_int_number v k H) as [c ->]. reflexivity.
Qed.

Lemma le_int_number v k : is_number v = true -> le_int v k = Some (holds (le_int v k)).
Proof.
  intros H. unfold le_int. destruct (compare_int_number v k H) as [c ->]. reflexivity.
Qed.

Lemma gt_int_number v k : is_number v = true -> gt_int v k = Some (holds (gt_int v k)).
Proof.
  intros H. unfold gt_int. destruct (compare_int_number v k H) as [c ->]. reflexivity.
Qed.

Lemma between_number lo v hi :
  is_number v = true -> between lo v hi = Some (holds (between lo v hi)).
Proof.
  intros H. unfold between. rewrite (ge_int_number v lo H). simpl.
  destruct (holds (ge_int v lo)); [|reflexivity].
  rewrite (le_int_number v hi H). reflexivity.
Qed.

Lemma any_in_list lits v :
  is_list v = true -> any_in lits v = Some (holds (any_in lits v)).
Proof.
  destruct v; simpl; try discriminate. intros _.
  induction lits as [|lit rest IH]; simpl; [reflexivity|].
  destruct (existsb (str_eq_value lit) l); [reflexivity|exact IH].
Qed.

(** On a list, [any(lit in symptoms ...)] is plain membership of one of the
    literals. *)
Lemma any_in_VList lits l :
  any_in lits (VList l) = Some (existsb (fun lit => existsb (str_eq_value lit) l) lits).
Proof.
  induction lits as [|lit rest IH]; simpl; [reflexivity|].
  destruct (existsb (str_eq_value lit) l); [reflexivity|exact IH].
Qed.

(** The fields of a well-typed observation. *)
Lemma well_typed_fields d :
  well_typed d = true ->
  is_list (dict_get d "symptoms" (VList [])) = true
  /\ is_number (dict_get d "temperature" (VInt 25)) = true
  /\ is_number (dict_get d "humidity" (VInt 80)) = true
  /\ is_number (dict_get d "rainfall" (VInt 0)) = true
  /\ is_number (dict_get d "severity" (VInt 5)) = true
  /\ is_number (dict_get d "affected_area" (VInt 25)) = true.
Proof.
  unfold well_typed. rewrite !andb_true_iff. tauto.
Qed.

(** ** The raw scores are sums of contributions *)

Lemma add_if_sum (b1 b2 b3 b4 : bool) :
  add_if b4 (add_if b3 (add_if b2 (add_if b1 0 0.4) 0.2) 0.2) 0.2
  = (0 + contribution b1 0.4 + contribution b2 0.2
       + contribution b3 0.2 + contribution b4 0.2)%float.
Proof. destruct b1, b2, b3, b4; vm_compute; reflexivity. Qed.

Ltac score_steps :=
  repeat match goal with
  | |- context [mbind _ ?m] =>
      let E := fresh "E" in
      destruct m as [[]|] eqn:E; simpl; try discriminate
  end.

Ltac last_rule :=
  try match goal with
      | |- context [add_if ?b _ _] => destruct b
      end; vm_compute; reflexivity.

Lemma blast_score_spec d s :
  blast_score d = Some s -> s = spec_raw_score blast_rule d.
Proof.
  unfold blast_score, spec_raw_score, symptom_matches, temperature_matches,
    humidity_matches, blast_rule, growth_stage_in; simpl.
  score_steps; intros [= <-]; last_rule.
Qed.

Lemma blight_score_spec d s :
  blight_score d = Some s -> s = spec_raw_score blight_rule d.
Proof.
  unfold blight_score, spec_raw_score, symptom_matches, temperature_matches,
    humidity_matches, blight_rule, growth_stage_in; simpl.
  score_steps; intros [= <-]; last_rule.
Qed.

Lemma bacterial_score_spec d s :
  bacterial_score d = Some s -> s = spec_raw_score bacterial_rule d.
Proof.
  unfold bacterial_score, spec_raw_score, symptom_matches, temperature_matches,
    humidity_matches, bacterial_rule, rainfall_above; simpl.
  score_steps; intros [= <-]; last_rule.
Qed.

Lemma blast_score_total d :
  well_typed d = true -> blast_score d = Some (spec_raw_score blast_rule d).
Proof.
  intros (Hs & Ht & Hh & _)%well_typed_fields.
  destruct (blast_score d) as [s|] eqn:E; [f_equal; by apply blast_score_spec|].
  revert E. unfold blast_score.
  rewrite (any_in_list _ _ Hs), (between_number _ _ _ Ht), (ge_int_number _ _ Hh).
  discriminate.
Qed.

Lemma blight_score_total d :
  well_typed d = true -> blight_score d = Some (spec_raw_score blight_rule d).
Proof.
  intros (Hs & Ht & Hh & _)%well_typed_fields.
  destruct (blight_score d) as [s|] eqn:E; [f_equal; by apply blight_score_spec|].
  revert E. unfold blight_score.
  rewrite (any_in_list _ _ Hs), (between_number _ _ _ Ht), (ge_int_number _ _ Hh).
  discriminate.
Qed.

Lemma bacterial_score_total d :
  well_typed d = true -> bacterial_score d = Some (spec_raw_score bacterial_rule d).
Proof.
  intros (Hs & Ht & Hh & Hr & _)%well_typed_fields.
  destruct (bacterial_score d) as [s|] eqn:E; [f_equal; by apply bacterial_score_spec|].
  revert E. unfold bacterial_score.
  rewrite (any_in_list _ _ Hs), (between_number _ _ _ Ht), (ge_int_number _ _ Hh),
    (gt_int_number _ _ Hr).
  discriminate.
Qed.

Lemma rule_candidates_spec d l :
  rule_candidates d = Some l -> l = spec_candidates d.
Proof.
  unfold rule_candidates.
  destruct (blast_score d) as [s1|] eqn:E1; [|discriminate].
  destruct (blight_score d) as [s2|] eqn:E2; [|discriminate].
  destruct (bacterial_score d) as [s3|] eqn:E3; [|discriminate].
  simpl. intros [= <-].
  apply blast_score_spec in E1. apply blight_score_spec in E2.
  apply bacterial_score_spec in E3. subst.
  unfold spec_candidates, spec_rules, append_if_strong; simpl.
  unfold spec_candidate; simpl.
  destruct (0.5 <? spec_raw_score blast_rule d)%float,
           (0.5 <? spec_raw_score blight_rule d)%float,
           (0.5 <? spec_raw_score bacterial_rule d)%float; reflexivity.
Qed.

Lemma rule_candidates_total d :
  well_typed d = true -> rule_candidates d = Some (spec_candidates d).
Proof.
  intros H.
  destruct (rule_candidates d) as [l|] eqn:E; [f_equal; by apply rule_candidates_spec|].
  revert E. unfold rule_candidates.
  rewrite (blast_score_total d H), (blight_score_total d H), (bacterial_score_total d H).
  discriminate.
Qed.

(** ** Candidates of the rule table *)

Lemma spec_candidates_unfold d :
  spec_candidates d
  = (option_list (spec_candidate blast_rule d)
     ++ option_list (spec_candidate blight_rule d)
     ++ option_list (spec_candidate bacterial_rule d))%list.
Proof.
  unfold spec_candidates, spec_rules; simpl.
  destruct (spec_candidate blast_rule d), (spec_candidate blight_rule d),
    (spec_candidate bacterial_rule d); reflexivity.
Qed.

Lemma spec_candidate_Some r d c :
  spec_candidate r d = Some c <->
  (0.5 <? spec_raw_score r d)%float = true
  /\ c = {| cand_pathogen := rule_pathogen r;
            cand_confidence := py_min (spec_raw_score r d) 0.95 |}.
Proof.
  unfold spec_candidate.
  destruct (0.5 <? spec_raw_score r d)%float; split.
  - intros [= <-]. auto.
  - intros [_ ->]. reflexivity.
  - discriminate.
  - intros [? _]. discriminate.
Qed.

Lemma elem_of_spec_candidates d c :
  c ∈ spec_candidates d <-> exists r, r ∈ spec_rules /\ spec_candidate r d = Some c.
Proof. unfold spec_candidates. apply list_elem_of_omap. Qed.

Lemma rule_pathogen_inj r1 r2 :
  r1 ∈ spec_rules -> r2 ∈ spec_rules -> rule_pathogen r1 = rule_pathogen r2 -> r1 = r2.
Proof.
  unfold spec_rules. rewrite !elem_of_cons, !elem_of_nil.
  intros [->|[->|[->|[]]]] [->|[->|[->|[]]]]; simpl; try reflexivity; discriminate.
Qed.

Lemma spec_candidates_pathogens d :
  map cand_pathogen (spec_candidates d)
  `sublist_of` ["Magnaporthe oryzae"; "Rhizoctonia solani"; "Xanthomonas oryzae"].
Proof.
  rewrite spec_candidates_unfold. unfold spec_candidate.
  destruct (0.5 <? spec_raw_score blast_rule d)%float,
           (0.5 <? spec_raw_score blight_rule d)%float,
           (0.5 <? spec_raw_score bacterial_rule d)%float; simpl;
    repeat first [ apply sublist_nil | apply sublist_skip | apply sublist_cons ].
Qed.

(** ** The embedding agrees with the conditions read on the observation *)

Lemma reading_dict_get d key dflt : dict_get d key dflt = reading d key dflt.
Proof. unfold dict_get, reading. by destruct (d !! key). Qed.

Lemma is_ge_compare a b : is_ge (Some (a ?= b)) = (b <=? a).
Proof.
  unfold is_ge, Z.leb. rewrite (Z.compare_antisym a b). by destruct (a ?= b).
Qed.

Lemma is_le_compare a b : is_le (Some (a ?= b)) = (a <=? b).
Proof. unfold is_le, Z.leb. by destruct (a ?= b). Qed.

Lemma is_gt_compare a b : is_gt (Some (a ?= b)) = (b <? a).
Proof.
  unfold is_gt, Z.ltb. rewrite (Z.compare_antisym a b). by destruct (a ?= b).
Qed.

(** The comparison of the embedding is the comparison of exact values. *)
Lemma compare_int_exact_value v k :
  compare_int v k
  = match v with
    | VInt _ | VBool _ | VFloat _ =>
        Some match exact_value v with
             | Some (Ratio num shift) => Some (num ?= k * 2 ^ shift)
             | Some (Infinite negative) => Some (if negative then Lt else Gt)
             | None => None
             end
    | _ => None
    end.
Proof.
  destruct v as [| b | n | f | |]; try reflexivity.
  - simpl. by rewrite Z.mul_1_r.
  - simpl. by rewrite Z.mul_1_r.
  - unfold compare_int, float_compare_Z, exact_value. f_equal.
    destruct (Prim2SF f) as [[]|[]| |negative m e]; try reflexivity.
    + by rewrite Z.pow_0_r, Z.mul_1_r.
    + by rewrite Z.pow_0_r, Z.mul_1_r.
    + cbv zeta. destruct (Z.leb_spec 0 e) as [He|He].
      * rewrite (Z.max_r 0 e), (Z.max_l 0 (- e)) by lia.
        by rewrite Z.pow_0_r, Z.mul_1_r.
      * rewrite (Z.max_l 0 e), (Z.max_r 0 (- e)) by lia.
        by rewrite Z.pow_0_r, Z.mul_1_r.
Qed.

Lemma ge_int_at_least v k : holds (ge_int v k) = at_least v k.
Proof.
  unfold ge_int, at_least. rewrite compare_int_exact_value.
  destruct v as [| b | n | f | |]; try reflexivity;
    (destruct (exact_value _) as [[num shift|[]]|]; simpl; try reflexivity;
     apply is_ge_compare).
Qed.

Lemma le_int_at_most v k : holds (le_int v k) = at_most v k.
Proof.
  unfold le_int, at_most. rewrite compare_int_exact_value.
  destruct v as [| b | n | f | |]; try reflexivity;
    (destruct (exact_value _) as [[num shift|[]]|]; simpl; try reflexivity;
     apply is_le_compare).
Qed.

Lemma gt_int_above v k : holds (gt_int v k) = above v k.
Proof.
  unfold gt_int, above. rewrite compare_int_exact_value.
  destruct v as [| b | n | f | |]; try reflexivity;
    (destruct (exact_value _) as [[num shift|[]]|]; simpl; try reflexivity;
     apply is_gt_compare).
Qed.

Lemma between_within lo v hi : holds (between lo v hi) = within (Some (lo, hi)) v.
Proof.
  unfold between, within. rewrite <- ge_int_at_least, <- le_int_at_most.
  by destruct (ge_int v lo) as [[]|].
Qed.

Lemma in_range_within range v : in_range range v = within range v.
Proof. destruct range as [[lo hi]|]; [apply between_within|reflexivity]. Qed.

Lemma any_in_mentions lits v :
  is_list v = true -> holds (any_in lits v) = mentions v lits.
Proof.
  destruct v; try discriminate. intros _. by rewrite any_in_VList.
Qed.

Lemma in_strs_other v stages :
  (forall s, v <> VStr s) -> in_strs v stages = false.
Proof.
  intros Hv. unfold in_strs. induction stages as [|stage rest IH]; [reflexivity|].
  simpl. rewrite IH. by destruct v; try reflexivity; destruct (Hv s).
Qed.

Lemma in_strs_stage_among d stages :
  in_strs (dict_get_none d "growth_stage") stages = stage_among d stages.
Proof.
  unfold dict_get_none, dict_get, stage_among.
  destruct (d !! "growth_stage") as [v|]; simpl;
    [destruct v; try (by apply in_strs_other)|by apply in_strs_other].
  reflexivity.
Qed.

Lemma grain_stage_among d :
  grain_stage d = stage_among d ["Flowering"; "Grain filling"].
Proof.
  unfold grain_stage, dict_get, stage_among.
  destruct (d !! "growth_stage") as [v|]; simpl; [|reflexivity].
  by destruct v.
Qed.

Lemma contribution_if (c : bool) (w : float) :
  contribution c w = if c then w else 0%float.
Proof. reflexivity. Qed.

Lemma table_rules : map rule_of table = spec_rules.
Proof. reflexivity. Qed.

Lemma spec_raw_score_row row d :
  well_typed d = true -> spec_raw_score (rule_of row) d = row_score row d.
Proof.
  intros (Hs & _)%well_typed_fields.
  unfold spec_raw_score, row_score, symptom_matches, temperature_matches,
    humidity_matches. cbn [rule_of rule_symptoms rule_temperature rule_humidity
                           rule_extra fst snd].
  rewrite (any_in_mentions _ _ Hs), between_within, ge_int_at_least,
    !reading_dict_get, !contribution_if.
  destruct (row_temperature row) as [lo hi]. do 2 f_equal.
  destruct (row_extra row) as [stages|k]; cbn [extra_holds].
  - unfold growth_stage_in. by rewrite in_strs_stage_among.
  - unfold rainfall_above. by rewrite gt_int_above, reading_dict_get.
Qed.

Lemma elem_of_table row :
  row ∈ table -> row = blast_row \/ row = blight_row \/ row = bacterial_row.
Proof. unfold table. rewrite !elem_of_cons, elem_of_nil. tauto. Qed.

Lemma rule_of_table row : row ∈ table -> rule_of row ∈ spec_rules.
Proof.
  intros Hrow. rewrite <- table_rules. apply list_elem_of_fmap. by exists row.
Qed.

(** C2: on every observation each of the three pathogens gets the raw score
    of its table row, the sum of [0.4] for a symptom of its set and [0.2]
    for each of its satisfied conditions; the rule stage of
    [_rule_based_prediction] holds a candidate for a pathogen exactly when
    that score strictly exceeds [0.5], its confidence is the score, or
    [0.95] when the score exceeds [0.95], and the candidates stand in the
    order Magnaporthe, Rhizoctonia, Xanthomonas whatever the confidences;
    a non-empty rule stage is what the function returns, an empty one is
    replaced by the default candidate. *)
Theorem rule_candidates_follow_table (d : dict) :
  well_typed d = true ->
  blast_score d = Some (row_score blast_row d)
  /\ blight_score d = Some (row_score blight_row d)
  /\ bacterial_score d = Some (row_score bacterial_row d)
  /\ exists predictions,
      rule_candidates d = Some predictions
      /\ (forall row, row ∈ table ->
            row_pathogen row ∈ map cand_pathogen predictions
            <-> (0.5 <? row_score row d)%float = true)
      /\ (forall row c, row ∈ table -> c ∈ predictions ->
            cand_pathogen c = row_pathogen row ->
            cand_confidence c
            = if (0.95 <? row_score row d)%float then 0.95%float
              else row_score row d)
      /\ map cand_pathogen predictions
           `sublist_of` ["Magnaporthe oryzae"; "Rhizoctonia solani";
                         "Xanthomonas oryzae"]
      /\ (predictions <> [] -> _rule_based_prediction d = Some predictions)
      /\ (predictions = [] ->
          _rule_based_prediction d = Some (default_candidates d)).
Proof.
  intros H.
  split; [by rewrite (blast_score_total d H), <- (spec_raw_score_row blast_row d H)|].
  split; [by rewrite (blight_score_total d H), <- (spec_raw_score_row blight_row d H)|].
  split; [by rewrite (bacterial_score_total d H),
                     <- (spec_raw_score_row bacterial_row d H)|].
  exists (spec_candidates d).
  split; [by apply rule_candidates_total|].
  split; [|split; [|split; [|split]]].
  - intros row Hrow. rewrite <- (spec_raw_score_row row d H).
    pose proof (rule_of_table row Hrow) as Hr. split.
    + intros (c & Hname & Hin)%list_elem_of_fmap.
      apply elem_of_spec_candidates in Hin as (r' & Hr' & Hc).
      apply spec_candidate_Some in Hc as [Hs ->]. simpl in Hname.
      assert (r' = rule_of row) as <- by (by apply rule_pathogen_inj).
      exact Hs.
    + intros Hs. apply list_elem_of_fmap.
      exists {| cand_pathogen := rule_pathogen (rule_of row);
                cand_confidence := py_min (spec_raw_score (rule_of row) d) 0.95 |}.
      split; [reflexivity|].
      apply elem_of_spec_candidates. exists (rule_of row). split; [exact Hr|].
      apply spec_candidate_Some. by split.
  - intros row c Hrow (r' & Hr' & Hc)%elem_of_spec_candidates Hp.
    apply spec_candidate_Some in Hc as [Hs ->]. simpl in *.
    assert (r' = rule_of row) as ->
      by (apply rule_pathogen_inj; auto using rule_of_table).
    by rewrite (spec_raw_score_row row d H).
  - apply spec_candidates_pathogens.
  - intros Hne. unfold _rule_based_prediction.
    rewrite (rule_candidates_total d H). simpl.
    destruct (spec_candidates d); [done|reflexivity].
  - intros He. unfold _rule_based_prediction.
    rewrite (rule_candidates_total d H). simpl. by rewrite He.
Qed.

Lemma rule_candidates_follow_table_witness :
  well_typed mixed_obs = true
  /\ blast_score mixed_obs = Some 0.6000000000000001%float
  /\ bacterial_score mixed_obs = Some 1%float
  /\ exists predictions,
       rule_candidates mixed_obs = Some predictions
       /\ (forall c, c ∈ predictions ->
             (cand_pathogen c = "Magnaporthe oryzae" ->
              cand_confidence c = 0.6000000000000001%float)
             /\ (cand_pathogen c = "Xanthomonas oryzae" ->
                 cand_confidence c = 0.95%float))
       /\ ~ "Rhizoctonia solani" ∈ map cand_pathogen predictions.
Proof.
  split; [reflexivity|].
  destruct (rule_candidates_follow_table mixed_obs eq_refl)
    as (Hblast & _ & Hbacterial & predictions & Hp & Hin & Hconf & _).
  split; [exact Hblast|]. split; [exact Hbacterial|].
  exists predictions. split; [exact Hp|]. split.
  - intros c Hc. split; intros Hname.
    + apply (Hconf blast_row c); [|exact Hc|exact Hname].
      unfold table. rewrite !elem_of_cons. auto.
    + apply (Hconf bacterial_row c); [|exact Hc|exact Hname].
      unfold table. rewrite !elem_of_cons. auto.
  - intros Hblight.
    assert (blight_row ∈ table) as Hrow
      by (unfold table; rewrite !elem_of_cons; auto).
    apply (Hin blight_row Hrow) in Hblight. discriminate Hblight.
Defined.

(** The candidates are not sorted by confidence: here the first one is the
    weaker. *)
Example rule_candidates_not_sorted :
  rule_candidates mixed_obs
  = Some [{| cand_pathogen := "Magnaporthe oryzae";
             cand_confidence := 0.6000000000000001 |};
          {| cand_pathogen := "Xanthomonas oryzae"; cand_confidence := 0.95 |}].
Proof. vm_compute. reflexivity. Qed.

(** ** Risk level and recommendations, step by step *)

Lemma truthy_guard {A : Type} (info : Profile) (field : Profile -> option A) :
  (forall x, field info = Some x -> profile_truthy info = true) ->
  (if profile_truthy info then field info else None) = field info.
Proof.
  intros H. destruct (field info) as [x|] eqn:E.
  - by rewrite (H x).
  - by destruct (profile_truthy info).
Qed.

Lemma favorable_conditions_guard info :
  (if profile_truthy info then info_favorable_conditions info else None)
  = info_favorable_conditions info.
Proof.
  apply (truthy_guard info info_favorable_conditions).
  destruct info as [[] [] [] [] [] []]; simpl; intros; congruence.
Qed.

Lemma management_guard info :
  (if profile_truthy info then info_management info else None)
  = info_management info.
Proof.
  apply (truthy_guard info info_management).
  destruct info as [[] [] [] [] [] []]; simpl; intros; congruence.
Qed.

Lemma range_bonus_spec range reading base r :
  range_bonus range reading base = Some r ->
  r = add_if (in_range range reading) base 0.1.
Proof.
  destruct range as [[lo hi]|]; simpl.
  - destruct (between lo reading hi) as [b|]; simpl; [|discriminate].
    by intros [= <-].
  - by intros [= <-].
Qed.

Lemma range_bonus_number range reading base :
  is_number reading = true ->
  range_bonus range reading base = Some (add_if (in_range range reading) base 0.1).
Proof.
  intros H. destruct range as [[lo hi]|]; simpl; [|reflexivity].
  by rewrite (between_number lo reading hi H).
Qed.

(** Whenever the risk calculation returns, it returns the class of the
    accumulated base risk. *)
Lemma calculate_risk_level_spec c d info r :
  _calculate_risk_level c d info = Some r ->
  r = classify_risk (spec_base_risk c d info).
Proof.
  unfold _calculate_risk_level, spec_base_risk, temperature_favorable,
    humidity_favorable, severity_high, area_large, profile_conditions.
  rewrite favorable_conditions_guard.
  destruct (info_favorable_conditions info) as [fc|]; simpl.
  - destruct (range_bonus (fc_temperature fc) _ c) as [r1|] eqn:E1; simpl; [|discriminate].
    destruct (range_bonus (fc_humidity fc) _ r1) as [r2|] eqn:E2; simpl; [|discriminate].
    apply range_bonus_spec in E1, E2. subst r1 r2.
    destruct (ge_int (dict_get d "severity" (VInt 5)) 7) as [b3|]; simpl; [|discriminate].
    destruct (ge_int (dict_get d "affected_area" (VInt 25)) 50) as [b4|]; simpl; [|discriminate].
    by intros [= <-].
  - destruct (ge_int (dict_get d "severity" (VInt 5)) 7) as [b3|]; simpl; [|discriminate].
    destruct (ge_int (dict_get d "affected_area" (VInt 25)) 50) as [b4|]; simpl; [|discriminate].
    by intros [= <-].
Qed.

Lemma calculate_risk_level_total c d info :
  well_typed d = true ->
  _calculate_risk_level c d info = Some (classify_risk (spec_base_risk c d info)).
Proof.
  intros (_ & Ht & Hh & _ & Hs & Ha)%well_typed_fields.
  destruct (_calculate_risk_level c d info) as [r|] eqn:E;
    [f_equal; by apply calculate_risk_level_spec|].
  revert E. unfold _calculate_risk_level.
  rewrite favorable_conditions_guard.
  destruct (info_favorable_conditions info) as [fc|]; simpl.
  - rewrite (range_bonus_number _ _ _ Ht); simpl.
    rewrite (range_bonus_number _ _ _ Hh); simpl.
    rewrite (ge_int_number _ _ Hs), (ge_int_number _ _ Ha). discriminate.
  - rewrite (ge_int_number _ _ Hs), (ge_int_number _ _ Ha). discriminate.
Qed.

Lemma get_management_recommendations_spec p d info l :
  _get_management_recommendations p d info = Some l ->
  l = firstn 5 (spec_recommendations d info).
Proof.
  unfold _get_management_recommendations, spec_recommendations, severity_high,
    humidity_high, grain_stage.
  rewrite management_guard.
  generalize (in_strs (dict_get d "growth_stage" (VStr "Tillering"))
                      ["Flowering"; "Grain filling"]); intros g.
  destruct (ge_int (dict_get d "severity" (VInt 5)) 7) as [b1|]; simpl; [|discriminate].
  destruct (ge_int (dict_get d "humidity" (VInt 80)) 85) as [b2|]; simpl; [|discriminate].
  intros [= <-]. f_equal.
  destruct (info_management info) as [m|], b1, b2, g;
    simpl; rewrite <- ?app_assoc, ?app_nil_r; reflexivity.
Qed.

Lemma get_management_recommendations_total p d info :
  well_typed d = true ->
  _get_management_recommendations p d info
  = Some (firstn 5 (spec_recommendations d info)).
Proof.
  intros (_ & _ & Hh & _ & Hs & _)%well_typed_fields.
  destruct (_get_management_recommendations p d info) as [l|] eqn:E;
    [f_equal; by apply (get_management_recommendations_spec p)|].
  revert E. unfold _get_management_recommendations.
  rewrite (ge_int_number _ _ Hs); simpl.
  rewrite (ge_int_number _ _ Hh). discriminate.
Qed.

Lemma enhance_prediction_total result d :
  well_typed d = true -> is_Some (_enhance_prediction result d).
Proof.
  intros H. unfold _enhance_prediction.
  rewrite (calculate_risk_level_total _ _ _ H); simpl.
  rewrite (get_management_recommendations_total _ _ _ H); simpl. eauto.
Qed.

Lemma enhance_prediction_pathogen result d e :
  _enhance_prediction result d = Some e ->
  pathogen e = cand_pathogen result /\ confidence e = cand_confidence result.
Proof.
  unfold _enhance_prediction.
  destruct (_calculate_risk_level _ _ _); simpl; [|discriminate].
  destruct (_get_management_recommendations _ _ _); simpl; [|discriminate].
  intros [= <-]. auto.
Qed.

(** ** What the tests mean on numbers *)

Lemma ge_int_VInt n k : ge_int (VInt n) k = Some (k <=? n).
Proof.
  unfold ge_int, Z.leb; simpl. rewrite (Z.compare_antisym n k).
  by destruct (n ?= k).
Qed.

Lemma gt_int_VInt n k : gt_int (VInt n) k = Some (k <? n).
Proof.
  unfold gt_int, Z.ltb; simpl. rewrite (Z.compare_antisym n k).
  by destruct (n ?= k).
Qed.

Lemma between_VInt lo n hi :
  between lo (VInt n) hi = Some ((lo <=? n) && (n <=? hi)).
Proof.
  unfold between. rewrite ge_int_VInt; simpl.
  destruct (lo <=? n); simpl; [|reflexivity].
  unfold le_int, Z.leb; simpl. by destruct (n ?= hi).
Qed.

(** The ends of a range belong to it, also for a float reading. *)
Example between_float_ends :
  between 20 (VFloat 20) 30 = Some true
  /\ between 20 (VFloat 30) 30 = Some true
  /\ between 20 (VFloat 30.000000000000004) 30 = Some false
  /\ between 20 (VFloat 19.999999999999996) 30 = Some false
  /\ between 20 (VFloat nan) 30 = Some false.
Proof. repeat split; vm_compute; reflexivity. Qed.

(** Mixed comparisons are exact, a NaN is unordered, and a test on a value
    that is not a number raises. *)
Example comparison_examples :
  ge_int (VFloat 9007199254740992) (2 ^ 53 + 1) = Some false
  /\ ge_int (VInt (2 ^ 60 + 1)) 85 = Some true
  /\ ge_int (VBool true) 1 = Some true
  /\ ge_int (VFloat nan) 85 = Some false
  /\ ge_int (VFloat infinity) 85 = Some true
  /\ gt_int (VFloat 10) 10 = Some false
  /\ ge_int (VStr "85") 85 = None
  /\ ge_int VNone 85 = None.
Proof. repeat split; vm_compute; reflexivity. Qed.

(** Membership of a literal: element of a list, substring of a string. *)
Example membership_examples :
  str_in "yellowing" (VList [VStr "wilting"; VStr "yellowing"]) = Some true
  /\ str_in "yellowing" (VList [VStr "yellowing leaves"]) = Some false
  /\ str_in "yellowing" (VStr "yellowing leaves") = Some true
  /\ str_in "yellowing" (VStr "yellow") = Some false
  /\ str_in "yellowing" VNone = None
  /\ in_strs VNone ["Heading"; "Flowering"] = false.
Proof. repeat split; vm_compute; reflexivity. Qed.

(** ** Risk level *)

Lemma classify_risk_cases (base_risk : float) :
  ((0.8 <=? base_risk)%float = true -> classify_risk base_risk = "High")
  /\ ((0.6 <=? base_risk)%float = true -> (base_risk <? 0.8)%float = true ->
      classify_risk base_risk = "Medium")
  /\ ((base_risk <? 0.6)%float = true -> classify_risk base_risk = "Low").
Proof.
  unfold classify_risk. repeat split.
  - by intros ->.
  - intros H6 H8%ltb_leb_false. by rewrite H8, H6.
  - intros H6.
    assert ((base_risk <? 0.8)%float = true) as H8%ltb_leb_false
      by (apply (ltb_leb_trans _ 0.6); [exact H6|reflexivity]).
    apply ltb_leb_false in H6. by rewrite H8, H6.
Qed.

Lemma spec_base_risk_unfold (confidence : float) (d : dict) (info : Profile) :
  spec_base_risk confidence d info
  = (let ranges := default empty_conditions (info_favorable_conditions info) in
     let base_risk := confidence in
     let base_risk :=
       if within (fc_temperature ranges) (reading d "temperature" (VInt 25))
       then base_risk + 0.1 else base_risk in
     let base_risk :=
       if within (fc_humidity ranges) (reading d "humidity" (VInt 80))
       then base_risk + 0.1 else base_risk in
     let base_risk :=
       if at_least (reading d "severity" (VInt 5)) 7
       then base_risk + 0.1 else base_risk in
     let base_risk :=
       if at_least (reading d "affected_area" (VInt 25)) 50
       then base_risk + 0.1 else base_risk in
     base_risk)%float.
Proof.
  unfold spec_base_risk, temperature_favorable, humidity_favorable, severity_high,
    area_large, profile_conditions, add_if.
  by rewrite !in_range_within, !ge_int_at_least, !reading_dict_get.
Qed.

(** C4: the risk level is the class of [baseRisk], the confidence plus
    [0.1] for a temperature inside the profile's range, [0.1] for a humidity
    inside the profile's range, [0.1] for a severity of at least 7 and [0.1]
    for an affected area of at least 50, never clipped; the class is High
    from [0.8] on, Medium from [0.6] up to [0.8] and Low below [0.6], so that
    with no bonus a confidence of [0.6] is Medium and one of [0.8] is High. *)
Theorem risk_level_is_class_of_base_risk (confidence : float) (d : dict)
    (info : Profile) :
  well_typed d = true ->
  let ranges := default empty_conditions (info_favorable_conditions info) in
  let temperature_bonus :=
    within (fc_temperature ranges) (reading d "temperature" (VInt 25)) in
  let humidity_bonus :=
    within (fc_humidity ranges) (reading d "humidity" (VInt 80)) in
  let severity_bonus := at_least (reading d "severity" (VInt 5)) 7 in
  let area_bonus := at_least (reading d "affected_area" (VInt 25)) 50 in
  let base_risk :=
    (let r := confidence in
     let r := if temperature_bonus then r + 0.1 else r in
     let r := if humidity_bonus then r + 0.1 else r in
     let r := if severity_bonus then r + 0.1 else r in
     let r := if area_bonus then r + 0.1 else r in
     r)%float in
  exists r,
    _calculate_risk_level confidence d info = Some r
    /\ ((0.8 <=? base_risk)%float = true -> r = "High")
    /\ ((0.6 <=? base_risk)%float = true -> (base_risk <? 0.8)%float = true ->
        r = "Medium")
    /\ ((base_risk <? 0.6)%float = true -> r = "Low")
    /\ (temperature_bonus = false -> humidity_bonus = false ->
        severity_bonus = false -> area_bonus = false ->
        (confidence = 0.6%float -> r = "Medium")
        /\ (confidence = 0.8%float -> r = "High")).
Proof.
  intros H ranges temperature_bonus humidity_bonus severity_bonus area_bonus
    base_risk.
  exists (classify_risk base_risk).
  split.
  { rewrite (calculate_risk_level_total confidence d info H).
    by rewrite spec_base_risk_unfold. }
  destruct (classify_risk_cases base_risk) as (HH & HM & HL).
  repeat split; auto.
  - intros Ec. subst base_risk. cbv zeta. rewrite H0, H1, H2, H3, Ec. reflexivity.
  - intros Ec. subst base_risk. cbv zeta. rewrite H0, H1, H2, H3, Ec. reflexivity.
Qed.

Lemma risk_level_is_class_of_base_risk_witness :
  well_typed severe_obs = true
  /\ _calculate_risk_level 0.5 severe_obs empty_profile = Some "Medium"
  /\ _calculate_risk_level 0.5 scenario_obs xanthomonas_profile = Some "High".
Proof.
  split; [reflexivity|]. split.
  - destruct (risk_level_is_class_of_base_risk 0.5 severe_obs empty_profile eq_refl)
      as (r & -> & _ & HM & _).
    f_equal. apply HM; vm_compute; reflexivity.
  - destruct (risk_level_is_class_of_base_risk 0.5 scenario_obs xanthomonas_profile
                eq_refl) as (r & -> & HH & _).
    f_equal. apply HH. vm_compute. reflexivity.
Defined.

(** The bonuses are not clipped: the base risk of the scenario exceeds 1. *)
Example base_risk_unclipped :
  spec_base_risk 0.95 scenario_obs xanthomonas_profile = 1.3500000000000003%float.
Proof. vm_compute. reflexivity. Qed.

(** Binary64 sums near a threshold: two bonuses on top of [0.6] stay below
    [0.8]. *)
Example base_risk_rounding :
  (0.6 + 0.1 + 0.1)%float = 0.7999999999999999%float
  /\ classify_risk (0.6 + 0.1 + 0.1) = "Medium"
  /\ classify_risk 0.59999 = "Low".
Proof. repeat split; vm_compute; reflexivity. Qed.

(** ** Recommendations *)

Lemma spec_recommendations_unfold (d : dict) (info : Profile) :
  spec_recommendations d info
  = ((if at_least (reading d "severity" (VInt 5)) 7
      then ["Immediate intervention required due to high severity"] else [])
     ++ default [] (info_management info)
     ++ (if stage_among d ["Flowering"; "Grain filling"]
         then ["Apply protective measures to prevent grain infection"] else [])
     ++ (if at_least (reading d "humidity" (VInt 80)) 85
         then ["Improve field ventilation to reduce humidity"] else []))%list.
Proof.
  unfold spec_recommendations, severity_high, humidity_high.
  by rewrite grain_stage_among, !ge_int_at_least, !reading_dict_get.
Qed.

(** C5: the recommendations are the profile's management actions in order
    (none for an unknown profile), preceded by the high-severity notice when
    the severity is at least 7, followed by the grain-protection notice when
    the growth stage is Flowering or Grain filling and by the ventilation
    notice when the humidity is at least 85, cut to the first five; the list
    never has more than five entries. *)
Theorem recommendations_are_truncated_assembly (p : string) (d : dict)
    (info : Profile) :
  (forall l, _get_management_recommendations p d info = Some l ->
     l = firstn 5
           ((if at_least (reading d "severity" (VInt 5)) 7
             then ["Immediate intervention required due to high severity"] else [])
            ++ default [] (info_management info)
            ++ (if stage_among d ["Flowering"; "Grain filling"]
                then ["Apply protective measures to prevent grain infection"] else [])
            ++ (if at_least (reading d "humidity" (VInt 80)) 85
                then ["Improve field ventilation to reduce humidity"] else []))%list
     /\ (length l <= 5)%nat)
  /\ (well_typed d = true -> is_Some (_get_management_recommendations p d info)).
Proof.
  split.
  - intros l ->%get_management_recommendations_spec.
    rewrite spec_recommendations_unfold.
    split; [reflexivity|]. rewrite length_take. lia.
  - intros H. rewrite (get_management_recommendations_total p d info H). eauto.
Qed.

Lemma recommendations_are_truncated_assembly_witness :
  _get_management_recommendations "Unknown" flowering_obs empty_profile
  = Some ["Immediate intervention required due to high severity";
          "Apply protective measures to prevent grain infection";
          "Improve field ventilation to reduce humidity"]
  /\ _get_management_recommendations "Magnaporthe oryzae" flowering_obs
       magnaporthe_profile
     = Some ["Immediate intervention required due to high severity";
             "Use resistant varieties";
             "Apply fungicides at early growth stages";
             "Improve field drainage";
             "Balanced fertilization"].
Proof.
  split.
  - destruct (recommendations_are_truncated_assembly
                "Unknown" flowering_obs empty_profile) as [Hspec Htot].
    destruct (Htot eq_refl) as [l Hl]. rewrite Hl.
    destruct (Hspec l Hl) as [-> _]. vm_compute. reflexivity.
  - destruct (recommendations_are_truncated_assembly
                "Magnaporthe oryzae" flowering_obs magnaporthe_profile)
      as [Hspec Htot].
    destruct (Htot eq_refl) as [l Hl]. rewrite Hl.
    destruct (Hspec l Hl) as [-> _]. vm_compute. reflexivity.
Defined.

(** ** Action *)

(** C6: High risk with a confidence of at least [0.8] gives Immediate
    Treatment, High risk with a confidence from [0.6] up to [0.8] gives
    Urgent Monitoring, Medium risk gives Preventive Action whatever the
    confidence, and everything else (Low risk, High risk with a confidence
    below [0.6]) gives Monitor & Observe; the risk calculator does produce
    High for a confidence below [0.6]. *)
Theorem action_follows_risk_and_confidence (risk : string) (c : float) :
  (risk = "High" -> (0.8 <=? c)%float = true ->
   _determine_action risk c = "Immediate Treatment")
  /\ (risk = "High" -> (0.6 <=? c)%float = true -> (c <? 0.8)%float = true ->
      _determine_action risk c = "Urgent Monitoring")
  /\ (risk = "Medium" -> _determine_action risk c = "Preventive Action")
  /\ (risk = "Low" -> _determine_action risk c = "Monitor & Observe")
  /\ (risk = "High" -> (c <? 0.6)%float = true ->
      _determine_action risk c = "Monitor & Observe")
  /\ (risk <> "High" -> risk <> "Medium" ->
      _determine_action risk c = "Monitor & Observe")
  /\ (exists c' d info,
        well_typed d = true
        /\ (c' <? 0.6)%float = true
        /\ _calculate_risk_level c' d info = Some "High"
        /\ _determine_action "High" c' = "Monitor & Observe").
Proof.
  unfold _determine_action. repeat split.
  - intros -> ->. reflexivity.
  - intros -> H6 H8%ltb_leb_false. rewrite H8, H6. reflexivity.
  - intros ->. reflexivity.
  - intros ->. reflexivity.
  - intros -> H6.
    assert ((c <? 0.8)%float = true) as H8%ltb_leb_false
      by (apply (ltb_leb_trans _ 0.6); [exact H6|reflexivity]).
    apply ltb_leb_false in H6. rewrite H8, H6. reflexivity.
  - intros NH NM.
    apply String.eqb_neq in NH, NM. rewrite NH, NM. reflexivity.
  - exists 0.5%float, scenario_obs, xanthomonas_profile.
    repeat split; vm_compute; reflexivity.
Qed.

Lemma action_follows_risk_and_confidence_witness :
  _determine_action "High" 0.7 = "Urgent Monitoring"
  /\ _determine_action "High" 0.5 = "Monitor & Observe".
Proof.
  destruct (action_follows_risk_and_confidence "High" 0.7) as (_ & HU & _).
  destruct (action_follows_risk_and_confidence "High" 0.5) as (_ & _ & _ & _ & HM & _).
  split; [apply HU|apply HM]; reflexivity.
Defined.

(** ** Knowledge-base lookups *)

Lemma pathogen_knowledge_None p :
  pathogen_knowledge !! p = None <->
  p <> "Magnaporthe oryzae" /\ p <> "Rhizoctonia solani" /\ p <> "Xanthomonas oryzae".
Proof.
  unfold pathogen_knowledge. rewrite !lookup_insert_None, lookup_empty.
  split; [intros (((_ & ?) & ?) & ?)|intros (? & ? & ?)]; repeat split; congruence.
Qed.

Lemma lookup_profile_known :
  lookup_profile "Magnaporthe oryzae" = magnaporthe_profile
  /\ lookup_profile "Rhizoctonia solani" = rhizoctonia_profile
  /\ lookup_profile "Xanthomonas oryzae" = xanthomonas_profile.
Proof. repeat split; vm_compute; reflexivity. Qed.

(** C9: a candidate whose pathogen is not a key of the knowledge base is
    looked up as the empty profile, and its enhanced prediction has the type
    "Unknown", no favourable conditions, no typical symptoms and, as common
    name, the default of the lookup: the pathogen identity itself. *)
Theorem unknown_pathogen_gets_default_profile (result : Candidate) (d : dict) :
  pathogen_knowledge !! cand_pathogen result = None ->
  lookup_profile (cand_pathogen result) = empty_profile
  /\ (forall e, _enhance_prediction result d = Some e ->
        pathogen e = cand_pathogen result
        /\ pathogen_type e = "Unknown"
        /\ favorable_conditions e = empty_conditions
        /\ typical_symptoms e = []
        /\ common_name e = cand_pathogen result)
  /\ (well_typed d = true -> is_Some (_enhance_prediction result d)).
Proof.
  intros Hnone.
  assert (lookup_profile (cand_pathogen result) = empty_profile) as Hp
    by (unfold lookup_profile; by rewrite Hnone).
  split; [exact Hp|]. split; [|apply enhance_prediction_total].
  intros e. unfold _enhance_prediction. rewrite Hp.
  destruct (_calculate_risk_level _ _ _); simpl; [|discriminate].
  destruct (_get_management_recommendations _ _ _); simpl; [|discriminate].
  intros [= <-]. simpl. auto.
Qed.

Lemma unknown_pathogen_gets_default_profile_witness :
  exists e,
    _enhance_prediction {| cand_pathogen := "Unknown"; cand_confidence := 0.3 |} ∅
    = Some e
    /\ pathogen_type e = "Unknown" /\ common_name e = "Unknown"
    /\ typical_symptoms e = [].
Proof.
  destruct (unknown_pathogen_gets_default_profile
              {| cand_pathogen := "Unknown"; cand_confidence := 0.3 |} ∅ eq_refl)
    as (_ & Hfields & Htot).
  destruct (Htot eq_refl) as [e He]. exists e.
  destruct (Hfields e He) as (_ & Ht & _ & Hs & Hc). auto.
Defined.

(** ** The result of [predict] *)

Lemma rule_based_prediction_cases d l :
  _rule_based_prediction d = Some l ->
  (l = spec_candidates d /\ l <> []) \/
  (spec_candidates d = [] /\ l = default_candidates d).
Proof.
  unfold _rule_based_prediction.
  destruct (rule_candidates d) as [predictions|] eqn:E; simpl; [|discriminate].
  apply rule_candidates_spec in E. subst predictions.
  intros [= <-]. destruct (spec_candidates d); [right|left]; done.
Qed.

Lemma mapM_enhance_pathogens d l k :
  mapM (fun result => _enhance_prediction result d) l = Some k ->
  map pathogen k = map cand_pathogen l.
Proof.
  intros H%mapM_Some_1.
  induction H as [|c e l k He _ IH]; simpl; [reflexivity|].
  apply enhance_prediction_pathogen in He as [-> _]. by rewrite IH.
Qed.

Lemma predict_try_pathogens d k :
  predict_try d = Some k ->
  exists l, _rule_based_prediction d = Some l
            /\ mapM (fun result => _enhance_prediction result d) l = Some k
            /\ map pathogen k = map cand_pathogen l.
Proof.
  unfold predict_try.
  destruct (_rule_based_prediction d) as [l|] eqn:E; simpl; [|discriminate].
  intros H. exists l. eauto using mapM_enhance_pathogens.
Qed.

Lemma default_candidates_length d : length (default_candidates d) = 1%nat.
Proof. unfold default_candidates. by destruct (truthy _). Qed.

Lemma predict_try_total d :
  well_typed d = true -> is_Some (predict_try d).
Proof.
  intros H. unfold predict_try, _rule_based_prediction.
  rewrite (rule_candidates_total d H); simpl.
  apply mapM_is_Some_2, Forall_forall. intros c _.
  by apply enhance_prediction_total.
Qed.

(** C1: [predict] returns on every dict, with at least one prediction; when
    the [try] block raised, the result is the single fixed fallback
    prediction. *)
Theorem predict_never_raises_and_is_nonempty (d : dict) :
  (1 <= length (predict d))%nat
  /\ (predict_try d = None ->
      predict d =
        [{| pathogen := "Unknown Pathogen";
            common_name := "Unknown Disease";
            pathogen_type := "Unknown";
            confidence := 0.3;
            risk_level := "Medium";
            action := "Laboratory Analysis Needed";
            recommendations :=
              ["Submit sample for laboratory analysis";
               "Monitor field conditions closely";
               "Apply general fungicide as precaution";
               "Consult agricultural extension officer"];
            favorable_conditions :=
              {| fc_temperature := None; fc_humidity := None; fc_rainfall := None |};
            typical_symptoms := [] |}]).
Proof.
  unfold predict. destruct (predict_try d) as [k|] eqn:E.
  - split; [|discriminate].
    destruct (predict_try_pathogens d k E) as (l & Hl & _ & Hk).
    apply (f_equal length) in Hk. rewrite !length_map in Hk. rewrite Hk.
    destruct (rule_based_prediction_cases d l Hl) as [[_ Hne]|[_ ->]].
    + destruct l; [done|simpl; lia].
    + rewrite default_candidates_length. lia.
  - split; [simpl; lia|]. reflexivity.
Qed.

Lemma predict_never_raises_and_is_nonempty_witness :
  predict_try ill_typed_obs = None
  /\ length (predict ill_typed_obs) = 1%nat
  /\ pathogen <$> predict ill_typed_obs = ["Unknown Pathogen"].
Proof.
  destruct (predict_never_raises_and_is_nonempty ill_typed_obs) as [_ Hfb].
  split; [reflexivity|]. rewrite (Hfb eq_refl). split; reflexivity.
Defined.

(** C3: when no raw score strictly exceeds [0.5], [predict] returns exactly
    one prediction: Magnaporthe oryzae at [0.6] when the symptoms list is
    not empty, "Unknown" at [0.3] when it is. *)
Theorem no_strong_rule_gives_single_default (d : dict) (symptoms : list value)
    (s1 s2 s3 : float) :
  well_typed d = true ->
  dict_get d "symptoms" (VList []) = VList symptoms ->
  blast_score d = Some s1 -> blight_score d = Some s2 -> bacterial_score d = Some s3 ->
  (0.5 <? s1)%float = false -> (0.5 <? s2)%float = false ->
  (0.5 <? s3)%float = false ->
  exists e,
    predict d = [e]
    /\ (symptoms <> [] ->
        pathogen e = "Magnaporthe oryzae" /\ confidence e = 0.6%float)
    /\ (symptoms = [] -> pathogen e = "Unknown" /\ confidence e = 0.3%float).
Proof.
  intros H Hsym E1 E2 E3 L1 L2 L3.
  assert (_rule_based_prediction d = Some (default_candidates d)) as Hr.
  { unfold _rule_based_prediction, rule_candidates.
    rewrite E1, E2, E3; simpl. unfold append_if_strong. rewrite L1, L2, L3.
    reflexivity. }
  unfold predict, predict_try. rewrite Hr; simpl.
  unfold default_candidates. rewrite Hsym.
  destruct symptoms as [|s rest]; simpl.
  - destruct (enhance_prediction_total
                {| cand_pathogen := "Unknown"; cand_confidence := 0.3 |} d H)
      as [e He].
    rewrite He; simpl. exists e.
    apply enhance_prediction_pathogen in He as [-> ->]. by repeat split.
  - destruct (enhance_prediction_total
                {| cand_pathogen := "Magnaporthe oryzae"; cand_confidence := 0.6 |} d H)
      as [e He].
    rewrite He; simpl. exists e.
    apply enhance_prediction_pathogen in He as [-> ->]. by repeat split.
Qed.

Lemma no_strong_rule_gives_single_default_witness :
  exists e,
    predict weak_obs = [e]
    /\ pathogen e = "Magnaporthe oryzae" /\ confidence e = 0.6%float.
Proof.
  destruct (no_strong_rule_gives_single_default weak_obs [VStr "brown edges"]
              0.4 0.4 0.4 eq_refl eq_refl eq_refl eq_refl eq_refl
              eq_refl eq_refl eq_refl) as (e & He & Hne & _).
  exists e. split; [exact He|]. by apply Hne.
Defined.

(** C10: [predict] returns at most three predictions, for pairwise distinct
    pathogens. *)
Theorem predict_at_most_three_distinct (d : dict) :
  (length (predict d) <= 3)%nat /\ NoDup (map pathogen (predict d)).
Proof.
  assert (forall k : list EnhancedPrediction,
            (length (map pathogen k) <= 3)%nat ->
            (length k <= 3)%nat) as Hlen
    by (intros k; by rewrite length_map).
  unfold predict. destruct (predict_try d) as [k|] eqn:E.
  - destruct (predict_try_pathogens d k E) as (l & Hl & _ & Hk).
    destruct (rule_based_prediction_cases d l Hl) as [[-> _]|[_ ->]].
    + pose proof (spec_candidates_pathogens d) as Hsub.
      split.
      * apply Hlen. rewrite Hk. apply sublist_length in Hsub. exact Hsub.
      * rewrite Hk. eapply sublist_NoDup; [|exact Hsub].
        repeat (apply NoDup_cons; split;
                  [rewrite ?elem_of_cons, elem_of_nil; intuition discriminate|]).
        apply NoDup_nil_2.
    + split.
      * apply Hlen. rewrite Hk, length_map, default_candidates_length. lia.
      * rewrite Hk. unfold default_candidates.
        destruct (truthy _); simpl; apply NoDup_singleton.
  - split; [simpl; lia|]. simpl. apply NoDup_singleton.
Qed.

(** ** The stable sort *)

Section StableSort.

Context {A : Type}.
Implicit Types (l : list (Z * A)) (k : Z) (x : A).

(** Inserting keeps the elements of every key in their order, the new
    element first among those of its own key. *)
Lemma filter_insert_by_key r k x l :
  filter (fun ky => ky.1 = r) (insert_by_key k x l)
  = filter (fun ky => ky.1 = r) ((k, x) :: l).
Proof.
  induction l as [|[k' y] l IH]; simpl; [reflexivity|].
  destruct (Z.leb_spec k k'); [reflexivity|].
  rewrite (filter_cons _ (k', y)), IH, !(filter_cons _ (k, x)), (filter_cons _ (k', y)).
  simpl. repeat case_decide; try reflexivity; lia.
Qed.

(** Stability: the elements of each key come out in their input order. *)
Lemma stable_sort_keyed_stable r l :
  filter (fun ky => ky.1 = r) (stable_sort_keyed l) = filter (fun ky => ky.1 = r) l.
Proof.
  induction l as [|[k x] l IH]; simpl; [reflexivity|].
  rewrite filter_insert_by_key, !(filter_cons _ (k, x)), IH. reflexivity.
Qed.

Lemma insert_by_key_sorted k x l :
  Sorted (fun a b => a.1 <= b.1) l ->
  Sorted (fun a b => a.1 <= b.1) (insert_by_key k x l).
Proof.
  induction 1 as [|[k' y] l Hs IH Hhd]; simpl.
  - repeat constructor.
  - destruct (Z.leb_spec k k').
    + constructor; [by constructor|]. constructor. simpl. lia.
    + constructor; [exact IH|].
      destruct l as [|[k'' z] l]; simpl.
      * constructor. simpl. lia.
      * destruct (k <=? k''); constructor; simpl; [lia|].
        inversion Hhd; subst. assumption.
Qed.

(** The keys come out in ascending order. *)
Lemma stable_sort_keyed_sorted l :
  Sorted (fun a b => a.1 <= b.1) (stable_sort_keyed l).
Proof.
  induction l as [|[k x] l IH]; simpl; [constructor|].
  by apply insert_by_key_sorted.
Qed.

(** An element goes right after the smaller keys when only keys that are
    not smaller follow. *)
Lemma insert_by_key_app k x l1 l2 :
  Forall (fun ky => ky.1 < k) l1 ->
  Forall (fun ky => k <= ky.1) l2 ->
  insert_by_key k x (l1 ++ l2) = l1 ++ (k, x) :: l2.
Proof.
  intros H1 H2. induction H1 as [|[k' y] l1 Hlt _ IH]; simpl.
  - destruct H2 as [|[k' y] l2 Hle _]; simpl; [reflexivity|].
    simpl in Hle. destruct (Z.leb_spec k k'); [reflexivity|lia].
  - simpl in Hlt. destruct (Z.leb_spec k k'); [lia|]. by rewrite IH.
Qed.

Variable key : A -> option Z.

Definition keyed (l : list A) : list (Z * A) :=
  map (fun x => (default 0 (key x), x)) l.

Definition with_key (r : Z) (l : list A) : list A :=
  filter (fun x => key x = Some r) l.

Lemma keyed_with_key_keys r (l : list A) :
  Forall (fun ky => ky.1 = r) (keyed (with_key r l)).
Proof.
  unfold keyed, with_key. apply Forall_forall.
  intros [k x] (y & [= -> ->] & [Hy _]%list_elem_of_filter)%list_elem_of_fmap.
  simpl. by rewrite Hy.
Qed.

Lemma sorted_three_blocks (l : list A) :
  Forall (fun x => key x = Some 1 \/ key x = Some 2 \/ key x = Some 3) l ->
  stable_sort_keyed (keyed l)
  = keyed (with_key 1 l) ++ keyed (with_key 2 l) ++ keyed (with_key 3 l).
Proof.
  induction 1 as [|x l Hx _ IH]; [reflexivity|].
  change (stable_sort_keyed (keyed (x :: l)))
    with (insert_by_key (default 0 (key x)) x (stable_sort_keyed (keyed l))).
  rewrite IH. clear IH.
  pose proof (keyed_with_key_keys 1 l) as K1.
  pose proof (keyed_with_key_keys 2 l) as K2.
  pose proof (keyed_with_key_keys 3 l) as K3.
  unfold with_key in *. rewrite !(filter_cons _ x).
  destruct Hx as [Hx|[Hx|Hx]]; rewrite Hx; simpl;
    repeat case_decide; try congruence; simpl; rewrite Hx; simpl.
  - apply (insert_by_key_app 1 x []); [constructor|].
    rewrite !Forall_app. repeat split;
      (eapply Forall_impl; [eassumption|]; simpl; intros; lia).
  - apply (insert_by_key_app 2 x).
    + eapply Forall_impl; [exact K1|]; simpl; intros; lia.
    + rewrite !Forall_app. repeat split;
        (eapply Forall_impl; [eassumption|]; simpl; intros; lia).
  - rewrite !app_assoc. apply (insert_by_key_app 3 x).
    + rewrite !Forall_app. repeat split;
        (eapply Forall_impl; [eassumption|]; simpl; intros; lia).
    + eapply Forall_impl; [exact K3|]; simpl; intros; lia.
Qed.

Lemma mapM_key_total (l : list A) :
  Forall (fun x => key x = Some 1 \/ key x = Some 2 \/ key x = Some 3) l ->
  mapM key l = Some (map (fun x => default 0 (key x)) l).
Proof.
  intros H. apply mapM_Some_2.
  induction H as [|x l Hx _ IH]; simpl; constructor; [|exact IH].
  destruct Hx as [-> | [-> | ->]]; reflexivity.
Qed.

Lemma zip_keys (l : list A) :
  zip (map (fun x => default 0 (key x)) l) l = keyed l.
Proof. induction l as [|x l IH]; simpl; [reflexivity|]. by rewrite IH. Qed.

Lemma keyed_snd (l : list A) : (keyed l).*2 = l.
Proof. induction l as [|x l IH]; [reflexivity|]. simpl. f_equal. exact IH. Qed.

(** Sorting by a key that takes the values 1, 2 and 3 never fails and
    yields the three classes one after the other, each in input order. *)
Lemma sort_by_key_three_blocks (l : list A) :
  Forall (fun x => key x = Some 1 \/ key x = Some 2 \/ key x = Some 3) l ->
  sort_by_key key l = Some (with_key 1 l ++ with_key 2 l ++ with_key 3 l).
Proof.
  intros H. unfold sort_by_key. rewrite (mapM_key_total l H); simpl.
  rewrite zip_keys, (sorted_three_blocks l H), !fmap_app, !keyed_snd. reflexivity.
Qed.

End StableSort.

(** ** Breeding priorities *)

Lemma priority_order_lookup (p : string) (r : Z) :
  priority_order !! p = Some r <->
  (p = "High" /\ r = 1) \/ (p = "Medium" /\ r = 2) \/ (p = "Low" /\ r = 3).
Proof.
  unfold priority_order. rewrite !lookup_insert_Some, lookup_empty.
  split.
  - intros [[<- <-]|[? [[<- <-]|[? [[<- <-]|[? ?]]]]]]; auto; discriminate.
  - intros [[-> ->]|[[-> ->]|[-> ->]]].
    + left; done.
    + right; split; [done|]. left; done.
    + right; split; [done|]. right; split; [done|]. left; done.
Qed.

Section BreedingProperties.

Variable DataFrame : Type.
Variable df_empty : DataFrame -> bool.
Variable groupby_agg : DataFrame -> option (list (string * Stats)).
Variable round2 : float -> float.

Lemma breeding_priority_cases (row : string * Stats) :
  let r := breeding_recommendation round2 row in
  ((stat_mean row.2 <? 4)%float = true /\ br_priority r = "High")
  \/ ((stat_mean row.2 <? 4)%float = false /\ (stat_mean row.2 <? 6)%float = true
      /\ br_priority r = "Medium")
  \/ ((stat_mean row.2 <? 4)%float = false /\ (stat_mean row.2 <? 6)%float = false
      /\ br_priority r = "Low").
Proof.
  unfold breeding_recommendation.
  destruct (stat_mean row.2 <? 4)%float; [left; done|right].
  destruct (stat_mean row.2 <? 6)%float; [left; done|right; done].
Qed.

Lemma breeding_priority_key (row : string * Stats) :
  let key := fun x => priority_order !! br_priority x in
  let r := breeding_recommendation round2 row in
  key r = Some 1 \/ key r = Some 2 \/ key r = Some 3.
Proof.
  intros key r. unfold key.
  destruct (breeding_priority_cases row) as [[_ E]|[(_ & _ & E)|(_ & _ & E)]];
    fold r in E; rewrite E; [left|right; left|right; right]; reflexivity.
Qed.

(** The three classes of a list of recommendations, by priority name. *)
Definition of_priority (p : string) (l : list BreedingRecommendation)
    : list BreedingRecommendation :=
  filter (fun x => br_priority x = p) l.

Lemma with_key_of_priority (l : list BreedingRecommendation) :
  with_key (fun x => priority_order !! br_priority x) 1 l = of_priority "High" l
  /\ with_key (fun x => priority_order !! br_priority x) 2 l = of_priority "Medium" l
  /\ with_key (fun x => priority_order !! br_priority x) 3 l = of_priority "Low" l.
Proof.
  unfold with_key, of_priority.
  repeat split; apply list_filter_iff; intros x; rewrite priority_order_lookup;
    split; try (intros ->; tauto);
    intros [[? ?]|[[? ?]|[? ?]]]; congruence.
Qed.

(** What the function returns on a frame that is not empty and that pandas
    aggregates without an exception. *)
Lemma get_breeding_recommendations_rows df rows :
  df_empty df = false -> groupby_agg df = Some rows ->
  get_breeding_recommendations DataFrame df_empty groupby_agg round2 df
  = of_priority "High" (map (breeding_recommendation round2) rows)
    ++ of_priority "Medium" (map (breeding_recommendation round2) rows)
    ++ of_priority "Low" (map (breeding_recommendation round2) rows).
Proof.
  intros He Hg. unfold get_breeding_recommendations, breeding_try.
  rewrite He, Hg; simpl.
  rewrite sort_by_key_three_blocks.
  - destruct (with_key_of_priority (map (breeding_recommendation round2) rows))
      as (-> & -> & ->). reflexivity.
  - apply Forall_forall. intros x (row & -> & _)%list_elem_of_fmap.
    apply breeding_priority_key.
Qed.

(** C7: a mean below 4 gives priority High with the "Urgent need" message,
    a mean from 4 up to 6 gives Medium with the "Improve" message, a mean of
    at least 6 gives Low with the "Maintain" message; the variability note
    is appended exactly when the standard deviation exceeds 2; an undefined
    standard deviation (NaN) gets no note and is reported as the variability
    0; every aggregated pathogen gets its recommendation in the result. *)
Theorem breeding_priority_from_mean (pathogen : string) (stats : Stats) :
  let r := breeding_recommendation round2 (pathogen, stats) in
  let mean := stat_mean stats in
  let std := stat_std stats in
  let note (s : string) :=
    if (2 <? std)%float
    then s +:+ " - Focus on reducing variability between varieties" else s in
  br_pathogen r = pathogen
  /\ ((mean <? 4)%float = true ->
      br_priority r = "High"
      /\ br_recommendation r
         = note ("Urgent need to develop varieties with higher resistance to "
                 +:+ pathogen))
  /\ ((4 <=? mean)%float = true -> (mean <? 6)%float = true ->
      br_priority r = "Medium"
      /\ br_recommendation r
         = note ("Improve resistance levels to " +:+ pathogen
                 +:+ " through selective breeding"))
  /\ ((6 <=? mean)%float = true ->
      br_priority r = "Low"
      /\ br_recommendation r
         = note ("Maintain current resistance levels to " +:+ pathogen))
  /\ (PrimFloat.is_nan std = true ->
      (forall s, note s = s) /\ br_variability r = VInt 0)
  /\ (PrimFloat.is_nan std = false -> br_variability r = VFloat (round2 std))
  /\ (forall df rows,
        df_empty df = false -> groupby_agg df = Some rows ->
        (pathogen, stats) ∈ rows ->
        r ∈ get_breeding_recommendations DataFrame df_empty groupby_agg round2 df).
Proof.
  intros r mean std note. subst r note. unfold breeding_recommendation; simpl.
  fold mean std.
  split; [by destruct (mean <? 4)%float, (mean <? 6)%float|].
  split; [intros ->; simpl; split; reflexivity|].
  split; [intros H4%leb_ltb_false H6; rewrite H4, H6; simpl; split; reflexivity|].
  split.
  { intros H6.
    assert ((4 <=? mean)%float = true) as H4%leb_ltb_false
      by (apply (leb_trans _ 6); [reflexivity|exact H6]).
    apply leb_ltb_false in H6. rewrite H4, H6. simpl. split; reflexivity. }
  split.
  { intros Hnan. rewrite (nan_ltb_r 2 std Hnan), Hnan.
    by destruct (mean <? 4)%float, (mean <? 6)%float. }
  split; [intros ->; by destruct (mean <? 4)%float, (mean <? 6)%float|].
  intros df rows He Hg Hin.
  rewrite (get_breeding_recommendations_rows df rows He Hg).
  set (r := breeding_recommendation round2 (pathogen, stats)).
  assert (r ∈ map (breeding_recommendation round2) rows) as Hr
    by (apply list_elem_of_fmap; eauto).
  rewrite !elem_of_app. unfold of_priority. rewrite !list_elem_of_filter.
  destruct (breeding_priority_cases (pathogen, stats))
    as [[_ E]|[(_ & _ & E)|(_ & _ & E)]]; fold r in E; auto.
Qed.

(** C8: the recommendations come out ordered by priority, High before
    Medium before Low, recommendations of equal priority in the order of the
    aggregated rows; an empty frame and an empty aggregate give the empty
    list, and so does a failure of the aggregation: nothing is raised. *)
Theorem breeding_sorted_by_priority (df : DataFrame) :
  let result := get_breeding_recommendations DataFrame df_empty groupby_agg round2 df in
  (df_empty df = true -> result = [])
  /\ (groupby_agg df = None -> result = [])
  /\ (groupby_agg df = Some [] -> result = [])
  /\ (forall rows,
        df_empty df = false -> groupby_agg df = Some rows ->
        let recs := map (breeding_recommendation round2) rows in
        result
        = filter (fun x => br_priority x = "High") recs
          ++ filter (fun x => br_priority x = "Medium") recs
          ++ filter (fun x => br_priority x = "Low") recs).
Proof.
  intros result. subst result. repeat split.
  - intros He. unfold get_breeding_recommendations, breeding_try. by rewrite He.
  - intros Hg. unfold get_breeding_recommendations, breeding_try.
    rewrite Hg. by destruct (df_empty df).
  - intros Hg. destruct (df_empty df) eqn:He.
    + unfold get_breeding_recommendations, breeding_try. by rewrite He.
    + by rewrite (get_breeding_recommendations_rows df [] He Hg).
  - intros rows He Hg. apply (get_breeding_recommendations_rows df rows He Hg).
Qed.

End BreedingProperties.

Lemma breeding_priority_from_mean_witness :
  br_priority (breeding_recommendation (fun x => x) ("B", stat 5 nan 1)) = "Medium"
  /\ br_variability (breeding_recommendation (fun x => x) ("B", stat 5 nan 1)) = VInt 0
  /\ br_recommendation (breeding_recommendation (fun x => x) ("A", stat 3 2.5 4))
     = "Urgent need to develop varieties with higher resistance to A - Focus on reducing variability between varieties".
Proof.
  destruct (breeding_priority_from_mean rows_frame rows_empty rows_agg (fun x => x)
              "B" (stat 5 nan 1)) as (_ & _ & HM & _ & Hnan & _).
  destruct (breeding_priority_from_mean rows_frame rows_empty rows_agg (fun x => x)
              "A" (stat 3 2.5 4)) as (_ & HH & _).
  split; [apply HM; reflexivity|].
  split; [apply Hnan; reflexivity|].
  destruct (HH eq_refl) as [_ ->]. reflexivity.
Defined.

Lemma breeding_sorted_by_priority_witness :
  map br_pathogen (breeding_of_rows sample_rows) = ["A"; "B"; "C"]
  /\ map br_priority (breeding_of_rows sample_rows) = ["High"; "Medium"; "Low"]
  /\ breeding_of_rows [] = [].
Proof.
  destruct (breeding_sorted_by_priority rows_frame rows_empty rows_agg (fun x => x)
              sample_rows) as (_ & _ & _ & Hrows).
  destruct (breeding_sorted_by_priority rows_frame rows_empty rows_agg (fun x => x)
              []) as (Hempty & _).
  unfold breeding_of_rows.
  rewrite (Hrows sample_rows eq_refl eq_refl), (Hempty eq_refl).
  repeat split; vm_compute; reflexivity.
Defined.

(** Ties keep the order of the rows: two High pathogens around a Low one. *)
Example breeding_ties_keep_order :
  map br_pathogen
    (breeding_of_rows [("Z", stat 3 1 3); ("M", stat 9 1 3); ("A", stat 2 1 3)])
  = ["Z"; "A"; "M"].
Proof. vm_compute. reflexivity. Qed.

(** ** High risk inside [predict]

    The risk calculator gives High to a confidence below [0.6] when enough
    bonuses apply, but [predict] never feeds it such a confidence with a
    profile: a rule candidate has a confidence of at least [0.6], and the
    only lower one, [0.3] for "Unknown", has no profile and stays Low. *)

Lemma spec_candidate_confidence r d c :
  spec_candidate r d = Some c -> (cand_confidence c <? 0.6)%float = false.
Proof.
  intros [Hs ->]%spec_candidate_Some. simpl. revert Hs. unfold spec_raw_score.
  generalize (symptom_matches r d), (temperature_matches r d),
    (humidity_matches r d), (rule_extra r d).
  intros [] [] [] []; vm_compute; congruence.
Qed.

Lemma enhance_prediction_risk result d e :
  _enhance_prediction result d = Some e ->
  risk_level e
  = classify_risk (spec_base_risk (cand_confidence result) d
                     (lookup_profile (cand_pathogen result))).
Proof.
  unfold _enhance_prediction.
  destruct (_calculate_risk_level _ _ _) as [r|] eqn:E; simpl; [|discriminate].
  destruct (_get_management_recommendations _ _ _); simpl; [|discriminate].
  intros [= <-]. simpl. by apply calculate_risk_level_spec.
Qed.

Lemma predict_high_risk_confidence d e :
  e ∈ predict d -> risk_level e = "High" -> (confidence e <? 0.6)%float = false.
Proof.
  unfold predict. destruct (predict_try d) as [k|] eqn:E.
  - destruct (predict_try_pathogens d k E) as (l & Hl & Hk%mapM_Some_1 & _).
    intros (i & Hi)%list_elem_of_lookup.
    destruct (Forall2_lookup_r _ _ _ _ _ Hk Hi) as (c & Hc & He).
    apply list_elem_of_lookup_2 in Hc.
    pose proof (enhance_prediction_risk c d e He) as Hrisk.
    apply enhance_prediction_pathogen in He as [_ ->].
    destruct (rule_based_prediction_cases d l Hl) as [[-> _]|[_ ->]].
    + apply elem_of_spec_candidates in Hc as (r & _ & Hc).
      intros _. by apply (spec_candidate_confidence r d).
    + revert Hc. unfold default_candidates.
      destruct (truthy _); intros ->%list_elem_of_singleton; [reflexivity|].
      rewrite Hrisk. simpl.
      change (lookup_profile "Unknown") with empty_profile.
      unfold spec_base_risk, temperature_favorable, humidity_favorable; simpl.
      destruct (area_large d), (severity_high d); vm_compute; discriminate.
  - intros ->%list_elem_of_singleton. discriminate.
Qed.

(** ** When the fallback is returned *)

Lemma compare_int_Some_number v k c :
  compare_int v k = Some c -> is_number v = true.
Proof. destruct v; simpl; intros; done. Qed.

Lemma ge_int_Some_number v k b : ge_int v k = Some b -> is_number v = true.
Proof.
  unfold ge_int. destruct (compare_int v k) eqn:E; [|discriminate].
  intros _. by eapply compare_int_Some_number.
Qed.

Lemma gt_int_Some_number v k b : gt_int v k = Some b -> is_number v = true.
Proof.
  unfold gt_int. destruct (compare_int v k) eqn:E; [|discriminate].
  intros _. by eapply compare_int_Some_number.
Qed.

Lemma between_Some_number lo v hi b :
  between lo v hi = Some b -> is_number v = true.
Proof.
  unfold between. destruct (ge_int v lo) eqn:E; [|discriminate].
  intros _. by eapply ge_int_Some_number.
Qed.

Lemma any_in_Some_container lit lits v b :
  any_in (lit :: lits) v = Some b -> is_list v || is_str v = true.
Proof. destruct v; intros H; try reflexivity; simpl in H; discriminate. Qed.

Lemma any_in_container lits v :
  is_list v || is_str v = true -> any_in lits v = Some (holds (any_in lits v)).
Proof.
  destruct v; simpl; try discriminate; intros _.
  - induction lits as [|lit rest IH]; simpl; [reflexivity|].
    destruct (is_substring lit s); [reflexivity|exact IH].
  - by apply any_in_list.
Qed.

Lemma accepted_fields d :
  accepted d = true <->
  is_list (dict_get d "symptoms" (VList []))
    || is_str (dict_get d "symptoms" (VList [])) = true
  /\ is_number (dict_get d "temperature" (VInt 25)) = true
  /\ is_number (dict_get d "humidity" (VInt 80)) = true
  /\ is_number (dict_get d "rainfall" (VInt 0)) = true
  /\ is_number (dict_get d "severity" (VInt 5)) = true
  /\ is_number (dict_get d "affected_area" (VInt 25)) = true.
Proof. unfold accepted. rewrite !andb_true_iff. tauto. Qed.

Lemma rule_candidates_accepted d :
  accepted d = true -> rule_candidates d = Some (spec_candidates d).
Proof.
  intros (Hs & Ht & Hh & Hr & _)%accepted_fields.
  destruct (rule_candidates d) as [l|] eqn:E; [f_equal; by apply rule_candidates_spec|].
  revert E. unfold rule_candidates.
  assert (is_Some (blast_score d)) as [s1 ->].
  { unfold blast_score.
    rewrite (any_in_container _ _ Hs), (between_number _ _ _ Ht),
      (ge_int_number _ _ Hh). simpl. eauto. }
  assert (is_Some (blight_score d)) as [s2 ->].
  { unfold blight_score.
    rewrite (any_in_container _ _ Hs), (between_number _ _ _ Ht),
      (ge_int_number _ _ Hh). simpl. eauto. }
  assert (is_Some (bacterial_score d)) as [s3 ->].
  { unfold bacterial_score.
    rewrite (any_in_container _ _ Hs), (between_number _ _ _ Ht),
      (ge_int_number _ _ Hh), (gt_int_number _ _ Hr). simpl. eauto. }
  discriminate.
Qed.

Lemma calculate_risk_level_accepted c d info :
  accepted d = true ->
  _calculate_risk_level c d info = Some (classify_risk (spec_base_risk c d info)).
Proof.
  intros (_ & Ht & Hh & _ & Hs & Ha)%accepted_fields.
  destruct (_calculate_risk_level c d info) as [r|] eqn:E;
    [f_equal; by apply calculate_risk_level_spec|].
  revert E. unfold _calculate_risk_level.
  rewrite favorable_conditions_guard.
  destruct (info_favorable_conditions info) as [fc|]; simpl.
  - rewrite (range_bonus_number _ _ _ Ht); simpl.
    rewrite (range_bonus_number _ _ _ Hh); simpl.
    rewrite (ge_int_number _ _ Hs), (ge_int_number _ _ Ha). discriminate.
  - rewrite (ge_int_number _ _ Hs), (ge_int_number _ _ Ha). discriminate.
Qed.

Lemma get_management_recommendations_accepted p d info :
  accepted d = true ->
  _get_management_recommendations p d info
  = Some (firstn 5 (spec_recommendations d info)).
Proof.
  intros (_ & _ & Hh & _ & Hs & _)%accepted_fields.
  destruct (_get_management_recommendations p d info) as [l|] eqn:E;
    [f_equal; by apply (get_management_recommendations_spec p)|].
  revert E. unfold _get_management_recommendations.
  rewrite (ge_int_number _ _ Hs); simpl.
  rewrite (ge_int_number _ _ Hh). discriminate.
Qed.

Lemma predict_try_accepted d : accepted d = true -> is_Some (predict_try d).
Proof.
  intros H. unfold predict_try, _rule_based_prediction.
  rewrite (rule_candidates_accepted d H); simpl.
  apply mapM_is_Some_2, Forall_forall. intros c _.
  unfold _enhance_prediction; simpl.
  rewrite (calculate_risk_level_accepted _ _ _ H); simpl.
  rewrite (get_management_recommendations_accepted _ _ _ H); simpl. eauto.
Qed.

Lemma calculate_risk_level_Some_numbers c d info r :
  _calculate_risk_level c d info = Some r ->
  is_number (dict_get d "severity" (VInt 5)) = true
  /\ is_number (dict_get d "affected_area" (VInt 25)) = true.
Proof.
  unfold _calculate_risk_level.
  match goal with
  | |- context [mbind _ ?m] => destruct m; simpl; [|discriminate]
  end.
  destruct (ge_int (dict_get d "severity" (VInt 5)) 7) eqn:E1; simpl; [|discriminate].
  destruct (ge_int (dict_get d "affected_area" (VInt 25)) 50) eqn:E2; simpl;
    [|discriminate].
  intros _. eauto using ge_int_Some_number.
Qed.

Lemma blast_score_Some_fields d s :
  blast_score d = Some s ->
  is_list (dict_get d "symptoms" (VList []))
    || is_str (dict_get d "symptoms" (VList [])) = true
  /\ is_number (dict_get d "temperature" (VInt 25)) = true
  /\ is_number (dict_get d "humidity" (VInt 80)) = true.
Proof.
  unfold blast_score. cbv zeta. intros H.
  apply bind_Some in H as (b1 & A1 & H).
  apply bind_Some in H as (b2 & B1 & H).
  apply bind_Some in H as (b3 & G1 & _).
  repeat split;
    eauto using any_in_Some_container, between_Some_number, ge_int_Some_number.
Qed.

Lemma bacterial_score_Some_rainfall d s :
  bacterial_score d = Some s ->
  is_number (dict_get d "rainfall" (VInt 0)) = true.
Proof.
  unfold bacterial_score. cbv zeta. intros H.
  apply bind_Some in H as (b1 & _ & H).
  apply bind_Some in H as (b2 & _ & H).
  apply bind_Some in H as (b3 & _ & H).
  apply bind_Some in H as (b4 & R & _).
  eauto using gt_int_Some_number.
Qed.

Lemma predict_try_Some_accepted d k : predict_try d = Some k -> accepted d = true.
Proof.
  intros E. destruct (predict_try_pathogens d k E) as (l & Hl & Hk & _).
  apply accepted_fields.
  assert (exists s1 s3, blast_score d = Some s1 /\ bacterial_score d = Some s3)
    as (s1 & s3 & E1 & E3).
  { revert Hl. unfold _rule_based_prediction, rule_candidates.
    destruct (blast_score d); simpl; [|discriminate].
    destruct (blight_score d); simpl; [|discriminate].
    destruct (bacterial_score d); simpl; [|discriminate]. eauto. }
  assert (exists c l', l = c :: l') as (c & l' & ->).
  { destruct (rule_based_prediction_cases d l Hl) as [[_ Hne]|[_ ->]].
    - destruct l; [done|eauto].
    - unfold default_candidates. destruct (truthy _); eauto. }
  assert (exists r, _calculate_risk_level (cand_confidence c) d
                      (lookup_profile (cand_pathogen c)) = Some r) as [r Hr].
  { apply mapM_Some_1 in Hk. inversion Hk as [|? e ? ? He _]; subst.
    revert He. unfold _enhance_prediction.
    destruct (_calculate_risk_level _ _ _); simpl; [eauto|discriminate]. }
  apply calculate_risk_level_Some_numbers in Hr as [Hsev Harea].
  apply blast_score_Some_fields in E1 as (Hsym & Htemp & Hhum).
  apply bacterial_score_Some_rainfall in E3.
  auto 10.
Qed.

(** X1: over the observations of this development, whose entries are
    [None], booleans, ints, floats, strings and lists of these, [predict]
    returns the fallback prediction exactly when a test raises: when
    [symptoms] is [None], a boolean or a number, or when one of
    temperature, humidity, rainfall, severity and affected area is [None],
    a string or a list; on every other such observation no prediction is
    named "Unknown Pathogen".  Nothing is said about entries of other
    types (tuples, sets, dicts, numbers of a library). *)
Theorem fallback_exactly_when_ill_typed (d : dict) :
  (accepted d = false <-> predict d = _fallback_prediction d)
  /\ (accepted d = true ->
      forall e, e ∈ predict d -> pathogen e <> "Unknown Pathogen").
Proof.
  assert (forall k, predict_try d = Some k ->
            forall e, e ∈ k -> pathogen e <> "Unknown Pathogen") as Hnames.
  { intros k E e He.
    destruct (predict_try_pathogens d k E) as (l & Hl & _ & Hk).
    assert (pathogen e ∈ map cand_pathogen l) as Hin
      by (rewrite <- Hk; by apply list_elem_of_fmap_2).
    destruct (rule_based_prediction_cases d l Hl) as [[-> _]|[_ ->]].
    - pose proof (spec_candidates_pathogens d) as Hsub.
      pose proof (elem_of_sublist _ _ _ Hin Hsub) as Hin'.
      revert Hin'. rewrite !elem_of_cons, elem_of_nil.
      intros [->|[->|[->|[]]]]; discriminate.
    - revert Hin. unfold default_candidates.
      destruct (truthy _); simpl; intros ->%list_elem_of_singleton; discriminate. }
  split; [split|].
  - intros Hacc. unfold predict.
    destruct (predict_try d) as [k|] eqn:E; [|reflexivity].
    apply predict_try_Some_accepted in E. congruence.
  - intros Hfb. destruct (accepted d) eqn:Hacc; [|reflexivity].
    destruct (predict_try_accepted d Hacc) as [k E].
    unfold predict in Hfb. rewrite E in Hfb.
    exfalso. eapply (Hnames k E).
    + rewrite Hfb. unfold _fallback_prediction.
      apply list_elem_of_singleton. reflexivity.
    + reflexivity.
  - intros Hacc e. destruct (predict_try_accepted d Hacc) as [k E].
    unfold predict. rewrite E. by apply Hnames.
Qed.

(** ** Strong rules, in terms of their tests *)

Lemma spec_candidate_levels r d :
  spec_candidate r d
  = if strong_rule r d
    then Some {| cand_pathogen := rule_pathogen r;
                 cand_confidence := rule_confidence r d |}
    else None.
Proof.
  unfold spec_candidate, spec_raw_score, strong_rule, rule_confidence.
  generalize (symptom_matches r d), (temperature_matches r d),
    (humidity_matches r d), (rule_extra r d).
  intros [] [] [] []; vm_compute; reflexivity.
Qed.

Lemma elem_of_spec_candidates_levels d c :
  c ∈ spec_candidates d <->
  exists r, r ∈ spec_rules /\ strong_rule r d = true
            /\ c = {| cand_pathogen := rule_pathogen r;
                      cand_confidence := rule_confidence r d |}.
Proof.
  rewrite elem_of_spec_candidates. split.
  - intros (r & Hr & Hc). exists r. split; [exact Hr|].
    rewrite spec_candidate_levels in Hc.
    destruct (strong_rule r d); [|discriminate]. by injection Hc as <-.
  - intros (r & Hr & Hs & ->). exists r. split; [exact Hr|].
    by rewrite spec_candidate_levels, Hs.
Qed.

(** X2: a pathogen is a rule candidate exactly when its symptom test holds
    together with at least one of its three other tests, or when all three
    other tests hold without any symptom; a symptom alone, or two
    conditions without a symptom, never make a candidate.  Its confidence
    is [0.95] when all four tests hold, [0.8] for a symptom with two other
    tests, and [0.6000000000000001] otherwise. *)
Theorem candidate_needs_two_tests (d : dict) :
  accepted d = true ->
  exists predictions,
    rule_candidates d = Some predictions
    /\ forall r, r ∈ spec_rules ->
         let s := symptom_matches r d in
         let t := temperature_matches r d in
         let h := humidity_matches r d in
         let x := rule_extra r d in
         (rule_pathogen r ∈ map cand_pathogen predictions
          <-> (s && (t || h || x)) || (t && h && x) = true)
         /\ (forall c, c ∈ predictions -> cand_pathogen c = rule_pathogen r ->
             cand_confidence c
             = if s && t && h && x then 0.95%float
               else if s && ((t && h) || (t && x) || (h && x)) then 0.8%float
               else 0.6000000000000001%float).
Proof.
  intros H. exists (spec_candidates d).
  split; [by apply rule_candidates_accepted|].
  intros r Hr s t h x. subst s t h x. split; [split|].
  - intros (c & Hp & Hc)%list_elem_of_fmap.
    apply elem_of_spec_candidates_levels in Hc as (r' & Hr' & Hs & ->).
    simpl in Hp. by rewrite (rule_pathogen_inj _ _ Hr Hr' Hp).
  - intros Hs. apply list_elem_of_fmap.
    eexists. split; [|apply elem_of_spec_candidates_levels; eauto]. reflexivity.
  - intros c (r' & Hr' & Hs & ->)%elem_of_spec_candidates_levels Hp.
    simpl in *. by rewrite (rule_pathogen_inj _ _ Hr' Hr Hp).
Qed.

Lemma candidate_needs_two_tests_witness :
  symptom_matches blast_rule mixed_obs = false
  /\ exists predictions,
       rule_candidates mixed_obs = Some predictions
       /\ "Magnaporthe oryzae" ∈ map cand_pathogen predictions.
Proof.
  split; [reflexivity|].
  destruct (candidate_needs_two_tests mixed_obs eq_refl) as (l & Hl & Hall).
  exists l. split; [exact Hl|].
  assert (blast_rule ∈ spec_rules) as Hr by apply list_elem_of_here.
  destruct (Hall blast_rule Hr) as [Hiff _]. apply Hiff. reflexivity.
Defined.

(** ** Every prediction of [predict] *)

Lemma enhance_prediction_record c d e :
  _enhance_prediction c d = Some e ->
  let info := lookup_profile (cand_pathogen c) in
  let risk := classify_risk (spec_base_risk (cand_confidence c) d info) in
  e = {| pathogen := cand_pathogen c;
         common_name := default (cand_pathogen c) (info_common_name info);
         pathogen_type := default "Unknown" (info_type info);
         confidence := cand_confidence c;
         risk_level := risk;
         action := _determine_action risk (cand_confidence c);
         recommendations := firstn 5 (spec_recommendations d info);
         favorable_conditions :=
           default empty_conditions (info_favorable_conditions info);
         typical_symptoms := default [] (info_symptoms info) |}.
Proof.
  unfold _enhance_prediction.
  destruct (_calculate_risk_level _ _ _) as [r|] eqn:E1; simpl; [|discriminate].
  destruct (_get_management_recommendations _ _ _) as [l|] eqn:E2; simpl;
    [|discriminate].
  apply calculate_risk_level_spec in E1.
  apply get_management_recommendations_spec in E2. subst r l.
  by intros [= <-].
Qed.

Lemma mapM_enhance_keys d l k :
  mapM (fun result => _enhance_prediction result d) l = Some k ->
  map prediction_key k = map candidate_key l.
Proof.
  intros H%mapM_Some_1.
  induction H as [|c e l k He _ IH]; simpl; [reflexivity|].
  apply enhance_prediction_pathogen in He as [Hp Hc].
  unfold prediction_key at 1, candidate_key at 1. by rewrite Hp, Hc, IH.
Qed.

(** Where a prediction comes from: the fallback, a strong row of the rule
    table, or one of the two default candidates. *)
Lemma elem_of_predict d e :
  e ∈ predict d ->
  e ∈ _fallback_prediction d
  \/ exists c,
       _enhance_prediction c d = Some e
       /\ ((exists r, r ∈ spec_rules /\ strong_rule r d = true
                      /\ c = {| cand_pathogen := rule_pathogen r;
                                cand_confidence := rule_confidence r d |})
           \/ c = {| cand_pathogen := "Magnaporthe oryzae"; cand_confidence := 0.6 |}
           \/ c = {| cand_pathogen := "Unknown"; cand_confidence := 0.3 |}).
Proof.
  unfold predict. destruct (predict_try d) as [k|] eqn:E; [|by left].
  intros (i & Hi)%list_elem_of_lookup. right.
  destruct (predict_try_pathogens d k E) as (l & Hl & Hk%mapM_Some_1 & _).
  destruct (Forall2_lookup_r _ _ _ _ _ Hk Hi) as (c & Hc & He).
  apply list_elem_of_lookup_2 in Hc. exists c. split; [exact He|].
  destruct (rule_based_prediction_cases d l Hl) as [[-> _]|[_ ->]].
  - left. by apply elem_of_spec_candidates_levels.
  - right. revert Hc. unfold default_candidates.
    destruct (truthy _); intros ->%list_elem_of_singleton; auto.
Qed.

Lemma spec_rules_cases r :
  r ∈ spec_rules -> r = blast_rule \/ r = blight_rule \/ r = bacterial_rule.
Proof.
  unfold spec_rules. rewrite !elem_of_cons, elem_of_nil. tauto.
Qed.

Lemma rule_confidence_cases r d :
  rule_confidence r d = 0.95%float \/ rule_confidence r d = 0.8%float
  \/ rule_confidence r d = 0.6000000000000001%float.
Proof.
  unfold rule_confidence.
  repeat match goal with |- context [if ?b then _ else _] => destruct b end; auto.
Qed.

(** X3: enhancement neither drops, reorders nor rescores: the names and
    confidences of the predictions are those of the candidates of
    [_rule_based_prediction], in order. *)
Theorem predictions_keep_the_candidates (d : dict) :
  accepted d = true ->
  exists candidates,
    _rule_based_prediction d = Some candidates
    /\ map (fun e => (pathogen e, confidence e)) (predict d)
       = map (fun c => (cand_pathogen c, cand_confidence c)) candidates
    /\ length (predict d) = length candidates.
Proof.
  intros H. destruct (predict_try_accepted d H) as [k E].
  destruct (predict_try_pathogens d k E) as (l & Hl & Hk & _).
  exists l. unfold predict. rewrite E.
  split; [exact Hl|]. split.
  - exact (mapM_enhance_keys d l k Hk).
  - exact (eq_sym (length_mapM _ _ _ Hk)).
Qed.

Lemma predictions_keep_the_candidates_witness :
  map (fun e => (pathogen e, confidence e)) (predict mixed_obs)
  = [("Magnaporthe oryzae", 0.6000000000000001%float);
     ("Xanthomonas oryzae", 0.95%float)].
Proof.
  destruct (predictions_keep_the_candidates mixed_obs eq_refl) as (l & Hl & -> & _).
  injection Hl as <-. reflexivity.
Defined.

(** X4: every confidence [predict] reports is one of [0.3], [0.6],
    [0.6000000000000001], [0.8] and [0.95]; in particular it lies between
    [0.3] and [0.95], and it is below [0.6] only for the names "Unknown"
    and "Unknown Pathogen". *)
Theorem prediction_confidence_levels (d : dict) (e : EnhancedPrediction) :
  e ∈ predict d ->
  confidence e ∈ [0.3; 0.6; 0.6000000000000001; 0.8; 0.95]%float
  /\ (0.3 <=? confidence e)%float = true
  /\ (confidence e <=? 0.95)%float = true
  /\ ((confidence e <? 0.6)%float = true ->
      pathogen e = "Unknown" \/ pathogen e = "Unknown Pathogen").
Proof.
  intros [->%list_elem_of_singleton|(c & He & Hc)]%elem_of_predict.
  - simpl. split; [set_solver|]. repeat split; auto.
  - apply enhance_prediction_pathogen in He as [-> ->].
    destruct Hc as [(r & _ & _ & ->)|[->| ->]]; simpl.
    + destruct (rule_confidence_cases r d) as [-> |[-> | ->]];
        (split; [set_solver|]); repeat split; try reflexivity; discriminate.
    + split; [set_solver|]. repeat split; try reflexivity; discriminate.
    + split; [set_solver|]. repeat split; auto.
Qed.

Lemma prediction_confidence_levels_witness :
  Forall (fun e => (0.3 <=? confidence e)%float = true
                   /\ (confidence e <=? 0.95)%float = true) (predict scenario_obs).
Proof.
  apply Forall_forall. intros e He.
  destruct (prediction_confidence_levels scenario_obs e He) as (_ & Hlo & Hhi & _).
  auto.
Defined.

Lemma known_risk_and_action (conf : float) (b1 b2 b3 b4 : bool) :
  conf ∈ [0.6; 0.6000000000000001; 0.8; 0.95]%float ->
  let risk :=
    classify_risk (add_if b4 (add_if b3 (add_if b2 (add_if b1 conf 0.1) 0.1) 0.1) 0.1) in
  ((0.8 <=? conf)%float = true /\ risk = "High"
   /\ _determine_action risk conf = "Immediate Treatment")
  \/ ((0.8 <=? conf)%float = false /\ risk = "High"
      /\ _determine_action risk conf = "Urgent Monitoring")
  \/ ((0.8 <=? conf)%float = false /\ risk = "Medium"
      /\ _determine_action risk conf = "Preventive Action").
Proof.
  rewrite !elem_of_cons, elem_of_nil.
  intros [-> |[-> |[-> |[-> |[]]]]]; destruct b1, b2, b3, b4; vm_compute;
    first [ left; repeat split; reflexivity
          | right; left; repeat split; reflexivity
          | right; right; repeat split; reflexivity ].
Qed.

Lemma unknown_risk_and_action (b3 b4 : bool) :
  let risk := classify_risk (add_if b4 (add_if b3 0.3 0.1) 0.1) in
  risk = "Low" /\ _determine_action risk 0.3 = "Monitor & Observe".
Proof. destruct b3, b4; vm_compute; split; reflexivity. Qed.

Lemma rule_pathogen_known r : r ∈ spec_rules -> rule_pathogen r ∈ known_pathogens.
Proof.
  intros [-> |[-> | ->]]%spec_rules_cases; unfold known_pathogens; simpl;
    rewrite !elem_of_cons; auto.
Qed.

(** X5: the risk and the action of a prediction follow its kind.  The
    fallback is Medium with Laboratory Analysis Needed; "Unknown" is always
    Low with Monitor & Observe; a knowledge-base pathogen is never Low: with
    a confidence of at least [0.8] it is High with Immediate Treatment,
    below it is High with Urgent Monitoring or Medium with Preventive
    Action. *)
Theorem prediction_risk_and_action (d : dict) (e : EnhancedPrediction) :
  e ∈ predict d ->
  (pathogen e = "Unknown Pathogen" /\ risk_level e = "Medium"
   /\ action e = "Laboratory Analysis Needed")
  \/ (pathogen e = "Unknown" /\ risk_level e = "Low"
      /\ action e = "Monitor & Observe")
  \/ (pathogen e ∈ known_pathogens
      /\ (((0.8 <=? confidence e)%float = true /\ risk_level e = "High"
           /\ action e = "Immediate Treatment")
          \/ ((0.8 <=? confidence e)%float = false /\ risk_level e = "High"
              /\ action e = "Urgent Monitoring")
          \/ ((0.8 <=? confidence e)%float = false /\ risk_level e = "Medium"
              /\ action e = "Preventive Action"))).
Proof.
  intros [->%list_elem_of_singleton|(c & He & Hc)]%elem_of_predict.
  - left. repeat split; reflexivity.
  - right. apply enhance_prediction_record in He. subst e.
    destruct Hc as [(r & Hr & _ & ->)|[->| ->]];
      cbn [pathogen confidence risk_level action cand_pathogen cand_confidence].
    + right. split; [by apply rule_pathogen_known|].
      unfold spec_base_risk. apply known_risk_and_action.
      destruct (rule_confidence_cases r d) as [-> |[-> | ->]];
        rewrite !elem_of_cons; auto.
    + right. split; [unfold known_pathogens; rewrite !elem_of_cons; auto|].
      unfold spec_base_risk. apply known_risk_and_action.
      rewrite !elem_of_cons; auto.
    + left. split; [reflexivity|].
      change (lookup_profile "Unknown") with empty_profile.
      unfold spec_base_risk, temperature_favorable, humidity_favorable; simpl.
      apply unknown_risk_and_action.
Qed.

Lemma prediction_risk_and_action_witness :
  Forall (fun e => risk_level e = "High" /\ action e = "Immediate Treatment")
    (predict scenario_obs).
Proof.
  apply Forall_forall. intros e He.
  destruct (prediction_risk_and_action scenario_obs e He)
    as [(Hp & _)|[(Hp & _)|(_ & [(_ & Hr & Ha)|[(Hc & _)|(Hc & _)]])]].
  - revert He Hp. vm_compute. intros ->%list_elem_of_singleton. discriminate.
  - revert He Hp. vm_compute. intros ->%list_elem_of_singleton. discriminate.
  - auto.
  - revert He Hc. vm_compute. intros ->%list_elem_of_singleton. discriminate.
  - revert He Hc. vm_compute. intros ->%list_elem_of_singleton. discriminate.
Defined.

(** X6: the descriptive fields of a prediction are determined by its name:
    common name and type are those of the row below, and the typical
    symptoms and favourable conditions are the knowledge base's for that
    name (none for the two unknown names). *)
Theorem prediction_metadata_by_name (d : dict) (e : EnhancedPrediction) :
  e ∈ predict d ->
  (pathogen e, common_name e, pathogen_type e)
    ∈ [("Magnaporthe oryzae", "Rice Blast", "Fungal");
       ("Rhizoctonia solani", "Sheath Blight", "Fungal");
       ("Xanthomonas oryzae", "Bacterial Leaf Blight", "Bacterial");
       ("Unknown", "Unknown", "Unknown");
       ("Unknown Pathogen", "Unknown Disease", "Unknown")]
  /\ typical_symptoms e
     = default [] ((pathogen_knowledge !! pathogen e) ≫= info_symptoms)
  /\ favorable_conditions e
     = default empty_conditions
         ((pathogen_knowledge !! pathogen e) ≫= info_favorable_conditions).
Proof.
  intros [->%list_elem_of_singleton|(c & He & Hc)]%elem_of_predict.
  - split; [|split; reflexivity]. simpl. rewrite !elem_of_cons. auto 10.
  - apply enhance_prediction_record in He. subst e. simpl.
    destruct Hc as [(r & [-> |[-> | ->]]%spec_rules_cases & _ & ->)|[->| ->]];
      simpl; (split; [|split; reflexivity]);
      rewrite !elem_of_cons; auto 10.
Qed.

Lemma prediction_metadata_by_name_witness :
  Forall (fun e => typical_symptoms e
                   = default [] ((pathogen_knowledge !! pathogen e) ≫= info_symptoms))
    (predict scenario_obs).
Proof.
  apply Forall_forall. intros e He.
  apply (prediction_metadata_by_name scenario_obs e He).
Defined.

(** ** What truncation does to the recommendations *)

Lemma pathogen_knowledge_Some p info :
  pathogen_knowledge !! p = Some info ->
  info = magnaporthe_profile \/ info = rhizoctonia_profile
  \/ info = xanthomonas_profile.
Proof.
  unfold pathogen_knowledge. rewrite !lookup_insert_Some, lookup_empty.
  intros [[_ <-]|[_ [[_ <-]|[_ [[_ <-]|[_ ?]]]]]]; auto; discriminate.
Qed.

Lemma elem_of_strings (x : string) (l : list string) :
  x ∈ l <-> existsb (String.eqb x) l = true.
Proof.
  rewrite existsb_exists. split.
  - intros H. exists x. split; [by apply list_elem_of_In|apply String.eqb_refl].
  - intros (y & Hy & ->%String.eqb_eq). by apply list_elem_of_In.
Qed.

Ltac decide_notice :=
  rewrite elem_of_strings; vm_compute; intuition congruence.

(** X7: for a pathogen of the knowledge base the four management actions
    always survive the cut to five entries, and at most one notice does: the
    high-severity notice when the severity is at least 7, otherwise the
    grain notice in the Flowering and Grain filling stages, otherwise the
    ventilation notice when the humidity is at least 85.  So the
    ventilation advice is lost whenever one of the other two applies.  For
    a pathogen outside the knowledge base the list holds the applicable
    notices only, none of them cut. *)
Theorem recommendations_keep_one_notice (p : string) (d : dict)
    (info : Profile) (l : list string) :
  _get_management_recommendations p d info = Some l ->
  (forall management,
     pathogen_knowledge !! p = Some info ->
     info_management info = Some management ->
     l = (if severity_high d then severity_notice :: management
          else management
               ++ (if grain_stage d then [grain_notice]
                   else if humidity_high d then [ventilation_notice] else []))
     /\ (severity_notice ∈ l <-> severity_high d = true)
     /\ (grain_notice ∈ l <-> grain_stage d = true /\ severity_high d = false)
     /\ (ventilation_notice ∈ l <->
         humidity_high d = true /\ severity_high d = false
         /\ grain_stage d = false))
  /\ (pathogen_knowledge !! p = None -> info = lookup_profile p ->
      l = (if severity_high d then [severity_notice] else [])
          ++ (if grain_stage d then [grain_notice] else [])
          ++ (if humidity_high d then [ventilation_notice] else [])).
Proof.
  intros ->%get_management_recommendations_spec. split.
  - intros management Hk Hm.
    apply pathogen_knowledge_Some in Hk.
    assert (management = ["Use resistant varieties";
                          "Apply fungicides at early growth stages";
                          "Improve field drainage"; "Balanced fertilization"]
            \/ management = ["Reduce plant density"; "Balanced nitrogen application";
                             "Apply fungicides at tillering stage";
                             "Improve air circulation"]
            \/ management = ["Use certified seeds"; "Apply copper-based bactericides";
                             "Avoid excessive nitrogen"; "Manage water levels"])
      as Hcases.
    { destruct Hk as [-> |[-> | ->]]; simpl in Hm; injection Hm as <-; auto. }
    clear Hk. unfold spec_recommendations. rewrite Hm; simpl.
    unfold severity_notice, grain_notice, ventilation_notice.
    destruct Hcases as [-> |[-> | ->]];
      destruct (severity_high d), (grain_stage d), (humidity_high d); simpl;
      (split; [reflexivity|]);
      (split; [decide_notice|split; decide_notice]).
  - intros Hk ->. unfold lookup_profile. rewrite Hk; simpl.
    unfold spec_recommendations; simpl.
    unfold severity_notice, grain_notice, ventilation_notice.
    destruct (severity_high d), (grain_stage d), (humidity_high d); reflexivity.
Qed.

Lemma recommendations_keep_one_notice_witness :
  _get_management_recommendations "Rhizoctonia solani"
    (obs [("humidity", VInt 90); ("growth_stage", VStr "Flowering")])
    rhizoctonia_profile
  = Some ["Reduce plant density"; "Balanced nitrogen application";
          "Apply fungicides at tillering stage"; "Improve air circulation";
          "Apply protective measures to prevent grain infection"].
Proof.
  set (d := obs [("humidity", VInt 90); ("growth_stage", VStr "Flowering")]).
  destruct (_get_management_recommendations "Rhizoctonia solani" d
              rhizoctonia_profile) as [l|] eqn:E; [|discriminate E].
  destruct (recommendations_keep_one_notice "Rhizoctonia solani" d
              rhizoctonia_profile l E) as [Hk _].
  destruct (Hk _ eq_refl eq_refl) as (-> & _). reflexivity.
Defined.

(** ** What [predict] depends on *)

Lemma blast_score_same d d' : same_fields d d' -> blast_score d = blast_score d'.
Proof.
  intros (Hs & Ht & Hh & _ & _ & _ & G & _).
  unfold blast_score.
  change (in_strs (dict_get_none d "growth_stage") ["Heading"; "Flowering"])
    with (growth_stage_in ["Heading"; "Flowering"] d).
  by rewrite Hs, Ht, Hh, G.
Qed.

Lemma blight_score_same d d' : same_fields d d' -> blight_score d = blight_score d'.
Proof.
  intros (Hs & Ht & Hh & _ & _ & _ & _ & G & _).
  unfold blight_score.
  change (in_strs (dict_get_none d "growth_stage") ["Tillering"; "Stem elongation"])
    with (growth_stage_in ["Tillering"; "Stem elongation"] d).
  by rewrite Hs, Ht, Hh, G.
Qed.

Lemma bacterial_score_same d d' :
  same_fields d d' -> bacterial_score d = bacterial_score d'.
Proof.
  intros (Hs & Ht & Hh & Hr & _). unfold bacterial_score.
  by rewrite Hs, Ht, Hh, Hr.
Qed.

Lemma rule_based_prediction_same d d' :
  same_fields d d' -> _rule_based_prediction d = _rule_based_prediction d'.
Proof.
  intros H. unfold _rule_based_prediction, rule_candidates, default_candidates.
  rewrite (blast_score_same d d' H), (blight_score_same d d' H),
    (bacterial_score_same d d' H).
  destruct H as (-> & _). reflexivity.
Qed.

Lemma enhance_prediction_same d d' c :
  same_fields d d' -> _enhance_prediction c d = _enhance_prediction c d'.
Proof.
  intros (_ & Ht & Hh & _ & Hsev & Ha & _ & _ & G).
  unfold _enhance_prediction, _calculate_risk_level, _get_management_recommendations.
  change (in_strs (dict_get d "growth_stage" (VStr "Tillering"))
            ["Flowering"; "Grain filling"]) with (grain_stage d).
  by rewrite Ht, Hh, Hsev, Ha, G.
Qed.

Lemma predict_same d d' : same_fields d d' -> predict d = predict d'.
Proof.
  intros H. unfold predict, predict_try.
  rewrite (rule_based_prediction_same d d' H).
  destruct (_rule_based_prediction d') as [l|]; simpl; [|reflexivity].
  rewrite (mapM_ext (fun result => _enhance_prediction result d)
             (fun result => _enhance_prediction result d') l);
    [reflexivity|].
  intros c. by apply enhance_prediction_same.
Qed.

Lemma dict_get_insert_ne (d : dict) k k' v dflt :
  k <> k' -> dict_get (<[k:=v]> d) k' dflt = dict_get d k' dflt.
Proof. intros H. unfold dict_get. by rewrite lookup_insert_ne. Qed.

Lemma dict_get_insert_default (d : dict) k dflt :
  d !! k = None -> dict_get (<[k:=dflt]> d) k dflt = dict_get d k dflt.
Proof. intros H. unfold dict_get. by rewrite lookup_insert_eq, H. Qed.

Lemma dict_get_insert_eq (d : dict) k v dflt : dict_get (<[k:=v]> d) k dflt = v.
Proof. unfold dict_get. by rewrite lookup_insert_eq. Qed.

Lemma dict_get_None (d : dict) k dflt : d !! k = None -> dict_get d k dflt = dflt.
Proof. intros H. unfold dict_get. by rewrite H. Qed.

Lemma dict_get_delete_ne (d : dict) k k' dflt :
  k <> k' -> dict_get (delete k d) k' dflt = dict_get d k' dflt.
Proof. intros H. unfold dict_get. by rewrite lookup_delete_ne. Qed.

Ltac same_fields_by tac :=
  unfold same_fields, growth_stage_in, grain_stage, dict_get_none;
  repeat split; tac.

(** X8: [predict] reads the seven keys symptoms, temperature, humidity,
    rainfall, growth_stage, severity and affected_area and nothing else:
    adding, changing or removing any other entry of the observation leaves
    the result unchanged. *)
Theorem predict_ignores_other_keys (d : dict) (k : string) (v : value) :
  k ∉ observation_keys ->
  predict (<[k:=v]> d) = predict d /\ predict (delete k d) = predict d.
Proof.
  unfold observation_keys. rewrite !not_elem_of_cons. intros (? & ? & ? & ? & ? & ? & ? & _).
  split; apply predict_same.
  - same_fields_by ltac:(rewrite ?dict_get_insert_ne by done; reflexivity).
  - same_fields_by ltac:(rewrite ?dict_get_delete_ne by done; reflexivity).
Qed.

Lemma predict_ignores_other_keys_witness :
  predict (<["sample_id" := VStr "SAMPLE_1"]> scenario_obs) = predict scenario_obs.
Proof.
  apply (predict_ignores_other_keys scenario_obs "sample_id" (VStr "SAMPLE_1")).
  unfold observation_keys. rewrite !not_elem_of_cons, elem_of_nil.
  repeat split; try discriminate. tauto.
Defined.

(** X9: a reading that is absent counts as its default: storing an empty
    symptom list, temperature 25, humidity 80, rainfall 0, severity 5 or
    affected area 25 under a missing key leaves the result unchanged. *)
Theorem missing_reading_is_its_default (d : dict) (k : string) (dflt : value) :
  (k, dflt) ∈ reading_defaults -> d !! k = None ->
  predict (<[k:=dflt]> d) = predict d.
Proof.
  unfold reading_defaults. rewrite !elem_of_cons, elem_of_nil.
  intros [[= -> ->]|[[= -> ->]|[[= -> ->]|[[= -> ->]|[[= -> ->]|[[= -> ->]|[]]]]]]] Hk;
    apply predict_same;
    same_fields_by ltac:(rewrite ?(dict_get_insert_default _ _ _ Hk);
                         rewrite ?dict_get_insert_ne by done; reflexivity).
Qed.

Lemma missing_reading_is_its_default_witness :
  predict (<["humidity" := VInt 80]> ∅) = predict ∅.
Proof.
  apply (missing_reading_is_its_default ∅ "humidity" (VInt 80)); [|reflexivity].
  unfold reading_defaults. rewrite !elem_of_cons. auto.
Defined.

(** X10: an absent growth stage counts as a stage that no test names
    (Seedling, Booting, Maturity, ...), not as the Tillering that the
    recommendations take as default: scoring reads it without default, so
    an explicit Tillering can change the prediction of an observation that
    gives no stage. *)
Theorem missing_growth_stage_is_unnamed (d : dict) :
  d !! "growth_stage" = None ->
  (forall v, in_strs v named_stages = false ->
     predict (<["growth_stage" := v]> d) = predict d)
  /\ stageless_obs !! "growth_stage" = None
  /\ map pathogen (predict stageless_obs) = ["Magnaporthe oryzae"]
  /\ map pathogen (predict (<["growth_stage" := VStr "Tillering"]> stageless_obs))
     = ["Rhizoctonia solani"].
Proof.
  intros Hk. split; [|repeat split; vm_compute; reflexivity].
  intros v Hv. apply predict_same.
  assert (in_strs v ["Heading"; "Flowering"] = false
          /\ in_strs v ["Tillering"; "Stem elongation"] = false
          /\ in_strs v ["Flowering"; "Grain filling"] = false) as (H1 & H2 & H3).
  { revert Hv. unfold named_stages, in_strs; simpl.
    rewrite !orb_false_r, !orb_false_iff. tauto. }
  unfold same_fields, growth_stage_in, grain_stage, dict_get_none.
  rewrite !(dict_get_insert_ne _ "growth_stage") by done.
  rewrite !dict_get_insert_eq, !(dict_get_None _ _ _ Hk).
  rewrite H1, H2, H3. repeat split; reflexivity.
Qed.

Lemma missing_growth_stage_is_unnamed_witness :
  predict (<["growth_stage" := VStr "Booting"]> weak_obs) = predict weak_obs.
Proof.
  destruct (missing_growth_stage_is_unnamed weak_obs eq_refl) as [H _].
  apply H. reflexivity.
Defined.

(** ** How many bonuses make a High risk *)

Lemma classify_by_bonus_count (conf : float) (b1 b2 b3 b4 : bool) :
  conf ∈ [0.6; 0.6000000000000001; 0.8; 0.95]%float ->
  let n := (Nat.b2n b1 + Nat.b2n b2 + Nat.b2n b3 + Nat.b2n b4)%nat in
  classify_risk (add_if b4 (add_if b3 (add_if b2 (add_if b1 conf 0.1) 0.1) 0.1) 0.1)
  = if (0.8 <=? conf)%float then "High"
    else if (conf =? 0.6)%float
         then (if (3 <=? n)%nat then "High" else "Medium")
         else (if (2 <=? n)%nat then "High" else "Medium").
Proof.
  rewrite !elem_of_cons, elem_of_nil.
  intros [-> |[-> |[-> |[-> |[]]]]]; destruct b1, b2, b3, b4; vm_compute; reflexivity.
Qed.

(** X11: for the confidences [predict] gives a named pathogen, the risk is
    High from [0.8] on whatever the conditions; a rule candidate at
    [0.6000000000000001] is High when at least two of the four bonuses
    apply, and the default Magnaporthe candidate at [0.6] only when at least
    three do (two bonuses on [0.6] sum to [0.7999999999999999]); otherwise
    the risk is Medium. *)
Theorem high_risk_by_bonus_count (conf : float) (d : dict) (info : Profile) :
  accepted d = true ->
  conf ∈ [0.6; 0.6000000000000001; 0.8; 0.95]%float ->
  _calculate_risk_level conf d info
  = Some (if (0.8 <=? conf)%float then "High"
          else if (conf =? 0.6)%float
               then (if (3 <=? bonus_count d info)%nat then "High" else "Medium")
               else (if (2 <=? bonus_count d info)%nat then "High" else "Medium")).
Proof.
  intros H Hc. rewrite (calculate_risk_level_accepted conf d info H). f_equal.
  unfold spec_base_risk, bonus_count. by apply classify_by_bonus_count.
Qed.

Lemma high_risk_by_bonus_count_witness :
  _calculate_risk_level 0.6 weak_obs magnaporthe_profile = Some "Medium"
  /\ bonus_count weak_obs magnaporthe_profile = 2%nat.
Proof.
  split; [|reflexivity].
  rewrite (high_risk_by_bonus_count 0.6 weak_obs magnaporthe_profile eq_refl).
  - reflexivity.
  - rewrite !elem_of_cons. auto.
Defined.

(** ** The rule ladder and the knowledge base *)

(** X12: the literals of the rule ladder agree with the knowledge base:
    for each of the three pathogens the symptoms that score are the
    profile's symptoms, the temperature test of the score is the
    temperature test of the risk bonus, and the humidity threshold of the
    score is the lower end of the profile's humidity range, whose upper end
    is 100.  So a temperature that scores for a pathogen also raises its
    risk, and so does a humidity of at most 100. *)
Theorem rule_ladder_agrees_with_knowledge_base (r : Rule) (d : dict) :
  r ∈ spec_rules ->
  exists info,
    pathogen_knowledge !! rule_pathogen r = Some info
    /\ info_symptoms info = Some (rule_symptoms r)
    /\ (fc_temperature <$> info_favorable_conditions info)
       = Some (Some (rule_temperature r))
    /\ (fc_humidity <$> info_favorable_conditions info)
       = Some (Some (rule_humidity r, 100))
    /\ temperature_favorable d info = temperature_matches r d
    /\ humidity_favorable d info
       = humidity_matches r d
         && holds (le_int (dict_get d "humidity" (VInt 80)) 100).
Proof.
  intros [-> |[-> | ->]]%spec_rules_cases;
    [exists magnaporthe_profile|exists rhizoctonia_profile|exists xanthomonas_profile];
    (split; [reflexivity|]); (split; [reflexivity|]); (split; [reflexivity|]);
    (split; [reflexivity|]); (split; [reflexivity|]);
    unfold humidity_favorable, humidity_matches, in_range, profile_conditions,
      between; simpl;
    destruct (ge_int (dict_get d "humidity" (VInt 80)) _) as [[]|]; reflexivity.
Qed.

Lemma rule_ladder_agrees_with_knowledge_base_witness :
  temperature_favorable scenario_obs xanthomonas_profile
  = temperature_matches bacterial_rule scenario_obs.
Proof.
  assert (bacterial_rule ∈ spec_rules) as Hr
    by (unfold spec_rules; rewrite !elem_of_cons; auto).
  destruct (rule_ladder_agrees_with_knowledge_base bacterial_rule scenario_obs Hr)
    as (info & Hk & _ & _ & _ & Ht & _).
  injection Hk as <-. exact Ht.
Defined.

(** ** The class of a base risk *)

(** X13: the risk class is monotone in the base risk: for [x <= y], a High
    [x] gives a High [y] and a Low [y] gives a Low [x]. *)
Theorem risk_class_is_monotone (x y : float) :
  (x <=? y)%float = true ->
  (classify_risk x = "High" -> classify_risk y = "High")
  /\ (classify_risk y = "Low" -> classify_risk x = "Low").
Proof.
  intros Hxy. unfold classify_risk. split.
  - destruct (0.8 <=? x)%float eqn:H8.
    + intros _. by rewrite (leb_trans _ _ _ H8 Hxy).
    + destruct (0.6 <=? x)%float; discriminate.
  - destruct (0.8 <=? y)%float eqn:H8y; [discriminate|].
    destruct (0.6 <=? y)%float eqn:H6y; [discriminate|]. intros _.
    destruct (0.8 <=? x)%float eqn:H8x;
      [by rewrite (leb_trans _ _ _ H8x Hxy) in H8y|].
    destruct (0.6 <=? x)%float eqn:H6x;
      [by rewrite (leb_trans _ _ _ H6x Hxy) in H6y|].
    reflexivity.
Qed.

Lemma risk_class_is_monotone_witness : classify_risk 1.35 = "High".
Proof.
  destruct (risk_class_is_monotone 0.85 1.35 eq_refl) as [H _].
  apply H. reflexivity.
Defined.

(** ** Nested tests *)

Lemma float_compare_Z_ge_mono (f : float) (k k' : Z) :
  k' <= k -> is_ge (float_compare_Z f k) = true ->
  is_ge (float_compare_Z f k') = true.
Proof.
  intros Hk. unfold float_compare_Z.
  destruct (Prim2SF f) as [[]|[]| |s m e]; unfold is_ge; try done.
  - destruct (Z.compare_spec 0 k), (Z.compare_spec 0 k'); try done; lia.
  - destruct (Z.compare_spec 0 k), (Z.compare_spec 0 k'); try done; lia.
  - destruct (0 <=? e).
    + destruct (Z.compare_spec ((if s then Z.neg m else Z.pos m) * 2 ^ e) k),
        (Z.compare_spec ((if s then Z.neg m else Z.pos m) * 2 ^ e) k');
        try done; lia.
    + assert (0 <= 2 ^ (- e)) by apply Z.pow_nonneg, Z.le_0_2 || lia.
      destruct (Z.compare_spec (if s then Z.neg m else Z.pos m) (k * 2 ^ (- e))),
        (Z.compare_spec (if s then Z.neg m else Z.pos m) (k' * 2 ^ (- e)));
        try done; nia.
Qed.

Lemma float_compare_Z_le_mono (f : float) (k k' : Z) :
  k <= k' -> is_le (float_compare_Z f k) = true ->
  is_le (float_compare_Z f k') = true.
Proof.
  intros Hk. unfold float_compare_Z.
  destruct (Prim2SF f) as [[]|[]| |s m e]; unfold is_le; try done.
  - destruct (Z.compare_spec 0 k), (Z.compare_spec 0 k'); try done; lia.
  - destruct (Z.compare_spec 0 k), (Z.compare_spec 0 k'); try done; lia.
  - destruct (0 <=? e).
    + destruct (Z.compare_spec ((if s then Z.neg m else Z.pos m) * 2 ^ e) k),
        (Z.compare_spec ((if s then Z.neg m else Z.pos m) * 2 ^ e) k');
        try done; lia.
    + assert (0 <= 2 ^ (- e)) by apply Z.pow_nonneg, Z.le_0_2 || lia.
      destruct (Z.compare_spec (if s then Z.neg m else Z.pos m) (k * 2 ^ (- e))),
        (Z.compare_spec (if s then Z.neg m else Z.pos m) (k' * 2 ^ (- e)));
        try done; nia.
Qed.

Lemma ge_int_mono v k k' :
  k' <= k -> holds (ge_int v k) = true -> holds (ge_int v k') = true.
Proof.
  intros Hk. unfold ge_int. destruct v; unfold compare_int, holds; cbn [fmap option_fmap option_map default]; try done.
  - destruct (Z.compare_spec (if b then 1 else 0) k),
      (Z.compare_spec (if b then 1 else 0) k'); unfold is_ge; try done; lia.
  - destruct (Z.compare_spec n k), (Z.compare_spec n k'); unfold is_ge; try done; lia.
  - by apply float_compare_Z_ge_mono.
Qed.

Lemma le_int_mono v k k' :
  k <= k' -> holds (le_int v k) = true -> holds (le_int v k') = true.
Proof.
  intros Hk. unfold le_int. destruct v; unfold compare_int, holds; cbn [fmap option_fmap option_map default]; try done.
  - destruct (Z.compare_spec (if b then 1 else 0) k),
      (Z.compare_spec (if b then 1 else 0) k'); unfold is_le; try done; lia.
  - destruct (Z.compare_spec n k), (Z.compare_spec n k'); unfold is_le; try done; lia.
  - by apply float_compare_Z_le_mono.
Qed.

Lemma between_holds lo v hi :
  holds (between lo v hi) = holds (ge_int v lo) && holds (le_int v hi).
Proof.
  unfold between. destruct (ge_int v lo) as [[]|] eqn:E; simpl; try reflexivity.
Qed.

Lemma between_mono lo lo' v hi hi' :
  lo' <= lo -> hi <= hi' ->
  holds (between lo v hi) = true -> holds (between lo' v hi') = true.
Proof.
  intros Hlo Hhi. rewrite !between_holds, !andb_true_iff.
  intros [H1 H2]. eauto using ge_int_mono, le_int_mono.
Qed.

Lemma symptom_listed r d l tag :
  dict_get d "symptoms" (VList []) = VList l ->
  VStr tag ∈ l -> tag ∈ rule_symptoms r -> symptom_matches r d = true.
Proof.
  intros Hs Hl Ht. unfold symptom_matches. rewrite Hs, any_in_VList. simpl.
  apply existsb_exists. exists tag. split; [by apply list_elem_of_In|].
  apply existsb_exists. exists (VStr tag). split; [by apply list_elem_of_In|].
  simpl. apply String.eqb_refl.
Qed.

(** X14: the tests of the three pathogens are nested: a humidity that
    scores for Magnaporthe scores for Rhizoctonia, one that scores for
    Rhizoctonia scores for Xanthomonas, and a temperature that scores for
    Rhizoctonia scores for Xanthomonas.  Since "yellowing" is a symptom of
    both, yellowing together with the temperature or the humidity of
    Rhizoctonia makes [predict] report both Rhizoctonia solani and
    Xanthomonas oryzae. *)
Theorem yellowing_reports_two_pathogens (d : dict) (symptoms : list value) :
  (humidity_matches blast_rule d = true -> humidity_matches blight_rule d = true)
  /\ (humidity_matches blight_rule d = true ->
      humidity_matches bacterial_rule d = true)
  /\ (temperature_matches blight_rule d = true ->
      temperature_matches bacterial_rule d = true)
  /\ (accepted d = true ->
      dict_get d "symptoms" (VList []) = VList symptoms ->
      VStr "yellowing" ∈ symptoms ->
      temperature_matches blight_rule d = true
      \/ humidity_matches blight_rule d = true ->
      "Rhizoctonia solani" ∈ map pathogen (predict d)
      /\ "Xanthomonas oryzae" ∈ map pathogen (predict d)).
Proof.
  assert (humidity_matches blight_rule d = true ->
          humidity_matches bacterial_rule d = true) as Hh
    by (apply ge_int_mono; simpl; lia).
  assert (temperature_matches blight_rule d = true ->
          temperature_matches bacterial_rule d = true) as Ht
    by (apply between_mono; simpl; lia).
  split; [apply ge_int_mono; simpl; lia|].
  split; [exact Hh|]. split; [exact Ht|].
  intros Hacc Hs Hy Hor.
  assert (symptom_matches blight_rule d = true) as S1
    by (apply (symptom_listed _ _ _ "yellowing" Hs Hy); simpl;
        rewrite !elem_of_cons; auto).
  assert (symptom_matches bacterial_rule d = true) as S2
    by (apply (symptom_listed _ _ _ "yellowing" Hs Hy); simpl;
        rewrite !elem_of_cons; auto).
  assert (strong_rule blight_rule d = true) as R1.
  { unfold strong_rule. rewrite S1. destruct Hor as [-> | ->]; simpl;
      rewrite ?orb_true_r; reflexivity. }
  assert (strong_rule bacterial_rule d = true) as R2.
  { unfold strong_rule. rewrite S2.
    destruct Hor as [->%Ht | ->%Hh]; simpl; rewrite ?orb_true_r; reflexivity. }
  destruct (predict_try_accepted d Hacc) as [k E].
  destruct (predict_try_pathogens d k E) as (l & Hl & _ & Hk).
  unfold predict. rewrite E, Hk.
  assert (forall r, r ∈ spec_rules -> strong_rule r d = true ->
            rule_pathogen r ∈ map cand_pathogen l) as Hin.
  { intros r Hr Hstrong.
    assert ({| cand_pathogen := rule_pathogen r;
               cand_confidence := rule_confidence r d |} ∈ spec_candidates d) as Hc
      by (apply elem_of_spec_candidates_levels; eauto).
    destruct (rule_based_prediction_cases d l Hl) as [[-> _]|[He _]].
    - by apply (list_elem_of_fmap_2 cand_pathogen) in Hc.
    - rewrite He in Hc. by apply elem_of_nil in Hc. }
  split.
  - apply (Hin blight_rule); [unfold spec_rules; rewrite !elem_of_cons; auto|exact R1].
  - apply (Hin bacterial_rule); [unfold spec_rules; rewrite !elem_of_cons; auto|exact R2].
Qed.

Lemma yellowing_reports_two_pathogens_witness :
  "Rhizoctonia solani" ∈ map pathogen (predict yellowing_obs)
  /\ "Xanthomonas oryzae" ∈ map pathogen (predict yellowing_obs).
Proof.
  destruct (yellowing_reports_two_pathogens yellowing_obs [VStr "yellowing"])
    as (_ & _ & _ & H).
  apply H; [reflexivity|reflexivity|apply list_elem_of_here|left; reflexivity].
Defined.

(** ** More on the breeding recommendations *)

Section BreedingExtras.

Variable DataFrame : Type.
Variable df_empty : DataFrame -> bool.
Variable groupby_agg : DataFrame -> option (list (string * Stats)).
Variable round2 : float -> float.

Lemma three_blocks_permutation (l : list BreedingRecommendation) :
  Forall (fun x => br_priority x = "High" \/ br_priority x = "Medium"
                   \/ br_priority x = "Low") l ->
  filter (fun x => br_priority x = "High") l
  ++ filter (fun x => br_priority x = "Medium") l
  ++ filter (fun x => br_priority x = "Low") l ≡ₚ l.
Proof.
  induction 1 as [|x l Hx _ IH]; [reflexivity|].
  rewrite !(filter_cons _ x).
  destruct Hx as [Hx|[Hx|Hx]]; rewrite Hx; simpl;
    repeat case_decide; try congruence; simpl.
  - apply perm_skip, IH.
  - rewrite <- Permutation_middle. apply perm_skip, IH.
  - rewrite app_assoc, <- Permutation_middle, <- app_assoc. apply perm_skip, IH.
Qed.

(** X15: when the frame is not empty and the aggregation succeeds, the
    result is a rearrangement of the per-row recommendations: one
    recommendation for each aggregated pathogen, none lost and none
    repeated. *)
Theorem breeding_is_a_rearrangement (df : DataFrame) (rows : list (string * Stats)) :
  df_empty df = false -> groupby_agg df = Some rows ->
  let result := get_breeding_recommendations DataFrame df_empty groupby_agg round2 df in
  result ≡ₚ map (breeding_recommendation round2) rows
  /\ length result = length rows
  /\ map br_pathogen result ≡ₚ map fst rows.
Proof.
  intros He Hg result.
  assert (result ≡ₚ map (breeding_recommendation round2) rows) as Hp.
  { subst result. rewrite (get_breeding_recommendations_rows _ _ _ _ df rows He Hg).
    apply three_blocks_permutation, Forall_forall.
    intros x (row & -> & _)%list_elem_of_fmap.
    destruct (breeding_priority_cases round2 row)
      as [[_ E]|[(_ & _ & E)|(_ & _ & E)]]; auto. }
  split; [exact Hp|]. split.
  - rewrite Hp. apply length_map.
  - rewrite Hp. clear. induction rows as [|[p st] rows IH]; [reflexivity|].
    simpl. rewrite IH. apply Permutation_cons; [|reflexivity].
    unfold breeding_recommendation; simpl.
    by destruct (stat_mean st <? 4)%float, (stat_mean st <? 6)%float.
Qed.

(** X16: a pathogen whose mean resistance is undefined (NaN) is ranked Low
    with the "Maintain" message: both threshold tests fail on a NaN. *)
Theorem undefined_mean_is_low_priority (pathogen : string) (stats : Stats) :
  PrimFloat.is_nan (stat_mean stats) = true ->
  let r := breeding_recommendation round2 (pathogen, stats) in
  br_priority r = "Low"
  /\ br_recommendation r
     = (if (2 <? stat_std stats)%float
        then ("Maintain current resistance levels to " +:+ pathogen)
             +:+ " - Focus on reducing variability between varieties"
        else "Maintain current resistance levels to " +:+ pathogen).
Proof.
  intros Hnan r. subst r. unfold breeding_recommendation; simpl.
  assert (forall k, (stat_mean stats <? k)%float = false) as Hlt.
  { intros k. revert Hnan. unfold PrimFloat.is_nan.
    rewrite FloatAxioms.eqb_spec, ltb_spec. unfold SFeqb, SFltb.
    destruct (Prim2SF (stat_mean stats)) as [[]|[]| |[] m e]; simpl;
      rewrite ?Z.compare_refl, ?Pos.compare_cont_refl; simpl; try discriminate.
    reflexivity. }
  rewrite !Hlt. split; reflexivity.
Qed.

End BreedingExtras.

Lemma breeding_is_a_rearrangement_witness :
  length (breeding_of_rows sample_rows) = 3%nat.
Proof.
  destruct (breeding_is_a_rearrangement rows_frame rows_empty rows_agg (fun x => x)
              sample_rows sample_rows eq_refl eq_refl) as (_ & H & _).
  exact H.
Defined.

Lemma undefined_mean_is_low_priority_witness :
  br_priority (breeding_recommendation (fun x => x) ("A", stat nan 1 0)) = "Low".
Proof.
  destruct (undefined_mean_is_low_priority (fun x => x) "A" (stat nan 1 0) eq_refl)
    as [H _].
  exact H.
Defined.

(** * Properties of the configuration store ([config/settings.py]) *)

Module ConfigProperties.
Import Config.

Example split_dot_examples :
  split_dot "database.host" = ["database"; "host"]
  /\ split_dot "" = [""] /\ split_dot "a." = ["a"; ""]
  /\ split_dot "a..b" = ["a"; ""; "b"].
Proof. repeat split; reflexivity. Qed.

Example set_examples :
  set [("database", CDict [("host", CLeaf (VStr "localhost"))])] "n.m.o" (CLeaf (VInt 1))
  = ([("database", CDict [("host", CLeaf (VStr "localhost"))]);
      ("n", CDict [("m", CDict [("o", CLeaf (VInt 1))])])], true)
  /\ set [("database", CDict [("host", CLeaf (VStr "localhost"))])]
       "database.host.x" (CLeaf (VInt 1))
     = ([("database", CDict [("host", CLeaf (VStr "localhost"))])], false).
Proof. split; reflexivity. Qed.

Example merge_example :
  _merge_config
    [("database", CDict [("host", CLeaf (VStr "h")); ("port", CLeaf (VInt 1))]);
     ("x", CLeaf (VInt 1))]
    [("database", CDict [("port", CLeaf (VInt 2)); ("z", CDict [])]);
     ("x", CDict [("y", CLeaf (VInt 1))]); ("new", CLeaf (VInt 3))]
  = [("database", CDict [("host", CLeaf (VStr "h")); ("port", CLeaf (VInt 2));
                         ("z", CDict [])]);
     ("x", CDict [("y", CLeaf (VInt 1))]); ("new", CLeaf (VInt 3))].
Proof. reflexivity. Qed.

(** ** Entries of a dict *)

Lemma lookup_assign_eq m k v : dict_lookup (dict_assign m k v) k = Some v.
Proof.
  induction m as [|[k' v'] m IH]; simpl.
  - by rewrite String.eqb_refl.
  - destruct (String.eqb k k') eqn:E; simpl; rewrite E; [reflexivity|exact IH].
Qed.

Lemma lookup_assign_ne m k k' v :
  k <> k' -> dict_lookup (dict_assign m k v) k' = dict_lookup m k'.
Proof.
  intros Hne. induction m as [|[k0 v0] m IH]; simpl.
  - by apply String.eqb_neq in Hne as Hne'; rewrite String.eqb_sym, Hne'.
  - destruct (String.eqb k k0) eqn:E; simpl.
    + apply String.eqb_eq in E as ->.
      by apply String.eqb_neq in Hne as Hne'; rewrite (String.eqb_sym k' k0), Hne'.
    + destruct (String.eqb k' k0); [reflexivity|exact IH].
Qed.

Lemma assign_same m k v : dict_lookup m k = Some v -> dict_assign m k v = m.
Proof.
  induction m as [|[k' v'] m IH]; simpl; [discriminate|].
  destruct (String.eqb k k') eqn:E.
  - by intros [= ->].
  - intros H. by rewrite IH.
Qed.

Lemma split_dot_nonempty key : split_dot key <> [].
Proof.
  induction key as [|c rest IH]; simpl; [discriminate|].
  destruct (Ascii.eqb c "."); [discriminate|].
  destruct (split_dot rest); discriminate.
Qed.

(** ** Writing a key *)

Lemma set_keys_step m k k2 ks value :
  set_keys m (k :: k2 :: ks) value
  = let m1 := match dict_lookup m k with
              | None => dict_assign m k (CDict [])
              | Some _ => m
              end in
    match dict_lookup m1 k with
    | Some (CDict sub) =>
        let '(sub', ok) := set_keys sub (k2 :: ks) value in
        (dict_assign m1 k (CDict sub'), ok)
    | _ => (m1, false)
    end.
Proof. reflexivity. Qed.

Lemma set_keys_in_empty keys value :
  keys <> [] -> exists m, set_keys [] keys value = (m, true).
Proof.
  induction keys as [|k [|k2 ks] IH]; [done|simpl; eauto|].
  intros _. destruct IH as [m Hm]; [discriminate|].
  rewrite set_keys_step. cbn [dict_lookup dict_assign].
  rewrite String.eqb_refl, Hm. eauto.
Qed.

Lemma set_keys_ok m keys value m' :
  set_keys m keys value = (m', true) -> walk (CDict m') keys = Some value.
Proof.
  revert m m'. induction keys as [|k [|k2 ks] IH]; intros m m'.
  - discriminate.
  - simpl. intros [= <-]. by rewrite lookup_assign_eq.
  - rewrite set_keys_step. cbv zeta.
    set (m1 := match dict_lookup m k with
               | None => dict_assign m k (CDict [])
               | Some _ => m
               end).
    destruct (dict_lookup m1 k) as [[leaf|sub]|]; try discriminate.
    destruct (set_keys sub (k2 :: ks) value) as [sub' ok] eqn:E.
    intros [= <- ->].
    cbn [walk]. rewrite lookup_assign_eq. by apply (IH sub).
Qed.

Lemma set_keys_failure m keys value m' ok :
  keys <> [] -> set_keys m keys value = (m', ok) ->
  ok = negb (blocked m keys) /\ (ok = false -> m' = m).
Proof.
  revert m m' ok. induction keys as [|k [|k2 ks] IH]; intros m m' ok Hne.
  - done.
  - simpl. intros [= <- <-]. split; [reflexivity|discriminate].
  - rewrite set_keys_step. cbv zeta. cbn [blocked].
    destruct (dict_lookup m k) as [[leaf|sub]|] eqn:Hk.
    + rewrite Hk. intros [= <- <-]. split; [reflexivity|reflexivity].
    + rewrite Hk.
      destruct (set_keys sub (k2 :: ks) value) as [sub' ok'] eqn:E.
      intros [= <- <-].
      destruct (IH sub sub' ok') as [Hok Hsame]; [discriminate|exact E|].
      split; [exact Hok|].
      intros ->%Hsame. by apply assign_same.
    + rewrite lookup_assign_eq.
      destruct (set_keys_in_empty (k2 :: ks) value) as [sub' E]; [discriminate|].
      rewrite E. intros [= <- <-]. split; [reflexivity|discriminate].
Qed.

Lemma set_keys_frame m keys value m' q :
  set_keys m keys value = (m', true) -> diverge keys q = true ->
  walk (CDict m') q = walk (CDict m) q.
Proof.
  revert m m' q. induction keys as [|k [|k2 ks] IH]; intros m m' q.
  - discriminate.
  - simpl. intros [= <-]. destruct q as [|k' q]; [discriminate|].
    destruct (String.eqb k k') eqn:E; [by destruct q|]. intros _.
    apply String.eqb_neq in E. cbn [walk]. by rewrite lookup_assign_ne.
  - rewrite set_keys_step. cbv zeta.
    destruct q as [|k' q]; [discriminate|]. cbn [diverge]. intros Hset Hq.
    destruct (String.eqb k k') eqn:E.
    + apply String.eqb_eq in E as <-. cbn [walk].
      destruct (dict_lookup m k) as [[leaf|sub]|] eqn:Hk.
      * rewrite Hk in Hset. discriminate.
      * rewrite Hk in Hset.
        destruct (set_keys sub (k2 :: ks) value) as [sub' ok] eqn:Es.
        injection Hset as <- ->. rewrite lookup_assign_eq. by apply (IH sub).
      * rewrite lookup_assign_eq in Hset.
        destruct (set_keys [] (k2 :: ks) value) as [sub' ok] eqn:Es.
        injection Hset as <- ->. rewrite lookup_assign_eq.
        rewrite (IH [] sub' q Es Hq).
        destruct q; [discriminate Hq|reflexivity].
    + apply String.eqb_neq in E. cbn [walk].
      destruct (dict_lookup m k) as [[leaf|sub]|] eqn:Hk.
      * rewrite Hk in Hset. discriminate.
      * rewrite Hk in Hset.
        destruct (set_keys sub (k2 :: ks) value) as [sub' ok] eqn:Es.
        injection Hset as <- ->. by rewrite lookup_assign_ne.
      * rewrite lookup_assign_eq in Hset.
        destruct (set_keys [] (k2 :: ks) value) as [sub' ok] eqn:Es.
        injection Hset as <- ->. by rewrite !lookup_assign_ne.
Qed.

(** X17: a value written with [set] is what [get] returns for the same
    key, whatever the default and also when the value is [None] or a
    dict. *)
Theorem get_after_set (config config' : cdict) (key : string) (value dflt : cval) :
  set config key value = (config', true) ->
  get config' key dflt = value.
Proof.
  unfold set, get. intros H. by rewrite (set_keys_ok _ _ _ _ H).
Qed.

Lemma get_after_set_witness :
  get (fst (set default_config "model.confidence_threshold" (CLeaf VNone)))
    "model.confidence_threshold" (CLeaf (VFloat 0.8))
  = CLeaf VNone.
Proof.
  apply (get_after_set default_config _ "model.confidence_threshold").
  reflexivity.
Defined.

(** X18: [set] raises exactly when a proper prefix of the dotted key leads
    to a value that is not a dict, and then it leaves the configuration as
    it was: no intermediate dict has been created. *)
Theorem set_raises_without_change (config config' : cdict) (key : string)
    (value : cval) (ok : bool) :
  set config key value = (config', ok) ->
  (ok = false <-> blocked config (split_dot key) = true)
  /\ (ok = false -> config' = config).
Proof.
  unfold set. intros H.
  destruct (set_keys_failure _ _ _ _ _ (split_dot_nonempty key) H) as [-> Hsame].
  split; [|exact Hsame]. by destruct (blocked config (split_dot key)).
Qed.

Lemma set_raises_without_change_witness :
  set default_config "database.host.name" (CLeaf (VStr "db")) = (default_config, false).
Proof.
  destruct (set default_config "database.host.name" (CLeaf (VStr "db")))
    as [config' ok] eqn:E.
  destruct (set_raises_without_change _ _ _ _ _ E) as [[_ Hok] Hsame].
  assert (ok = false) as -> by (apply Hok; reflexivity).
  by rewrite (Hsame eq_refl).
Defined.

(** ** Merging a configuration file *)

Lemma merge_into_cons key value rest base_config :
  merge_into (CDict ((key, value) :: rest)) base_config
  = merge_into (CDict rest)
      (dict_assign base_config key (merge_entry base_config key value)).
Proof.
  unfold merge_entry. cbn [merge_into].
  destruct (dict_lookup base_config key) as [[leaf|sub]|], value; reflexivity.
Qed.

Lemma unique_keys_cons key value rest :
  unique_keys (CDict ((key, value) :: rest)) = true ->
  dict_lookup rest key = None /\ unique_keys value = true
  /\ unique_keys (CDict rest) = true.
Proof.
  cbn [unique_keys]. rewrite !andb_true_iff, negb_true_iff.
  intros [[Hfresh Hv] Hrest]. split; [|by split].
  clear Hv Hrest. induction rest as [|[k v] rest IH]; [reflexivity|].
  simpl in *. apply orb_false_iff in Hfresh as [-> Hfresh]. by apply IH.
Qed.

Lemma unique_keys_lookup items key value :
  unique_keys (CDict items) = true -> dict_lookup items key = Some value ->
  unique_keys value = true.
Proof.
  induction items as [|[k v] items IH]; [discriminate|].
  intros (_ & Hv & Hrest)%unique_keys_cons. simpl.
  destruct (String.eqb key k); [by intros [= <-]|by apply IH].
Qed.

(** An entry of the merged configuration: the base's where the new
    configuration has none, else the new one, merged with the base's when
    both are dicts. *)
Lemma lookup_merge_into items base_config key :
  unique_keys (CDict items) = true ->
  dict_lookup (merge_into (CDict items) base_config) key
  = match dict_lookup items key with
    | None => dict_lookup base_config key
    | Some value => Some (merge_entry base_config key value)
    end.
Proof.
  revert base_config. induction items as [|[k v] items IH]; intros base_config.
  - reflexivity.
  - intros (Hfresh & _ & Hrest)%unique_keys_cons.
    rewrite merge_into_cons, (IH _ Hrest). cbn [dict_lookup].
    destruct (String.eqb key k) eqn:E.
    + apply String.eqb_eq in E as ->. by rewrite Hfresh, lookup_assign_eq.
    + apply String.eqb_neq in E.
      assert (k <> key) as E' by congruence.
      destruct (dict_lookup items key) as [value|].
      * unfold merge_entry. by rewrite (lookup_assign_ne _ _ _ _ E').
      * by rewrite (lookup_assign_ne _ _ _ _ E').
Qed.

Lemma silent_walk value keys : silent value keys = true -> walk value keys = None.
Proof.
  revert value. induction keys as [|k keys IH]; intros value; [discriminate|].
  simpl. destruct value as [leaf|m]; [reflexivity|].
  destruct (dict_lookup m k); [apply IH|reflexivity].
Qed.

Lemma walk_leaf_overrides new_config base_config keys leaf :
  unique_keys (CDict new_config) = true ->
  walk (CDict new_config) keys = Some (CLeaf leaf) ->
  walk (CDict (merge_into (CDict new_config) base_config)) keys = Some (CLeaf leaf).
Proof.
  revert new_config base_config.
  induction keys as [|k keys IH]; intros new_config base_config Hu; [discriminate|].
  cbn [walk]. rewrite (lookup_merge_into _ _ _ Hu).
  destruct (dict_lookup new_config k) as [value|] eqn:Hk; [|discriminate].
  pose proof (unique_keys_lookup _ _ _ Hu Hk) as Hv.
  unfold merge_entry.
  destruct (dict_lookup base_config k) as [[?|sub]|], value as [?|items];
    try done.
  apply IH. exact Hv.
Qed.

Lemma walk_silent_keeps new_config base_config keys :
  unique_keys (CDict new_config) = true ->
  silent (CDict new_config) keys = true ->
  walk (CDict (merge_into (CDict new_config) base_config)) keys
  = walk (CDict base_config) keys.
Proof.
  revert new_config base_config.
  induction keys as [|k keys IH]; intros new_config base_config Hu; [discriminate|].
  cbn [walk silent]. rewrite (lookup_merge_into _ _ _ Hu).
  destruct (dict_lookup new_config k) as [value|] eqn:Hk; [|reflexivity].
  pose proof (unique_keys_lookup _ _ _ Hu Hk) as Hv.
  unfold merge_entry. intros Hs.
  destruct value as [?|items].
  { destruct keys; discriminate. }
  destruct (dict_lookup base_config k) as [[?|sub]|].
  - rewrite (silent_walk _ _ Hs). destruct keys; [discriminate|reflexivity].
  - by apply IH.
  - by apply silent_walk.
Qed.

(** X20: what the configuration file sets wins: every key that reads as a
    leaf (a string, a number, a boolean, [None], a list) in the new
    configuration reads as the same leaf after [_merge_config], whatever the
    base held there. *)
Theorem merged_file_values_win (base_config new_config : cdict) (key : string)
    (leaf : value) (dflt : cval) :
  unique_keys (CDict new_config) = true ->
  walk (CDict new_config) (split_dot key) = Some (CLeaf leaf) ->
  get (_merge_config base_config new_config) key dflt = CLeaf leaf.
Proof.
  intros Hu Hw. unfold get, _merge_config.
  by rewrite (walk_leaf_overrides _ _ _ _ Hu Hw).
Qed.

Lemma merged_file_values_win_witness :
  get (_merge_config default_config file_config) "database.port" (CLeaf VNone)
  = CLeaf (VInt 6543).
Proof.
  apply (merged_file_values_win default_config file_config "database.port");
    reflexivity.
Defined.

(** X21: what the configuration file does not mention is kept: a key on
    whose path the new configuration has a missing entry reads after
    [_merge_config] as it read in the base, so the other entries of a
    section that the file only partly overrides keep their defaults. *)
Theorem merged_defaults_are_kept (base_config new_config : cdict) (key : string)
    (dflt : cval) :
  unique_keys (CDict new_config) = true ->
  silent (CDict new_config) (split_dot key) = true ->
  get (_merge_config base_config new_config) key dflt = get base_config key dflt.
Proof.
  intros Hu Hs. unfold get, _merge_config.
  by rewrite (walk_silent_keeps _ _ _ Hu Hs).
Qed.

Lemma merged_defaults_are_kept_witness :
  get (_merge_config default_config file_config) "database.host" (CLeaf VNone)
  = CLeaf (VStr "localhost").
Proof.
  rewrite (merged_defaults_are_kept default_config file_config "database.host");
    reflexivity.
Defined.

(** ** Loading a file over the shared defaults *)

Lemma dict_lookup_None m k : dict_lookup m k = None <-> k ∉ m.*1.
Proof.
  induction m as [|[k' v] m IH]; simpl.
  - split; [intros _; apply not_elem_of_nil|done].
  - rewrite not_elem_of_cons. destruct (String.eqb k k') eqn:E.
    + apply String.eqb_eq in E. split; [discriminate|]. by intros [? _].
    + apply String.eqb_neq in E. rewrite IH. tauto.
Qed.

Lemma slot_lookup_None m k : slot_lookup m k = None <-> k ∉ m.*1.
Proof.
  induction m as [|[k' v] m IH]; simpl.
  - split; [intros _; apply not_elem_of_nil|done].
  - rewrite not_elem_of_cons. destruct (String.eqb k k') eqn:E.
    + apply String.eqb_eq in E. split; [discriminate|]. by intros [? _].
    + apply String.eqb_neq in E. rewrite IH. tauto.
Qed.

Lemma unique_keys_NoDup m : unique_keys (CDict m) = true -> NoDup m.*1.
Proof.
  induction m as [|[k v] m IH]; [intros _; constructor|].
  intros (Hfresh & _ & Hrest)%unique_keys_cons. simpl. constructor; [|by apply IH].
  by apply dict_lookup_None.
Qed.

Lemma slot_assign_key m k v x :
  x ∈ (slot_assign m k v).*1 -> x = k \/ x ∈ m.*1.
Proof.
  induction m as [|[k' v'] m IH]; simpl.
  - intros ->%list_elem_of_singleton. by left.
  - destruct (String.eqb k k'); simpl; [by right|].
    rewrite !elem_of_cons. intros [->|Hx]; [by right; left|].
    destruct (IH Hx); auto.
Qed.

Lemma slot_assign_keys m k v :
  NoDup m.*1 -> NoDup (slot_assign m k v).*1.
Proof.
  induction m as [|[k' v'] m IH]; simpl.
  - intros _. apply NoDup_singleton.
  - intros [Hfresh Hm]%NoDup_cons. destruct (String.eqb k k') eqn:E; simpl.
    + by apply NoDup_cons.
    + apply String.eqb_neq in E. apply NoDup_cons. split; [|by apply IH].
      intros [->|Hin]%slot_assign_key; [by apply E|by apply Hfresh].
Qed.

Lemma read_config_lookup mem k :
  dict_lookup (read_config mem) k
  = read_slot (mem_default_config mem) k <$> slot_lookup (mem_config mem) k.
Proof.
  unfold read_config. induction (mem_config mem) as [|[k' v] m IH]; [reflexivity|].
  simpl. destruct (String.eqb k k') eqn:E; [|exact IH].
  apply String.eqb_eq in E as ->. reflexivity.
Qed.

(** Rebinding an entry of [self.config]. *)
Lemma read_config_rebind defaults m k value :
  read_config {| mem_default_config := defaults;
                 mem_config := slot_assign m k (Own value) |}
  = dict_assign (read_config {| mem_default_config := defaults; mem_config := m |})
      k value.
Proof.
  unfold read_config. simpl. induction m as [|[k' v] m IH]; [reflexivity|].
  simpl. destruct (String.eqb k k'); simpl; [reflexivity|]. by rewrite IH.
Qed.

Lemma section_of_assign_ne defaults k k' value :
  k <> k' -> section_of (dict_assign defaults k value) k' = section_of defaults k'.
Proof. intros Hk. unfold section_of. by rewrite lookup_assign_ne. Qed.

(** Writing into a shared dict shows in [self.config] under its key. *)
Lemma read_config_shared defaults m k sub :
  NoDup m.*1 -> slot_lookup m k = Some Shared ->
  read_config {| mem_default_config := dict_assign defaults k (CDict sub);
                 mem_config := m |}
  = dict_assign (read_config {| mem_default_config := defaults; mem_config := m |})
      k (CDict sub).
Proof.
  unfold read_config. simpl. induction m as [|[k' v] m IH]; [discriminate|].
  simpl. intros [Hfresh Hm]%NoDup_cons. destruct (String.eqb k k') eqn:E.
  - apply String.eqb_eq in E as ->. intros [= ->]. simpl.
    unfold section_of at 1. rewrite lookup_assign_eq. f_equal.
    clear IH Hm. induction m as [|[k0 v0] m IH]; [reflexivity|].
    simpl in *. apply not_elem_of_cons in Hfresh as [Hne Hfresh].
    rewrite IH by exact Hfresh. do 2 f_equal.
    destruct v0; [|reflexivity]. simpl. by rewrite section_of_assign_ne.
  - apply String.eqb_neq in E. intros Hk. rewrite (IH Hm Hk). do 2 f_equal.
    destruct v; [|reflexivity]. simpl. by rewrite section_of_assign_ne.
Qed.

(** One round on the shared memory is one round of [_merge_config] on what
    [self.config] reads as. *)
Lemma merge_step_read mem k value :
  NoDup (mem_config mem).*1 ->
  read_config (merge_step mem k value)
  = dict_assign (read_config mem) k (merge_entry (read_config mem) k value)
  /\ NoDup (mem_config (merge_step mem k value)).*1.
Proof.
  intros Hm. unfold merge_step, merge_entry. rewrite read_config_lookup.
  destruct mem as [defaults m]. simpl in *.
  destruct (slot_lookup m k) as [[|[leaf|sub]]|] eqn:Hk, value as [leaf'|new];
    simpl; (split; [|by try apply slot_assign_keys]);
    first [ apply read_config_rebind | by apply read_config_shared ].
Qed.

Lemma merge_shared_read new_config mem :
  NoDup (mem_config mem).*1 ->
  read_config (merge_shared new_config mem)
  = _merge_config (read_config mem) new_config.
Proof.
  unfold _merge_config, merge_shared. revert mem.
  induction new_config as [|[k value] rest IH]; intros mem Hm; [reflexivity|].
  destruct (merge_step_read mem k value Hm) as [Hread Hkeys].
  rewrite merge_into_cons. simpl. rewrite (IH _ Hkeys). by rewrite Hread.
Qed.

Lemma read_shallow_copy defaults :
  unique_keys (CDict defaults) = true ->
  read_config {| mem_default_config := defaults; mem_config := shallow_copy defaults |}
  = defaults.
Proof.
  intros Hu. unfold read_config, shallow_copy. simpl. rewrite map_map. simpl.
  assert (forall m, (forall k v, (k, v) ∈ m -> dict_lookup defaults k = Some v) ->
            map (fun entry =>
                   (fst entry,
                    read_slot defaults (fst entry)
                      match snd entry with
                      | CDict _ => Shared
                      | CLeaf _ => Own (snd entry)
                      end)) m = m) as Hmap.
  { induction m as [|[k v] m IH]; [reflexivity|]. intros Hm. simpl.
    rewrite IH by (intros ? ? ?; apply Hm; by apply list_elem_of_further).
    f_equal. f_equal. destruct v as [leaf|sub]; [reflexivity|]. simpl.
    unfold section_of. by rewrite (Hm k (CDict sub)) by apply list_elem_of_here. }
  apply Hmap. clear Hmap. induction defaults as [|[k v] m IH]; intros k0 v0.
  - by intros ?%elem_of_nil.
  - apply unique_keys_cons in Hu as (Hfresh & _ & Hrest).
    intros [[= -> ->]|Hin]%elem_of_cons; simpl.
    + by rewrite String.eqb_refl.
    + destruct (String.eqb k0 k) eqn:E; [|by apply IH].
      apply String.eqb_eq in E as ->. apply dict_lookup_None in Hfresh.
      exfalso. apply Hfresh. apply list_elem_of_fmap. by exists (k, v0).
Qed.

Lemma slot_lookup_assign_ne m k k' v :
  k <> k' -> slot_lookup (slot_assign m k v) k' = slot_lookup m k'.
Proof.
  intros Hne. induction m as [|[k0 v0] m IH]; simpl.
  - by apply String.eqb_neq in Hne as Hne'; rewrite String.eqb_sym, Hne'.
  - destruct (String.eqb k k0) eqn:E; simpl.
    + apply String.eqb_eq in E as ->.
      by apply String.eqb_neq in Hne as Hne'; rewrite (String.eqb_sym k' k0), Hne'.
    + destruct (String.eqb k' k0); [reflexivity|exact IH].
Qed.

(** What a merge leaves in [self.default_config]. *)
Lemma merge_shared_defaults new_config mem key :
  unique_keys (CDict new_config) = true ->
  dict_lookup (mem_default_config (merge_shared new_config mem)) key
  = match dict_lookup new_config key, slot_lookup (mem_config mem) key with
    | Some (CDict new), Some Shared =>
        Some (CDict (merge_into (CDict new) (section_of (mem_default_config mem) key)))
    | _, _ => dict_lookup (mem_default_config mem) key
    end.
Proof.
  unfold merge_shared. revert mem.
  induction new_config as [|[k value] rest IH]; intros mem.
  - intros _. simpl. by destruct (slot_lookup (mem_config mem) key) as [[|?]|].
  - intros (Hfresh & _ & Hrest)%unique_keys_cons. simpl. rewrite (IH _ Hrest).
    destruct (String.eqb key k) eqn:E.
    + apply String.eqb_eq in E as ->. rewrite Hfresh.
      unfold merge_step. destruct mem as [defaults m]. simpl.
      destruct (slot_lookup m k) as [[|[leaf|sub]]|], value as [leaf'|new];
        simpl; try reflexivity.
      by rewrite lookup_assign_eq.
    + apply String.eqb_neq in E.
      assert (slot_lookup (mem_config (merge_step mem k value)) key
              = slot_lookup (mem_config mem) key
              /\ dict_lookup (mem_default_config (merge_step mem k value)) key
                 = dict_lookup (mem_default_config mem) key) as [Hs Hd].
      { unfold merge_step. destruct mem as [defaults m]. simpl.
        destruct (slot_lookup m k) as [[|[leaf|sub]]|], value as [leaf'|new];
          simpl; rewrite ?slot_lookup_assign_ne, ?lookup_assign_ne by congruence;
          done. }
      rewrite Hs. unfold section_of. rewrite Hd. reflexivity.
Qed.

Lemma slot_lookup_shallow_copy defaults key :
  slot_lookup (shallow_copy defaults) key
  = (fun value => match value with CDict _ => Shared | CLeaf _ => Own value end)
    <$> dict_lookup defaults key.
Proof.
  unfold shallow_copy. induction defaults as [|[k v] m IH]; [reflexivity|].
  simpl. destruct (String.eqb key k); [reflexivity|exact IH].
Qed.

(** X22: loading a configuration file changes [self.default_config] too.
    What [self.config] reads as afterwards is the merge of the file into the
    defaults; and where the defaults and the file both hold a dict under a
    key, [self.default_config] holds the merged dict under that key as well
    (it is the same object), while every other entry of
    [self.default_config] keeps its value. *)
Theorem file_values_reach_the_defaults (defaults file_config : cdict) :
  unique_keys (CDict defaults) = true ->
  unique_keys (CDict file_config) = true ->
  let mem := load_file defaults file_config in
  read_config mem = _merge_config defaults file_config
  /\ (forall key sub new,
        dict_lookup defaults key = Some (CDict sub) ->
        dict_lookup file_config key = Some (CDict new) ->
        dict_lookup (mem_default_config mem) key
        = Some (CDict (merge_into (CDict new) sub))
        /\ dict_lookup (read_config mem) key
           = dict_lookup (mem_default_config mem) key)
  /\ (forall key,
        (forall sub new, dict_lookup defaults key = Some (CDict sub) ->
                         dict_lookup file_config key = Some (CDict new) -> False) ->
        dict_lookup (mem_default_config mem) key = dict_lookup defaults key).
Proof.
  intros Hd Hf mem. subst mem. unfold load_file.
  assert (read_config
            (merge_shared file_config
               {| mem_default_config := defaults;
                  mem_config := shallow_copy defaults |})
          = _merge_config defaults file_config) as Hread.
  { rewrite merge_shared_read, read_shallow_copy; [reflexivity|exact Hd|].
    simpl. unfold shallow_copy. rewrite <- list_fmap_compose.
    by apply unique_keys_NoDup. }
  split; [exact Hread|]. split.
  - intros key sub new Hsub Hnew. rewrite Hread.
    rewrite (merge_shared_defaults _ _ key Hf). simpl.
    rewrite Hnew, slot_lookup_shallow_copy, Hsub. simpl.
    unfold section_of. rewrite Hsub. split; [reflexivity|].
    unfold _merge_config. rewrite (lookup_merge_into _ _ key Hf), Hnew.
    unfold merge_entry. by rewrite Hsub.
  - intros key Hno. rewrite (merge_shared_defaults _ _ key Hf). simpl.
    rewrite slot_lookup_shallow_copy.
    destruct (dict_lookup file_config key) as [[leaf|new]|]; try reflexivity.
    destruct (dict_lookup defaults key) as [[leaf|sub]|]; try reflexivity.
    destruct (Hno sub new eq_refl eq_refl).
Qed.

Lemma file_values_reach_the_defaults_witness :
  walk (CDict (mem_default_config (load_file default_config file_config)))
    ["database"; "port"]
  = Some (CLeaf (VInt 6543)).
Proof.
  destruct (file_values_reach_the_defaults default_config file_config
              eq_refl eq_refl) as (_ & Hshared & _).
  destruct (Hshared "database" _ _ eq_refl eq_refl) as [H _].
  cbn [walk]. rewrite H. reflexivity.
Defined.

(** ** Saving a group of settings *)

Lemma split_dot_dot_free key : dot_free key = true -> split_dot key = [key].
Proof.
  induction key as [|c rest IH]; [reflexivity|]. cbn [dot_free split_dot].
  intros [Hc Hrest]%andb_true_iff. apply negb_true_iff in Hc.
  by rewrite Hc, (IH Hrest).
Qed.

Lemma lookup_Some_key (m : cdict) k value :
  dict_lookup m k = Some value -> k ∈ m.*1.
Proof.
  intros Hk. destruct (decide (k ∈ m.*1)) as [Hin|Hout]; [exact Hin|].
  apply dict_lookup_None in Hout. congruence.
Qed.

Lemma walk_section_dict config section k value :
  walk (CDict config) [section; k] = Some value ->
  blocked config [section; k] = false.
Proof.
  cbn [walk blocked]. by destruct (dict_lookup config section) as [[leaf|sub]|].
Qed.

Lemma diverge_sibling section k k' :
  k <> k' -> diverge [section; k] [section; k'] = true.
Proof.
  intros Hk. cbn [diverge]. rewrite String.eqb_refl.
  apply String.eqb_neq in Hk. by rewrite Hk.
Qed.

Lemma save_under_ok prefix section settings config :
  (forall k, dot_free k = true -> split_dot (prefix +:+ k) = [section; k]) ->
  unique_keys (CDict settings) = true ->
  (forall k, k ∈ settings.*1 -> dot_free k = true) ->
  blocked config [section; ""] = false ->
  exists config',
    save_under prefix config settings = (config', true)
    /\ (forall k value, dict_lookup settings k = Some value ->
         walk (CDict config') [section; k] = Some value)
    /\ (forall q, (forall k, k ∈ settings.*1 -> diverge [section; k] q = true) ->
         walk (CDict config') q = walk (CDict config) q).
Proof.
  intros Hsplit. revert config.
  induction settings as [|[k0 v0] rest IH]; intros config Hu Hfree Hopen.
  - exists config. split; [reflexivity|]. split; [discriminate|reflexivity].
  - apply unique_keys_cons in Hu as (Hfresh & _ & Hrest).
    cbn [save_under]. unfold set.
    rewrite (Hsplit k0) by (apply Hfree; apply list_elem_of_here).
    destruct (set_keys config [section; k0] v0) as [config1 ok] eqn:Hset.
    destruct (set_keys_failure config [section; k0] v0 config1 ok
                ltac:(discriminate) Hset) as [Hok _].
    assert (ok = true) as -> by (rewrite Hok; cbn [blocked] in *; by rewrite Hopen).
    pose proof (set_keys_ok _ _ _ _ Hset) as Hread.
    destruct (IH config1 Hrest) as (config' & Hsave & Hvalues & Hframe).
    { intros k Hk. apply Hfree. by apply list_elem_of_further. }
    { apply walk_section_dict in Hread. cbn [blocked] in *. exact Hread. }
    exists config'. split; [exact Hsave|]. split.
    + intros k value. cbn [dict_lookup]. destruct (String.eqb k k0) eqn:E.
      * apply String.eqb_eq in E as ->. intros [= <-].
        rewrite Hframe; [exact Hread|].
        intros k Hk. apply diverge_sibling. intros ->.
        by apply dict_lookup_None in Hfresh.
      * by apply Hvalues.
    + intros q Hq. rewrite Hframe.
      * apply (set_keys_frame _ _ _ _ _ Hset), Hq, list_elem_of_here.
      * intros k Hk. apply Hq. by apply list_elem_of_further.
Qed.

Lemma save_under_blocked prefix section settings config k0 value :
  (forall k, dot_free k = true -> split_dot (prefix +:+ k) = [section; k]) ->
  dot_free k0 = true ->
  blocked config [section; ""] = true ->
  save_under prefix config ((k0, value) :: settings) = (config, false).
Proof.
  intros Hsplit Hfree Hblocked. cbn [save_under]. unfold set.
  rewrite (Hsplit k0 Hfree).
  destruct (set_keys config [section; k0] value) as [config1 ok] eqn:Hset.
  destruct (set_keys_failure config [section; k0] value config1 ok
              ltac:(discriminate) Hset) as [Hok Hsame].
  assert (ok = false) as -> by (rewrite Hok; cbn [blocked] in *; by rewrite Hblocked).
  by rewrite Hsame.
Qed.

(** X23: [save_settings] on settings whose keys hold no dot.  When the
    application entry of the configuration is not a dict, the first [set]
    raises and nothing is written; otherwise the method returns and every
    setting then reads back under [application.<key>]. *)
Theorem save_settings_round_trip (config settings : cdict) :
  unique_keys (CDict settings) = true ->
  (forall k, k ∈ settings.*1 -> dot_free k = true) ->
  match dict_lookup config "application" with
  | Some (CLeaf _) =>
      save_settings config settings
      = (config, match settings with [] => true | _ => false end)
  | _ =>
      exists config',
        save_settings config settings = (config', true)
        /\ (forall k value dflt, dict_lookup settings k = Some value ->
             get config' ("application." +:+ k) dflt = value)
  end.
Proof.
  intros Hu Hfree. unfold save_settings.
  assert (forall k, dot_free k = true ->
            split_dot ("application." +:+ k) = ["application"; k]) as Hsplit.
  { intros k Hk.
    change (split_dot ("application." +:+ k)) with ("application" :: split_dot k).
    by rewrite (split_dot_dot_free k Hk). }
  assert (blocked config ["application"; ""]
          = match dict_lookup config "application" with
            | Some (CLeaf _) => true
            | _ => false
            end) as Hblocked
    by (cbn [blocked]; by destruct (dict_lookup config "application") as [[?|?]|]).
  destruct (dict_lookup config "application") as [[leaf|sub]|] eqn:Happ;
    [ destruct settings as [|[k0 v0] rest]; [reflexivity|];
      apply (save_under_blocked _ "application"); [exact Hsplit| |exact Hblocked];
      apply Hfree, list_elem_of_here
    | .. ].
  all: destruct (save_under_ok _ "application" settings config Hsplit Hu Hfree Hblocked)
         as (config' & Hsave & Hvalues & Hframe).
  all: exists config'; (split; [exact Hsave|]).
  all: intros k value dflt Hk; unfold get;
       rewrite Hsplit by (by eapply Hfree, lookup_Some_key);
       by rewrite (Hvalues k value Hk).
Qed.

Lemma save_settings_round_trip_witness :
  get (fst (save_settings default_config
              [("debug_mode", CLeaf (VBool true)); ("theme", CLeaf (VStr "dark"))]))
    "application.theme" (CLeaf VNone)
  = CLeaf (VStr "dark").
Proof.
  pose proof (save_settings_round_trip default_config
                [("debug_mode", CLeaf (VBool true)); ("theme", CLeaf (VStr "dark"))]
                eq_refl) as H.
  cbn [dict_lookup default_config String.eqb Ascii.eqb Bool.eqb] in H.
  destruct H as (config' & Hsave & Hvalues).
  { intros k. simpl. rewrite !elem_of_cons, elem_of_nil.
    intros [->|[->|[]]]; reflexivity. }
  rewrite Hsave. apply Hvalues. reflexivity.
Defined.

(** X24: [save_db_settings] stores each setting under its key with every
    [db_] removed.  When the cleaned keys are distinct and hold no dot, and
    the database entry of the configuration is a dict or missing, the
    method returns and every setting reads back under
    [database.<cleaned key>]. *)
Theorem save_db_settings_cleans_keys (config db_settings : cdict) :
  let cleaned := map (fun entry => (clean_key (fst entry), snd entry)) db_settings in
  unique_keys (CDict cleaned) = true ->
  (forall k, k ∈ cleaned.*1 -> dot_free k = true) ->
  blocked config ["database"; ""] = false ->
  exists config',
    save_db_settings config db_settings = (config', true)
    /\ (forall k value dflt, (k, value) ∈ db_settings ->
         get config' ("database." +:+ clean_key k) dflt = value).
Proof.
  intros cleaned Hu Hfree Hopen. unfold save_db_settings. fold cleaned.
  assert (forall k, dot_free k = true ->
            split_dot ("database." +:+ k) = ["database"; k]) as Hsplit.
  { intros k Hk.
    change (split_dot ("database." +:+ k)) with ("database" :: split_dot k).
    by rewrite (split_dot_dot_free k Hk). }
  destruct (save_under_ok _ "database" cleaned config Hsplit Hu Hfree Hopen)
    as (config' & Hsave & Hvalues & Hframe).
  exists config'. split; [exact Hsave|].
  intros k value dflt Hk.
  - assert ((clean_key k, value) ∈ cleaned) as Hin.
    { unfold cleaned. apply list_elem_of_fmap. by exists (k, value). }
    assert (dict_lookup cleaned (clean_key k) = Some value) as Hlookup.
    { clear -Hu Hin. induction cleaned as [|[k' v'] rest IH]; [by apply elem_of_nil in Hin|].
      apply unique_keys_cons in Hu as (Hfresh & _ & Hrest).
      apply elem_of_cons in Hin as [[= -> ->]|Hin]; simpl.
      - by rewrite String.eqb_refl.
      - destruct (String.eqb (clean_key k) k') eqn:E; [|by apply IH].
        apply String.eqb_eq in E as <-. apply dict_lookup_None in Hfresh.
        exfalso. apply Hfresh. apply list_elem_of_fmap.
        by exists (clean_key k, value). }
    unfold get. rewrite Hsplit by (by eapply Hfree, lookup_Some_key).
    by rewrite (Hvalues _ value Hlookup).
Qed.

Lemma save_db_settings_cleans_keys_witness :
  get (fst (save_db_settings default_config db_form)) "database.host" (CLeaf VNone)
  = CLeaf (VStr "db.example").
Proof.
  destruct (save_db_settings_cleans_keys default_config db_form eq_refl)
    as (config' & Hsave & Hvalues).
  { intros k. simpl. rewrite !elem_of_cons, elem_of_nil.
    intros [->|[->|[]]]; reflexivity. }
  { reflexivity. }
  rewrite Hsave.
  apply (Hvalues "db_host" (CLeaf (VStr "db.example")) (CLeaf VNone)).
  unfold db_form. apply list_elem_of_here.
Defined.

(** ** Overrides from the environment ([_load_from_environment]) *)

Section Environment.

Variable getenv : string -> option string.
Variable py_int : string -> option Z.
Variable lower : string -> string.

Local Abbreviation env_value := (Config.env_value getenv).
Local Abbreviation env_step := (Config.env_step getenv).
Local Abbreviation as_int := (Config.as_int py_int).
Local Abbreviation as_flag := (Config.as_flag lower).
Local Abbreviation _load_from_environment :=
  (Config._load_from_environment getenv py_int lower).
Local Abbreviation port_usable := (Config.port_usable getenv py_int).
Local Abbreviation applied := (Config.applied getenv).

Lemma lookup_applied_ne db key name convert k :
  k <> key -> dict_lookup (applied db key name convert) k = dict_lookup db k.
Proof.
  intros Hk. unfold applied.
  destruct (env_value name) as [s|]; [|reflexivity].
  destruct (convert s); [|reflexivity]. apply lookup_assign_ne. congruence.
Qed.

Lemma lookup_applied_eq db key name convert s v :
  env_value name = Some s -> convert s = Some v ->
  dict_lookup (applied db key name convert) key = Some (CLeaf v).
Proof. unfold applied. intros -> ->. apply lookup_assign_eq. Qed.

(** A step on the database section that cannot raise. *)
Lemma database_step name key convert config db :
  dict_lookup config "database" = Some (CDict db) ->
  (forall s, env_value name = Some s -> is_Some (convert s)) ->
  exists config',
    dict_lookup config' "database" = Some (CDict (applied db key name convert))
    /\ forall rest,
         and_then (env_step name "database" key convert config) rest = rest config'.
Proof.
  intros Hdb Hconv. unfold env_step, applied, section_assign. rewrite Hdb.
  destruct (env_value name) as [s|]; [|by exists config].
  destruct (Hconv s eq_refl) as [v ->]. eexists. split; [|reflexivity].
  apply lookup_assign_eq.
Qed.

(** A step whose conversion raises ends the block where it stands. *)
Lemma failing_step name section key convert config rest s :
  env_value name = Some s -> convert s = None ->
  and_then (env_step name section key convert config) rest = config.
Proof. unfold env_step. by intros -> ->. Qed.

(** A step on the application section leaves the database section alone,
    whether it raises or not. *)
Lemma application_step name key convert config db rest :
  dict_lookup config "database" = Some (CDict db) ->
  (forall config', dict_lookup config' "database" = Some (CDict db) ->
                   dict_lookup (rest config') "database" = Some (CDict db)) ->
  dict_lookup (and_then (env_step name "application" key convert config) rest)
    "database" = Some (CDict db).
Proof.
  intros Hdb Hrest. unfold and_then, env_step, section_assign.
  destruct (env_value name) as [s|]; [destruct (convert s) as [v|]|]; simpl;
    try (by apply Hrest); try exact Hdb.
  destruct (dict_lookup config "application") as [[?|m]|]; simpl; try exact Hdb.
  apply Hrest. by rewrite lookup_assign_ne.
Qed.

(** The database section that [_load_from_environment] leaves. *)
Lemma load_from_environment_database config db :
  dict_lookup config "database" = Some (CDict db) ->
  dict_lookup (_load_from_environment config) "database"
  = Some (CDict
      (let db1 := applied db "host" "POSTGRES_HOST" as_str in
       if port_usable
       then applied
              (applied
                 (applied (applied db1 "port" "POSTGRES_PORT" as_int)
                    "database" "POSTGRES_DB" as_str)
                 "user" "POSTGRES_USER" as_str)
              "password" "POSTGRES_PASSWORD" as_str
       else db1)).
Proof.
  intros Hdb. unfold _load_from_environment. cbv zeta.
  assert (forall name s, env_value name = Some s -> is_Some (as_str s)) as Hstr
    by (intros ? s _; by eexists).
  destruct (database_step "POSTGRES_HOST" "host" as_str config db Hdb (Hstr _))
    as (c1 & H1 & ->).
  assert (forall c db',
    dict_lookup c "database" = Some (CDict db') ->
    dict_lookup
      (and_then (env_step "POSTGRES_DB" "database" "database" as_str c) (fun config =>
       and_then (env_step "POSTGRES_USER" "database" "user" as_str config) (fun config =>
       and_then (env_step "POSTGRES_PASSWORD" "database" "password" as_str config)
         (fun config =>
       and_then (env_step "PATHOTRACER_DEBUG" "application" "debug_mode" as_flag config)
         (fun config =>
       and_then (env_step "PATHOTRACER_LOG_LEVEL" "application" "log_level" as_str
                   config)
         (fun config => config)))))) "database"
    = Some (CDict (applied (applied (applied db' "database" "POSTGRES_DB" as_str)
                              "user" "POSTGRES_USER" as_str)
                     "password" "POSTGRES_PASSWORD" as_str))) as Hrest.
  { intros c2 db2 H2.
    destruct (database_step "POSTGRES_DB" "database" as_str c2 _ H2 (Hstr _))
      as (c3 & H3 & ->).
    destruct (database_step "POSTGRES_USER" "user" as_str c3 _ H3 (Hstr _))
      as (c4 & H4 & ->).
    destruct (database_step "POSTGRES_PASSWORD" "password" as_str c4 _ H4 (Hstr _))
      as (c5 & H5 & ->).
    apply application_step; [exact H5|]. intros c6 H6.
    apply application_step; [exact H6|]. auto. }
  unfold port_usable.
  destruct (env_value "POSTGRES_PORT") as [s|] eqn:Hport.
  - case_bool_decide as Hint.
    + destruct (database_step "POSTGRES_PORT" "port" as_int c1 _ H1) as (c2 & H2 & ->).
      { intros s' Hs'. rewrite Hport in Hs'. injection Hs' as <-.
        destruct Hint as [n Hn]. unfold as_int. rewrite Hn. by eexists. }
      by apply Hrest.
    + rewrite (failing_step "POSTGRES_PORT" _ _ as_int c1 _ s); [exact H1|exact Hport|].
      unfold as_int. destruct (py_int s) eqn:E; [|reflexivity].
      exfalso. apply Hint. by eexists.
  - destruct (database_step "POSTGRES_PORT" "port" as_int c1 _ H1) as (c2 & H2 & ->).
    { intros s' Hs'. congruence. }
    by apply Hrest.
Qed.

(** ** Validation after the overrides *)

Lemma env_value_nonempty name s : env_value name = Some s -> s <> "".
Proof.
  unfold Config.env_value. destruct (getenv name) as [s'|]; [|discriminate].
  destruct (String.eqb s' "") eqn:E; [discriminate|].
  intros [= <-]. by apply String.eqb_neq.
Qed.

Lemma env_step_frame name section key convert config k :
  section <> k ->
  dict_lookup (fst (env_step name section key convert config)) k = dict_lookup config k.
Proof.
  intros Hk. unfold Config.env_step, section_assign.
  destruct (env_value name) as [s|]; [|reflexivity].
  destruct (convert s) as [v|]; [|reflexivity].
  destruct (dict_lookup config section) as [[?|m]|]; try reflexivity.
  simpl. by apply lookup_assign_ne.
Qed.

Lemma env_step_missing name section key convert config :
  dict_lookup config section = None ->
  fst (env_step name section key convert config) = config.
Proof.
  intros Hs. unfold Config.env_step, section_assign. rewrite Hs.
  destruct (env_value name) as [s|]; [|reflexivity].
  by destruct (convert s).
Qed.

Lemma and_then_lookup r rest k v :
  dict_lookup (fst r) k = v ->
  (forall config, dict_lookup config k = v -> dict_lookup (rest config) k = v) ->
  dict_lookup (and_then r rest) k = v.
Proof. intros Hr Hrest. unfold and_then. destruct (snd r); auto. Qed.

(** The overrides touch the database and the application section only. *)
Lemma load_from_environment_frame config k :
  k <> "database" -> k <> "application" ->
  dict_lookup (_load_from_environment config) k = dict_lookup config k.
Proof.
  intros Hd Ha. unfold Config._load_from_environment.
  remember (dict_lookup config k) as v eqn:Hv. symmetry in Hv. revert Hv.
  generalize config. clear config.
  repeat (let c := fresh "c" in let H := fresh "H" in
          intros c H; apply and_then_lookup;
          [rewrite env_step_frame by congruence; exact H|]).
  auto.
Qed.

(** Without a database section every database override raises, and the
    section stays missing. *)
Lemma load_from_environment_no_database config :
  dict_lookup config "database" = None ->
  dict_lookup (_load_from_environment config) "database" = None.
Proof.
  unfold Config._load_from_environment. generalize config. clear config.
  do 5 (let c := fresh "c" in let H := fresh "H" in
        intros c H; apply and_then_lookup;
        [rewrite env_step_missing by exact H; exact H|]).
  do 2 (let c := fresh "c" in let H := fresh "H" in
        intros c H; apply and_then_lookup;
        [rewrite env_step_frame by discriminate; exact H|]).
  auto.
Qed.

Lemma not_given_applied_str db key name k :
  not_given (applied db key name as_str) k = true -> not_given db k = true.
Proof.
  unfold Config.applied, not_given.
  destruct (env_value name) as [s|] eqn:Hs; [|done]. simpl.
  destruct (decide (key = k)) as [->|Hne].
  - rewrite lookup_assign_eq. simpl.
    apply env_value_nonempty, String.eqb_neq in Hs. by rewrite Hs.
  - by rewrite lookup_assign_ne.
Qed.

Lemma not_given_applied_ne db key name convert k :
  k <> key -> not_given (applied db key name convert) k = not_given db k.
Proof. intros Hk. unfold not_given. by rewrite lookup_applied_ne. Qed.

Lemma append_when_sublist b b' message (l l' : list string) :
  (b' = true -> b = true) -> l' `sublist_of` l ->
  append_when b' message l' `sublist_of` append_when b message l.
Proof.
  intros Hb Hl. unfold append_when. destruct b'.
  - rewrite Hb by reflexivity. by apply sublist_app.
  - destruct b; [|exact Hl]. by apply sublist_inserts_r.
Qed.

(** X25: the overrides from the environment never add a validation issue:
    when [validate_config] returns on a configuration, it returns on the
    configuration [_load_from_environment] leaves, and its errors are then
    among the errors before, in the same order (a variable that is read is
    a non-empty string, so it can only fill in a host, name or user that
    was not given); the warnings are empty on both sides. *)
Theorem environment_adds_no_issue (config : cdict) (issues : Issues) :
  validate_config config = Some issues ->
  exists issues',
    validate_config (_load_from_environment config) = Some issues'
    /\ errors issues' `sublist_of` errors issues
    /\ warnings issues' = [] /\ warnings issues = [].
Proof.
  unfold validate_config, section_or_empty. cbv zeta.
  rewrite (load_from_environment_frame config "model") by discriminate.
  destruct (dict_lookup config "database") as [[?|db]|] eqn:Hdb.
  - discriminate.
  - rewrite (load_from_environment_database config db Hdb). cbv zeta.
    cbn [mbind option_bind].
    destruct (dict_lookup config "model") as [[?|model_config]|];
      cbn [mbind option_bind]; try discriminate;
      (match goal with
       | |- context [in_unit_interval ?c] =>
           destruct (in_unit_interval c) as [inside|]
       end; cbn [mbind option_bind]; [|discriminate]);
      intros [= <-]; eexists; (split; [reflexivity|]); cbn [errors warnings];
      (split; [|done]);
      (apply append_when_sublist; [done|]);
      repeat (apply append_when_sublist; [|try apply sublist_nil_l]);
      destruct port_usable; intros H;
      repeat first
        [ apply not_given_applied_str in H
        | rewrite not_given_applied_ne in H by discriminate ];
      exact H.
  - rewrite (load_from_environment_no_database config Hdb).
    cbn [mbind option_bind].
    destruct (dict_lookup config "model") as [[?|model_config]|];
      cbn [mbind option_bind]; try discriminate;
      (match goal with
       | |- context [in_unit_interval ?c] =>
           destruct (in_unit_interval c) as [inside|]
       end; cbn [mbind option_bind]; [|discriminate]);
      intros [= <-]; eexists; (split; [reflexivity|]); cbn [errors warnings]; done.
Qed.

(** X26: with a database section in place, [POSTGRES_HOST] always takes
    effect, but the variables read after the port ([POSTGRES_DB],
    [POSTGRES_USER], [POSTGRES_PASSWORD]) take effect only when
    [POSTGRES_PORT] is unset, empty or a number: a port that [int] rejects
    ends the block, and those entries keep the value they had. *)
Theorem bad_port_drops_later_variables (config db : cdict) (dflt : cval) :
  dict_lookup config "database" = Some (CDict db) ->
  let result := _load_from_environment config in
  (forall s, env_value "POSTGRES_HOST" = Some s ->
     get result "database.host" dflt = CLeaf (VStr s))
  /\ (forall name key s,
        (name, key) ∈ later_database_variables -> env_value name = Some s ->
        get result ("database." +:+ key) dflt
        = if port_usable then CLeaf (VStr s)
          else get config ("database." +:+ key) dflt).
Proof.
  intros Hdb result. subst result. unfold get.
  pose proof (load_from_environment_database config db Hdb) as Hload.
  cbv zeta in Hload. split.
  - intros s Hs. change (split_dot "database.host") with ["database"; "host"].
    cbn [walk]. rewrite Hload.
    assert (dict_lookup (applied db "host" "POSTGRES_HOST" as_str) "host"
            = Some (CLeaf (VStr s))) as H1
      by (by apply (lookup_applied_eq _ _ _ _ s)).
    destruct port_usable; [|by rewrite H1].
    rewrite !lookup_applied_ne by discriminate. by rewrite H1.
  - intros name key s Hin Hs. unfold later_database_variables in Hin.
    rewrite !elem_of_cons, elem_of_nil in Hin.
    destruct Hin as [[= -> ->]|[[= -> ->]|[[= -> ->]|[]]]];
      match goal with
      | |- context [split_dot ?k] =>
          let l := eval vm_compute in (split_dot k) in
          change (split_dot k) with l
      end;
      cbn [walk]; rewrite Hload, Hdb;
      (destruct port_usable;
       [ rewrite ?lookup_applied_ne by discriminate;
         by rewrite (lookup_applied_eq _ _ _ _ s (VStr s) Hs eq_refl)
       | by rewrite !lookup_applied_ne by discriminate ]).
Qed.

End Environment.

Lemma bad_port_drops_later_variables_witness :
  get sample_loaded "database.host" (CLeaf VNone) = CLeaf (VStr "db.example")
  /\ get sample_loaded "database.password" (CLeaf VNone) = CLeaf (VStr "").
Proof.
  unfold sample_loaded.
  destruct (bad_port_drops_later_variables sample_env (fun _ => None) (fun s => s)
              default_config _ (CLeaf VNone) eq_refl) as [Hhost Hlater].
  split.
  - by apply Hhost.
  - assert (("POSTGRES_PASSWORD", "password") ∈ later_database_variables) as Hin
      by (unfold later_database_variables; rewrite !elem_of_cons; auto).
    exact (Hlater "POSTGRES_PASSWORD" "password" "secret" Hin eq_refl).
Defined.

Lemma environment_adds_no_issue_witness :
  exists issues',
    validate_config (_load_from_environment sample_env (fun _ => None) (fun s => s)
                       blank_host_config) = Some issues'
    /\ errors issues'
       `sublist_of` ["Database host is required"; "Database user is required"].
Proof.
  destruct (environment_adds_no_issue sample_env (fun _ => None) (fun s => s)
              blank_host_config _ eq_refl) as (issues' & H & Hsub & _).
  exists issues'. split; [exact H|exact Hsub].
Defined.

End ConfigProperties.

(** * Properties of the configuration as dict objects *)

Module ConfigObjectsProperties.
Import ConfigObjects.

Lemma object_lookup_assign_eq o k v :
  object_lookup (object_assign o k v) k = Some v.
Proof.
  induction o as [|[k' v'] o IH]; simpl.
  - by rewrite String.eqb_refl.
  - destruct (String.eqb k k') eqn:E; simpl; rewrite E; [reflexivity|exact IH].
Qed.

Lemma object_lookup_assign_ne o k k' v :
  k <> k' -> object_lookup (object_assign o k v) k' = object_lookup o k'.
Proof.
  intros Hne. induction o as [|[k0 v0] o IH]; simpl.
  - by apply String.eqb_neq in Hne as Hne'; rewrite String.eqb_sym, Hne'.
  - destruct (String.eqb k k0) eqn:E; simpl.
    + apply String.eqb_eq in E as ->.
      by apply String.eqb_neq in Hne as Hne'; rewrite (String.eqb_sym k' k0), Hne'.
    + destruct (String.eqb k' k0); [reflexivity|exact IH].
Qed.

Lemma slot_insert h address o o' address' k :
  h !! address = Some o ->
  slot (<[address := o']> h) address' k
  = if decide (address' = address) then object_lookup o' k else slot h address' k.
Proof.
  intros Ho. unfold slot. destruct (decide (address' = address)) as [->|Hne].
  - rewrite list_lookup_insert_eq; [reflexivity|]. by eapply lookup_lt_Some.
  - by rewrite list_lookup_insert_ne by congruence.
Qed.

Lemma slot_new_object h address k : slot (h ++ [[]]) address k = slot h address k.
Proof.
  unfold slot. destruct (h !! address) as [o|] eqn:Ho.
  - by rewrite (lookup_app_l_Some _ _ _ _ Ho).
  - apply lookup_ge_None in Ho. rewrite lookup_app_r by exact Ho.
    by destruct (address - length h)%nat.
Qed.

Lemma set_keys_unfold h config_ref k k2 ks value :
  set_keys h config_ref (k :: k2 :: ks) value
  = match h !! config_ref with
    | None => (h, false)
    | Some o =>
        match object_lookup o k with
        | None =>
            set_keys
              (<[config_ref := object_assign o k (Ref (length h))]> h ++ [[]])
              (length h) (k2 :: ks) value
        | Some (Ref next) => set_keys h next (k2 :: ks) value
        | Some (Leaf _) => (h, false)
        end
    end.
Proof. reflexivity. Qed.

Lemma writes_unfold h config_ref k k2 ks :
  writes h config_ref (k :: k2 :: ks)
  = match h !! config_ref with
    | None => []
    | Some o =>
        match object_lookup o k with
        | None =>
            (config_ref, k)
            :: writes
                 (<[config_ref := object_assign o k (Ref (length h))]> h ++ [[]])
                 (length h) (k2 :: ks)
        | Some (Ref next) => writes h next (k2 :: ks)
        | Some (Leaf _) => []
        end
    end.
Proof. reflexivity. Qed.

(** [set] changes no slot but the ones it assigns. *)
Lemma set_keys_slots keys h config_ref value h' ok address k :
  set_keys h config_ref keys value = (h', ok) ->
  (address, k) ∉ writes h config_ref keys ->
  slot h' address k = slot h address k.
Proof.
  revert h config_ref. induction keys as [|k1 [|k2 ks] IH]; intros h config_ref.
  - by intros [= <- _].
  - cbn [set_keys writes]. destruct (h !! config_ref) as [o|] eqn:Ho.
    + intros [= <- _] Hw. rewrite (slot_insert _ _ o) by exact Ho.
      destruct (decide (address = config_ref)) as [->|Hne]; [|reflexivity].
      unfold slot. rewrite Ho. apply object_lookup_assign_ne.
      intros ->. apply Hw, list_elem_of_here.
    + by intros [= <- _].
  - rewrite set_keys_unfold, writes_unfold.
    destruct (h !! config_ref) as [o|] eqn:Ho; [|by intros [= <- _]].
    destruct (object_lookup o k1) as [[leaf|next]|] eqn:Hk.
    + by intros [= <- _].
    + apply IH.
    + intros Hset Hw. apply not_elem_of_cons in Hw as [Hne Hw].
      rewrite (IH _ _ Hset Hw), slot_new_object, (slot_insert _ _ o) by exact Ho.
      destruct (decide (address = config_ref)) as [->|Ha]; [|reflexivity].
      unfold slot. rewrite Ho. apply object_lookup_assign_ne. congruence.
Qed.

(** [get] depends on the slots it looks at only. *)
Lemma walk_reads h h' value keys :
  (forall address k, (address, k) ∈ reads h value keys ->
                     slot h' address k = slot h address k) ->
  walk h' value keys = walk h value keys.
Proof.
  revert value. induction keys as [|key_part rest IH]; intros value Hreads.
  - reflexivity.
  - cbn [walk reads] in *. destruct value as [leaf|address]; [reflexivity|].
    rewrite (Hreads address key_part) by apply list_elem_of_here.
    destruct (slot h address key_part) as [v|] eqn:Hv; [|reflexivity].
    apply IH. intros address' k Hin. apply Hreads.
    by apply list_elem_of_further.
Qed.

(** X19: what [set] does to the other keys.  [get] of a key is unchanged by
    a [set] as long as [get] looks at none of the slots that the [set]
    assigns; but when one dict sits under the keys [a] and [b], a [set]
    of [a.k] returns normally and [get] of [b.k] then returns the value
    written, although the two dotted keys part at their first piece. *)
Theorem set_writes_into_shared_dicts (h h' : heap) (config : nat)
    (key key' : string) (value dflt : entry) (ok : bool) :
  set h config key value = (h', ok) ->
  ((forall s, s ∈ reads h (Ref config) (Config.split_dot key') ->
              s ∉ writes h config (Config.split_dot key)) ->
   get h' config key' dflt = get h config key' dflt)
  /\ (forall a b k shared,
        Config.split_dot key = [a; k] -> Config.split_dot key' = [b; k] ->
        slot h config a = Some (Ref shared) ->
        slot h config b = Some (Ref shared) ->
        shared <> config -> is_Some (h !! shared) ->
        ok = true /\ get h' config key' dflt = value).
Proof.
  unfold set, get. intros Hset. split.
  - intros Hsep. rewrite (walk_reads h h'); [reflexivity|].
    intros address k Hin. apply (set_keys_slots _ _ _ _ _ _ _ _ Hset).
    by apply Hsep.
  - intros a b k shared Hkey Hkey' Ha Hb Hne [o Ho].
    rewrite Hkey in Hset. rewrite Hkey'.
    rewrite set_keys_unfold in Hset. unfold slot in Ha, Hb.
    destruct (h !! config) as [root|] eqn:Hroot; [|discriminate].
    rewrite Ha in Hset. cbn [set_keys] in Hset. rewrite Ho in Hset.
    injection Hset as <- <-. split; [reflexivity|].
    cbn [walk]. rewrite (slot_insert _ _ o) by exact Ho.
    rewrite decide_False by congruence. unfold slot at 1. rewrite Hroot, Hb.
    rewrite (slot_insert _ _ o) by exact Ho. rewrite decide_True by reflexivity.
    by rewrite object_lookup_assign_eq.
Qed.

Lemma set_writes_into_shared_dicts_witness :
  get (fst (set shared_heap 0 "a.level" (Leaf (VInt 2)))) 0 "b.level" (Leaf VNone)
  = Leaf (VInt 2)
  /\ get (fst (set shared_heap 0 "a.level" (Leaf (VInt 2)))) 0 "c.level" (Leaf VNone)
     = Leaf (VInt 1).
Proof.
  destruct (set shared_heap 0 "a.level" (Leaf (VInt 2))) as [h' ok] eqn:Hset.
  cbn [fst]. split.
  - destruct (set_writes_into_shared_dicts _ _ _ _ "b.level" _ (Leaf VNone) _ Hset)
      as [_ Hshared].
    apply (Hshared "a" "b" "level" 1%nat); try reflexivity; [discriminate|by eexists].
  - destruct (set_writes_into_shared_dicts _ _ _ _ "c.level" _ (Leaf VNone) _ Hset)
      as [Hframe _].
    rewrite Hframe; [reflexivity|].
    intros s.
    change (reads shared_heap (Ref 0) (Config.split_dot "c.level"))
      with [(0%nat, "c"); (2%nat, "level")].
    change (writes shared_heap 0 (Config.split_dot "a.level"))
      with [(1%nat, "level")].
    rewrite !elem_of_cons, !elem_of_nil. intros [->|[->|[]]] [[=]|[]].
Defined.

End ConfigObjectsProperties.
